(** * es-node-keeper: a shallow embedding and its verified properties

    The repository holds three revisions of one Go program
    ([es-node-keeper.go]): 0.10, 0.13 and 0.19.  Each revision is embedded in
    a module of its own ([V010], [V013], [V019]); what the three share
    literally (the JSON wrappers, [getInvalidNodes], [localNodesToMap]) is
    embedded once.

    Conventions.
    - Go's [int] is the 64-bit two's complement integer of the usual targets:
      a [Z] with the wrap-around written out ([wrap64]).
    - Go's [(T, error)] results are pairs [T * option error]; [None] is [nil].
    - The registry [map[string]map[string]interface{}] always holds the two
      keys ["instance"] and ["lastRestart"] (["lastRestartTimestamp"] in
      0.19): the inner map is the record [Entry]; the outer one a [gmap].
    - Everything outside the process (the cluster's HTTP API, the host's
      service manager, the clock, the file system, the JSON, YAML and time
      parsers of the libraries, the iteration order of a Go map) is the
      interface [Host]; the program is a state-passing function over it
      that also emits the list of its calls ([Event]). *)

From Stdlib Require Import ZArith Lia Ascii String List Permutation.
From stdpp Require Import base gmap strings list fin_maps.

Local Open Scope string_scope.
Local Open Scope list_scope.
Local Open Scope Z_scope.

(** ** Go integers *)

Definition wrap64 (z : Z) : Z := (z + 2 ^ 63) mod 2 ^ 64 - 2 ^ 63.
Definition sub64 (a b : Z) : Z := wrap64 (a - b).
Definition mul64 (a b : Z) : Z := wrap64 (a * b).
Definition int64_range (z : Z) : Prop := - 2 ^ 63 <= z < 2 ^ 63.

(** ** Go strings *)

(** [strings.ToLower] on the bytes of a string.  The ASCII letters are mapped
    as Go maps them; bytes from 128 on are kept.  Go would map the runes they
    encode through [unicode.ToLower], and no rune outside ASCII lowers to a
    letter of "red" or "all", so the comparisons of [nodeKeeper] agree. *)
Definition lowerByte (c : ascii) : ascii :=
  let n := nat_of_ascii c in
  if (65 <=? n)%nat && (n <=? 90)%nat then ascii_of_nat (n + 32) else c.

Fixpoint ToLower (s : string) : string :=
  match s with
  | EmptyString => EmptyString
  | String c s' => String (lowerByte c) (ToLower s')
  end.

(** [strings.Join] *)
Fixpoint Join (l : list string) (sep : string) : string :=
  match l with
  | [] => EmptyString
  | [x] => x
  | x :: l' => x +:+ sep +:+ Join l' sep
  end.

(** ** Data *)

Definition error := string.

Record Node := { Name : string }.

Record LocalNode := { Instance : string; Service : string }.
Record LocalNodes := { Nodes : list LocalNode }.

Record ClusterStatus := { Status : string }.

(** [Transient.Cluster.Routing.Allocation.Enable] is the one field of
    [ClusterSettings]. *)
Record ClusterSettings := { Transient_Cluster_Routing_Allocation_Enable : string }.

(** One value of the registry: [{"instance": ..., "lastRestart": ...}]. *)
Record Entry := { instance : string; lastRestart : Z }.

Definition setLastRestart (e : Entry) (t : Z) : Entry :=
  {| instance := instance e; lastRestart := t |}.

(** ** The host *)

Record Response := { StatusCode : Z; Status_line : string }.

(** [resp, body, errs] of gorequest's [End()]; [gr_errs = []] is [nil]. *)
Record GorequestEnd :=
  { gr_resp : Response; gr_body : string; gr_errs : list error }.

(** net/http: [client.Do] either fails or yields a response, whose body
    [ioutil.ReadAll] then reads (or fails to). *)
Inductive ClientDo :=
| DoErr (err : error)
| DoResp (resp : Response) (readAll : string * option error).

(** [cmd.Run()] with both streams captured. *)
Record ExecResult :=
  { stdout : string; stderr : string; run_err : option error }.

Inductive Level := Debug | Info | Warn | Error | Fatal.

Inductive Event :=
| EvGorequest (url : string) (timeout : Z) (r : GorequestEnd)
| EvHttpDo (url : string) (timeout : Z) (r : ClientDo)
| EvExec (command : string) (args : list string) (r : ExecResult)
| EvReadFile (file : string) (r : string * option error)
| EvNow (unix : Z)
| EvSleep (seconds : Z)
| EvLog (level : Level) (msg : string).

Class Host (W : Type) := {
  gorequest_End : string -> Z -> W -> GorequestEnd * W;
  http_NewRequest : string -> string -> option error;
  http_Client_Do : string -> Z -> W -> ClientDo * W;
  exec_Run : string -> list string -> W -> ExecResult * W;
  ioutil_ReadFile : string -> W -> (string * option error) * W;
  time_Now_Unix : W -> Z * W;
  time_Sleep : Z -> W -> W;
  (* the order in which [range] walks a map this time *)
  map_range_order : W -> list nat * W;
  (* pure library functions *)
  json_Unmarshal_Nodes : string -> list Node * option error;
  json_Unmarshal_ClusterStatus : string -> ClusterStatus * option error;
  json_Unmarshal_ClusterSettings : string -> ClusterSettings * option error;
  yaml_Unmarshal : string -> LocalNodes * option error;
  time_Parse : string -> string -> Z * option error
}.

(** ** The monad: state, emitted events, panic and exit *)

Record St (W : Type) := mkSt { world : W; localNodes : gmap string Entry }.
Arguments mkSt {W}.
Arguments world {W}.
Arguments localNodes {W}.

Inductive Res (W A : Type) :=
| Done (a : A) (s : St W) (tr : list Event)
| Panic (tr : list Event)
| Exit (code : Z) (tr : list Event).
Arguments Done {W A}.
Arguments Panic {W A}.
Arguments Exit {W A}.

Definition M (W A : Type) := St W -> Res W A.

Definition ret {W A} (a : A) : M W A := fun s => Done a s [].

Definition prepend {W A} (tr : list Event) (r : Res W A) : Res W A :=
  match r with
  | Done a s tr' => Done a s (tr ++ tr')
  | Panic tr' => Panic (tr ++ tr')
  | Exit c tr' => Exit c (tr ++ tr')
  end.

Definition bind {W A B} (m : M W A) (k : A -> M W B) : M W B :=
  fun s =>
    match m s with
    | Done a s' tr => prepend tr (k a s')
    | Panic tr => Panic tr
    | Exit c tr => Exit c tr
    end.

#[global] Instance M_ret {W} : MRet (M W) := @ret W.
#[global] Instance M_bind {W} : MBind (M W) := fun A B k m => bind m k.

(** What a run emitted, and the state it ended in (when it did end). *)
Definition events {W A} (r : Res W A) : list Event :=
  match r with Done _ _ tr | Panic tr | Exit _ tr => tr end.

Definition final {W A} (r : Res W A) : option (St W) :=
  match r with Done _ s _ => Some s | _ => None end.

Definition panic {W A} : M W A := fun _ => Panic [].
Definition os_Exit {W A} (code : Z) : M W A := fun _ => Exit code [].

(** A call of the host: run it on the world, emit its event. *)
Definition call {W A} (f : W -> A * W) (ev : A -> Event) : M W A :=
  fun s => let '(a, w) := f (world s) in
           Done a (mkSt w (localNodes s)) [ev a].

Definition getNodes {W} : M W (gmap string Entry) :=
  fun s => Done (localNodes s) s [].
Definition putNodes {W} (m : gmap string Entry) : M W unit :=
  fun s => Done tt (mkSt (world s) m) [].

Definition emit {W} (e : Event) : M W unit := fun s => Done tt s [e].

(** [localNodes[service][key].(int)]: a missing [service] yields a nil inner
    map, a nil interface value, and the type assertion panics. *)
Definition readLastRestart {W} (service : string) : M W Z :=
  fun s => match localNodes s !! service with
           | Some e => Done (lastRestart e) s []
           | None => Panic []
           end.

(** [localNodes[service][key] = t]: assignment into a nil inner map panics. *)
Definition writeLastRestart {W} (service : string) (t : Z) : M W unit :=
  fun s => match localNodes s !! service with
           | Some e => Done tt (mkSt (world s) (<[service := setLastRestart e t]> (localNodes s))) []
           | None => Panic []
           end.

(** [for _, x := range l { body }] over a slice. *)
Fixpoint forEach {W A} (body : A -> M W unit) (l : list A) : M W unit :=
  match l with
  | [] => mret tt
  | x :: l' => body x ;; forEach body l'
  end.

(** ** The order of [range] over a map

    Go leaves it unspecified.  The host supplies a list of numbers, and
    [permute] turns any such list into a rearrangement of the entries. *)

Fixpoint insertAt {A} (n : nat) (x : A) (l : list A) : list A :=
  match n, l with
  | O, _ => x :: l
  | S n', [] => [x]
  | S n', y :: l' => y :: insertAt n' x l'
  end.

Fixpoint permute {A} (order : list nat) (l : list A) : list A :=
  match l with
  | [] => []
  | x :: l' => insertAt (hd O order) x (permute (tl order) l')
  end.

(** ** Functions the three revisions share *)

Section Shared.
Context {W : Type} `{Host W}.

Definition parseNodes (data : string) : list Node * option error :=
  let '(nodes, err) := json_Unmarshal_Nodes data in
  match err with
  | Some _ => (nodes, Some "JSON parse failed")
  | None => (nodes, None)
  end.

Definition parseClusterStatus (data : string) : ClusterStatus * option error :=
  let '(clusterStatus, err) := json_Unmarshal_ClusterStatus data in
  match err with
  | Some _ => (clusterStatus, Some "JSON parse failed")
  | None => (clusterStatus, None)
  end.

Definition parseClusterSettings (data : string) : ClusterSettings * option error :=
  let '(clusterSettings, err) := json_Unmarshal_ClusterSettings data in
  match err with
  | Some _ => (clusterSettings, Some "JSON parse failed")
  | None => (clusterSettings, None)
  end.

(** [result[node.Name] = struct{}{}] for every decoded node. *)
Definition activeSet (nodes : list Node) : gset string :=
  list_to_set (Name <$> nodes).

(** [getInvalidNodes]; [order] is how [range] walks [localNodes] this time. *)
Definition getInvalidNodes (order : list nat) (localNodes : gmap string Entry)
    (activeNodes : gset string) : list string :=
  foldl (fun nodesToRestart '(service, value) =>
           if decide (instance value ∈ activeNodes)
           then nodesToRestart
           else nodesToRestart ++ [service])
        [] (permute order (map_to_list localNodes)).

Definition localNodesToMap (localNodes : LocalNodes) : gmap string Entry :=
  foldl (fun nodes localNode =>
           <[Service localNode := {| instance := Instance localNode; lastRestart := 0 |}]> nodes)
        ∅ (Nodes localNodes).

Definition sleepFor (seconds : Z) : M W unit :=
  call (fun w => (tt, time_Sleep seconds w)) (fun _ => EvSleep seconds).

(** [int(time.Now().Unix())] *)
Definition timeNow : M W Z :=
  call (fun w => let '(t, w') := time_Now_Unix w in (wrap64 t, w')) EvNow.

Definition rangeOrder : M W (list nat) :=
  fun s => let '(o, w) := map_range_order (world s) in Done o (mkSt w (localNodes s)) [].

Definition logAt (level : Level) (msg : string) : M W unit := emit (EvLog level msg).

End Shared.

(** [const interval int = 30] in every revision. *)
Definition interval : Z := 30.

(** ** Revision 0.19 *)

Module V019.

Record Flags := {
  esUrl : string;                 (* --url *)
  timeout : Z;                    (* --timeout *)
  config : string;                (* --config *)
  restartExclusionPeriod : Z;     (* --restart-exclusion-period, seconds *)
  dryRun : bool;                  (* --dry-run *)
  verbose : bool                  (* --verbose *)
}.

Definition systemdDateLayout : string := "Mon 2006-01-02 15:04:05 MST".

(** The regular expression [ActiveEnterTimestamp=([ a-zA-Z0-9:-]+)] of
    [getSystemdServiceActiveEnterTimestamp], matched by hand:
    [FindStringSubmatch] returns the leftmost match (the group is greedy) as
    [whole; group], or nothing. *)
Definition tsChar (c : ascii) : bool :=
  let n := nat_of_ascii c in
  ((n =? 32) || ((97 <=? n) && (n <=? 122)) || ((65 <=? n) && (n <=? 90))
   || ((48 <=? n) && (n <=? 57)) || (n =? 58) || (n =? 45))%nat.

Fixpoint takeWhile (p : ascii -> bool) (s : string) : string :=
  match s with
  | EmptyString => EmptyString
  | String c s' => if p c then String c (takeWhile p s') else EmptyString
  end.

Fixpoint stripPrefix (p s : string) : option string :=
  match p, s with
  | EmptyString, _ => Some s
  | String a p', String b s' => if Ascii.eqb a b then stripPrefix p' s' else None
  | String _ _, EmptyString => None
  end.

Fixpoint FindStringSubmatch (s : string) : list string :=
  let later := match s with
               | EmptyString => []
               | String _ s' => FindStringSubmatch s'
               end in
  match stripPrefix "ActiveEnterTimestamp=" s with
  | Some rest =>
      match takeWhile tsChar rest with
      | EmptyString => later
      | g => ["ActiveEnterTimestamp=" +:+ g; g]
      end
  | None => later
  end.

Section Program.
Context {W : Type} `{Host W}.
Variable flags : Flags.

Definition slog := @logAt W.

Definition httpGet (url : string) : M W (string * option error) :=
  match http_NewRequest "GET" url with
  | Some err => mret (EmptyString, Some err)
  | None =>
      r ← call (http_Client_Do url (timeout flags)) (EvHttpDo url (timeout flags));
      match r with
      | DoErr err => mret (EmptyString, Some err)
      | DoResp resp (body, Some err) => mret (EmptyString, Some err)
      | DoResp resp (body, None) => mret (body, None)
      end
  end.

Definition parseConfig (file : string) : M W (LocalNodes * option error) :=
  let nodes := {| Nodes := [] |} in
  '(source, err) ← call (ioutil_ReadFile file) (EvReadFile file);
  match err with
  | None =>
      let '(nodes, err) := yaml_Unmarshal source in
      match err with
      | Some e => mret (nodes, Some e)
      | None => mret (nodes, None)
      end
  | Some _ =>
      slog Warn "Cannot get local nodes from config file, using empty config" ;;
      mret (nodes, None)
  end.

Definition getActiveNodes (esUrl : string) : M W (gset string * option error) :=
  let url := esUrl +:+ "/_cat/nodes?h=name&format=json" in
  '(esData, err) ← httpGet url;
  match err with
  | Some e => mret (∅, Some e)
  | None =>
      let '(nodes, err) := parseNodes esData in
      match err with
      | Some e => mret (∅, Some e)
      | None => mret (activeSet nodes, None)
      end
  end.

Definition getClusterStatus (esUrl : string) : M W (string * option error) :=
  let url := esUrl +:+ "/_cluster/health" in
  '(esData, err) ← httpGet url;
  match err with
  | Some e => mret (EmptyString, Some e)
  | None =>
      let '(clusterStatus, err) := parseClusterStatus esData in
      match err with
      | Some e => mret (EmptyString, Some e)
      | None => mret (Status clusterStatus, None)
      end
  end.

Definition getClusterRoutingAllocation (esUrl : string) : M W (string * option error) :=
  let url := esUrl +:+ "/_cluster/settings" in
  '(esData, err) ← httpGet url;
  match err with
  | Some e => mret (EmptyString, Some e)
  | None =>
      let '(clusterRoutingAllocation, err) := parseClusterSettings esData in
      match err with
      | Some e => mret (EmptyString, Some e)
      | None => mret (Transient_Cluster_Routing_Allocation_Enable clusterRoutingAllocation, None)
      end
  end.

Definition executeCommand (command : string) (args : list string)
    : M W (string * option error) :=
  slog Debug "Executing" ;;
  r ← call (exec_Run command args) (EvExec command args);
  match run_err r with
  | Some err => mret (EmptyString, Some (err +:+ ": " +:+ stderr r))
  | None => mret (stdout r, None)
  end.

Definition restartSystemdService (service : string) : M W (option error) :=
  '(_, err) ← executeCommand "systemctl" ["restart"; service];
  match err with
  | Some e => mret (Some ("Command execution fail: " +:+ e))
  | None => mret None
  end.

Definition getSystemdServiceActiveEnterTimestamp (service : string)
    : M W (Z * option error) :=
  '(stdout, err) ← executeCommand "systemctl"
      ["--no-pager"; "--property=ActiveEnterTimestamp"; "show"; service];
  match err with
  | Some e => mret (0, Some ("Command execution fail: " +:+ e))
  | None =>
      let findStrResult := FindStringSubmatch stdout in
      match findStrResult with
      | _ :: group :: _ =>
          let '(timestamp, err) := time_Parse systemdDateLayout group in
          match err with
          | Some e => mret (0, Some ("Parse date failed: " +:+ e))
          | None => mret (wrap64 timestamp, None)
          end
      | _ => mret (0, Some "Cannot find timestamp string in command output")
      end
  end.

Definition sleepLoop : M W unit := sleepFor interval.

(** The body of [for _, service := range invalidNodes]. *)
Definition nodeKeeper_service (esUrl : string) (service : string) : M W unit :=
  let systemdService := service +:+ ".service" in
  '(serviceActiveEnterTimestamp, err) ← getSystemdServiceActiveEnterTimestamp systemdService;
  match err with
  | None => writeLastRestart service serviceActiveEnterTimestamp
  | Some _ => slog Warn "Cannot get systemd service running time"
  end ;;
  now ← timeNow;
  last ← readLastRestart service;
  if restartExclusionPeriod flags <? sub64 now last then
    '(clusterStatus, err) ← getClusterStatus esUrl;
    match err with
    | Some _ => slog Warn "Cannot get cluster status"
    | None =>
        '(clusterRoutingAllocation, err) ← getClusterRoutingAllocation esUrl;
        match err with
        | Some _ => slog Warn "Cannot get cluster routing allocation"
        | None =>
            if String.eqb clusterRoutingAllocation EmptyString then
              slog Warn "Cluster routing allocation is empty"
            else if negb (String.eqb (ToLower clusterStatus) "red")
                    && String.eqb (ToLower clusterRoutingAllocation) "all" then
              slog Info "Local node is not an active member of the cluster, restarting service" ;;
              if dryRun flags then
                slog Info "Dry run, skipping"
              else
                err ← restartSystemdService systemdService;
                match err with
                | None =>
                    slog Info "Service restarted" ;;
                    writeLastRestart service now
                | Some _ => slog Error "Cannot restart service"
                end
            else
              slog Debug "Cannot restart service due to cluster conditions"
        end
    end
  else
    slog Debug "Cannot restart service because the minimum time between restarts has not been met".

(** One pass of the [for { ... }] of [nodeKeeper]. *)
Definition nodeKeeper_pass (esUrl : string) : M W unit :=
  '(activeNodes, err) ← getActiveNodes esUrl;
  match err with
  | Some _ =>
      slog Warn "Cannot get active nodes from cluster" ;;
      sleepLoop
  | None =>
      order ← rangeOrder;
      localNodes ← getNodes;
      let invalidNodes := getInvalidNodes order localNodes activeNodes in
      (if (0 <? length invalidNodes)%nat then
         forEach (nodeKeeper_service esUrl) invalidNodes
       else
         slog Debug "All local nodes are active members of the cluster") ;;
      sleepLoop
  end.

(** [nodeKeeper] never returns; [passes] bounds how much of the run is
    observed. *)
Fixpoint nodeKeeper (passes : nat) (esUrl : string) : M W unit :=
  match passes with
  | O => mret tt
  | S n => nodeKeeper_pass esUrl ;; nodeKeeper n esUrl
  end.

(** [main]; the goroutine it starts is the only activity once [select {}]
    is reached, so it is run in place, on the map [localNodesToMap] built. *)
Definition main (passes : nat) : M W unit :=
  slog Info "Starting" ;;
  (if dryRun flags then slog Info "Running in dry run mode" else mret tt) ;;
  '(localNodes, err) ← parseConfig (config flags);
  match err with
  | Some _ =>
      slog Error "Cannot get local nodes from config" ;;
      os_Exit 1
  | None =>
      slog Info "Loaded" ;;
      slog Info "Elasticsearch URL" ;;
      putNodes (localNodesToMap localNodes) ;;
      nodeKeeper passes (esUrl flags)
  end.

End Program.
End V019.

(** ** Revision 0.13 *)

Module V013.

Record Flags := {
  esUrl : string;                 (* --url *)
  timeout : Z;                    (* --timeout *)
  config : string;                (* --config *)
  noRestartTime : Z;              (* --no-restart-time, minutes *)
  dryRun : bool;                  (* --dry-run *)
  verbose : bool                  (* --verbose *)
}.

Section Program.
Context {W : Type} `{Host W}.
Variable flags : Flags.

Definition slog := @logAt W.

Definition httpGet (url : string) : M W (string * option error) :=
  match http_NewRequest "GET" url with
  | Some err => mret (EmptyString, Some err)
  | None =>
      r ← call (http_Client_Do url (timeout flags)) (EvHttpDo url (timeout flags));
      match r with
      | DoErr err => mret (EmptyString, Some err)
      | DoResp resp (body, Some err) => mret (EmptyString, Some err)
      | DoResp resp (body, None) => mret (body, None)
      end
  end.

Definition parseConfig (file : string) : M W (LocalNodes * option error) :=
  let nodes := {| Nodes := [] |} in
  '(source, err) ← call (ioutil_ReadFile file) (EvReadFile file);
  match err with
  | None =>
      let '(nodes, err) := yaml_Unmarshal source in
      match err with
      | Some e => mret (nodes, Some e)
      | None => mret (nodes, None)
      end
  | Some _ =>
      slog Warn "Cannot get local nodes from config file, using empty config" ;;
      mret (nodes, None)
  end.

Definition getActiveNodes (esUrl : string) : M W (gset string * option error) :=
  let url := esUrl +:+ "/_cat/nodes?h=name&format=json" in
  '(esData, err) ← httpGet url;
  match err with
  | Some e => mret (∅, Some e)
  | None =>
      let '(nodes, err) := parseNodes esData in
      match err with
      | Some e => mret (∅, Some e)
      | None => mret (activeSet nodes, None)
      end
  end.

Definition getClusterStatus (esUrl : string) : M W (string * option error) :=
  let url := esUrl +:+ "/_cluster/health" in
  '(esData, err) ← httpGet url;
  match err with
  | Some e => mret (EmptyString, Some e)
  | None =>
      let '(clusterStatus, err) := parseClusterStatus esData in
      match err with
      | Some e => mret (EmptyString, Some e)
      | None => mret (Status clusterStatus, None)
      end
  end.

Definition getClusterRoutingAllocation (esUrl : string) : M W (string * option error) :=
  let url := esUrl +:+ "/_cluster/settings" in
  '(esData, err) ← httpGet url;
  match err with
  | Some e => mret (EmptyString, Some e)
  | None =>
      let '(clusterRoutingAllocation, err) := parseClusterSettings esData in
      match err with
      | Some e => mret (EmptyString, Some e)
      | None => mret (Transient_Cluster_Routing_Allocation_Enable clusterRoutingAllocation, None)
      end
  end.

Definition restartSystemdService (service : string) : M W (option error) :=
  let command := "systemctl" in
  let args := ["restart"; service] in
  r ← call (exec_Run command args) (EvExec command args);
  match run_err r with
  | Some err => mret (Some (err +:+ ": " +:+ stderr r))
  | None => mret None
  end.

Definition sleepLoop : M W unit := sleepFor interval.

(** The body of [for _, service := range invalidNodes]. *)
Definition nodeKeeper_service (esUrl : string) (service : string) : M W unit :=
  let systemdService := service +:+ ".service" in
  now ← timeNow;
  last ← readLastRestart service;
  if mul64 (noRestartTime flags) 60 <? sub64 now last then
    '(clusterStatus, err) ← getClusterStatus esUrl;
    match err with
    | Some _ => slog Warn "Cannot get cluster status"
    | None =>
        '(clusterRoutingAllocation, err) ← getClusterRoutingAllocation esUrl;
        match err with
        | Some _ => slog Warn "Cannot get cluster routing allocation"
        | None =>
            if String.eqb clusterRoutingAllocation EmptyString then
              slog Warn "Cluster routing allocation is empty"
            else if negb (String.eqb (ToLower clusterStatus) "red")
                    && String.eqb (ToLower clusterRoutingAllocation) "all" then
              slog Info "Local node is not an active member of the cluster, restarting service" ;;
              if dryRun flags then
                slog Info "Dry run, skipping"
              else
                err ← restartSystemdService systemdService;
                match err with
                | None =>
                    slog Info "Service restarted" ;;
                    writeLastRestart service now
                | Some _ => slog Error "Cannot restart service"
                end
            else
              slog Debug "Cannot restart service due to cluster conditions"
        end
    end
  else
    slog Debug "Cannot restart service due to minimal time between restarts".

(** One pass of the [for { ... }] of [nodeKeeper]. *)
Definition nodeKeeper_pass (esUrl : string) : M W unit :=
  '(activeNodes, err) ← getActiveNodes esUrl;
  match err with
  | Some _ =>
      slog Warn "Cannot get active nodes from cluster" ;;
      sleepLoop
  | None =>
      order ← rangeOrder;
      localNodes ← getNodes;
      let invalidNodes := getInvalidNodes order localNodes activeNodes in
      (if (0 <? length invalidNodes)%nat then
         forEach (nodeKeeper_service esUrl) invalidNodes
       else
         slog Debug "All local nodes are active members of the cluster") ;;
      sleepLoop
  end.

Fixpoint nodeKeeper (passes : nat) (esUrl : string) : M W unit :=
  match passes with
  | O => mret tt
  | S n => nodeKeeper_pass esUrl ;; nodeKeeper n esUrl
  end.

Definition main (passes : nat) : M W unit :=
  slog Info "Starting" ;;
  (if dryRun flags then slog Info "Running in dry run mode" else mret tt) ;;
  '(localNodes, err) ← parseConfig (config flags);
  match err with
  | Some _ =>
      slog Error "Cannot get local nodes from config" ;;
      os_Exit 1
  | None =>
      slog Info "Loaded" ;;
      slog Info "Elasticsearch URL" ;;
      putNodes (localNodesToMap localNodes) ;;
      nodeKeeper passes (esUrl flags)
  end.

End Program.
End V013.

(** ** Revision 0.10 *)

Module V010.

Record Flags := {
  esURL : string;                 (* --url *)
  timeout : Z;                    (* --timeout *)
  config : string;                (* --config *)
  noRestartTime : Z               (* --no-restart-time, minutes *)
}.

Section Program.
Context {W : Type} `{Host W}.
Variable flags : Flags.

Definition log := @logAt W.

Definition esQueryGet (url : string) (timeout : Z) : M W (string * option error) :=
  r ← call (gorequest_End url timeout) (EvGorequest url timeout);
  match gr_errs r with
  | _ :: _ => mret (EmptyString, Some (Join (gr_errs r) ", "))
  | [] =>
      if negb (StatusCode (gr_resp r) =? 200) then
        mret (EmptyString, Some ("HTTP response code: " +:+ Status_line (gr_resp r)))
      else
        mret (gr_body r, None)
  end.

Definition parseConfig (file : string) : M W (LocalNodes * option error) :=
  let nodes := {| Nodes := [] |} in
  '(source, err) ← call (ioutil_ReadFile file) (EvReadFile file);
  match err with
  | Some e => mret (nodes, Some e)
  | None =>
      let '(nodes, err) := yaml_Unmarshal source in
      match err with
      | Some e => mret (nodes, Some e)
      | None => mret (nodes, None)
      end
  end.

Definition getActiveNodes (esURL : string) (timeout : Z) : M W (gset string * option error) :=
  let url := esURL +:+ "/_cat/nodes?h=name&format=json" in
  '(esData, err) ← esQueryGet url timeout;
  match err with
  | Some e => mret (∅, Some e)
  | None =>
      let '(nodes, err) := parseNodes esData in
      match err with
      | Some e => mret (∅, Some e)
      | None => mret (activeSet nodes, None)
      end
  end.

Definition getClusterStatus (esURL : string) (timeout : Z) : M W (string * option error) :=
  let url := esURL +:+ "/_cluster/health" in
  '(esData, err) ← esQueryGet url timeout;
  match err with
  | Some e => mret (EmptyString, Some e)
  | None =>
      let '(clusterStatus, err) := parseClusterStatus esData in
      match err with
      | Some e => mret (EmptyString, Some e)
      | None => mret (Status clusterStatus, None)
      end
  end.

Definition getClusterRoutingAllocation (esURL : string) (timeout : Z)
    : M W (string * option error) :=
  let url := esURL +:+ "/_cluster/settings" in
  '(esData, err) ← esQueryGet url timeout;
  match err with
  | Some e => mret (EmptyString, Some e)
  | None =>
      let '(clusterRoutingAllocation, err) := parseClusterSettings esData in
      match err with
      | Some e => mret (EmptyString, Some e)
      | None => mret (Transient_Cluster_Routing_Allocation_Enable clusterRoutingAllocation, None)
      end
  end.

Definition restartNode (node : string) : M W (option error) :=
  let command := "service" in
  let args := [node; "restart"] in
  r ← call (exec_Run command args) (EvExec command args);
  match run_err r with
  | Some err => mret (Some (err +:+ ": " +:+ stderr r))
  | None => mret None
  end.

(** The body of [for _, service := range invalidNodes]. *)
Definition nodeKeeper_service (esURL : string) (timeout : Z) (noRestartTime : Z)
    (service : string) : M W unit :=
  now ← timeNow;
  last ← readLastRestart service;
  if mul64 noRestartTime 60 <? sub64 now last then
    '(clusterStatus, err) ← getClusterStatus esURL timeout;
    match err with
    | Some _ => log Warn "Cannot get cluster status"
    | None =>
        '(clusterRoutingAllocation, err) ← getClusterRoutingAllocation esURL timeout;
        match err with
        | Some _ => log Warn "Cannot get cluster routing allocation"
        | None =>
            if negb (String.eqb (ToLower clusterStatus) "red")
               && String.eqb (ToLower clusterRoutingAllocation) "all" then
              log Info "Node %s is not active member of cluster, restarting service %s" ;;
              err ← restartNode service;
              match err with
              | None =>
                  log Info "Service %s restarted" ;;
                  writeLastRestart service now
              | Some _ => log Error "Cannot restart service %s: %s"
              end
            else
              log Debug "Cannot restart service %s due to cluster conditions"
        end
    end
  else
    log Debug "Cannot restart service %s due to minimal time between restarts parameter".

(** One pass of the [for { ... }] of [nodeKeeper]: where the active nodes
    cannot be fetched, [continue] starts the next pass at once. *)
Definition nodeKeeper_pass (esURL : string) (timeout : Z) (noRestartTime : Z) : M W unit :=
  '(activeNodes, err) ← getActiveNodes esURL timeout;
  match err with
  | Some _ => log Warn "Cannot get active nodes from cluster"
  | None =>
      order ← rangeOrder;
      localNodes ← getNodes;
      let invalidNodes := getInvalidNodes order localNodes activeNodes in
      (if (0 <? length invalidNodes)%nat then
         forEach (nodeKeeper_service esURL timeout noRestartTime) invalidNodes
       else
         mret tt) ;;
      sleepFor interval
  end.

Fixpoint nodeKeeper (passes : nat) (esURL : string) (timeout : Z) (noRestartTime : Z)
    : M W unit :=
  match passes with
  | O => mret tt
  | S n => nodeKeeper_pass esURL timeout noRestartTime ;;
           nodeKeeper n esURL timeout noRestartTime
  end.

Definition main (passes : nat) : M W unit :=
  '(localNodes, err) ← parseConfig (config flags);
  match err with
  | Some _ =>
      log Fatal "Cannot get local nodes from config file %s" ;;
      os_Exit 1
  | None =>
      putNodes (localNodesToMap localNodes) ;;
      nodeKeeper passes (esURL flags) (timeout flags) (noRestartTime flags)
  end.

End Program.
End V010.

(** ** Reading a trace *)

(** The unit (0.13, 0.19: [systemctl restart unit]) or service (0.10:
    [service name restart]) a command restarts, if it is a restart. *)
Definition restartTarget (e : Event) : option string :=
  match e with
  | EvExec command [a; b] _ =>
      if String.eqb command "systemctl" && String.eqb a "restart" then Some b
      else if String.eqb command "service" && String.eqb b "restart" then Some a
      else None
  | _ => None
  end.

Definition isHttp (e : Event) : bool :=
  match e with EvGorequest _ _ _ | EvHttpDo _ _ _ => true | _ => false end.

Definition isSleep (e : Event) : bool :=
  match e with EvSleep _ => true | _ => false end.

(** The wall-clock readings of a trace. *)
Definition clockReads (tr : list Event) : list Z :=
  omap (fun e => match e with EvNow t => Some t | _ => None end) tr.

(** The restarts of a trace, by target, in order. *)
Definition restarts (tr : list Event) : list string := omap restartTarget tr.

(** The restart commands of a trace that failed / succeeded. *)
Definition restartResults (tr : list Event) : list (option error) :=
  omap (fun e => match restartTarget e, e with
                 | Some _, EvExec _ _ r => Some (run_err r)
                 | _, _ => None
                 end) tr.

(** The line that announces a restart (also under [--dry-run]). *)
Definition announces (e : Event) : bool :=
  match e with
  | EvLog Info msg =>
      String.eqb msg "Local node is not an active member of the cluster, restarting service"
      || String.eqb msg "Node %s is not active member of cluster, restarting service %s"
  | _ => false
  end.

Definition announced (tr : list Event) : bool := existsb announces tr.

(** The bodies the program accepted from [url] in a trace: of a response
    received and read in full (0.13, 0.19: net/http, whatever its status),
    or of one that came without errors and with status 200 (0.10:
    gorequest). *)
Definition bodiesSeen (url : string) (tr : list Event) : list string :=
  omap (fun e =>
          match e with
          | EvHttpDo u _ (DoResp _ (body, None)) =>
              if String.eqb u url then Some body else None
          | EvGorequest u _ r =>
              if String.eqb u url && (length (gr_errs r) =? 0)%nat
                 && (StatusCode (gr_resp r) =? 200)
              then Some (gr_body r) else None
          | _ => None
          end) tr.

Section Seen.
Context {W : Type} `{Host W}.

(** The cluster health values fetched (and decoded) in a trace. *)
Definition healthValues (esUrl : string) (tr : list Event) : list string :=
  omap (fun body => match json_Unmarshal_ClusterStatus body with
                    | (cs, None) => Some (Status cs)
                    | _ => None
                    end)
       (bodiesSeen (esUrl +:+ "/_cluster/health") tr).

(** The allocation policies fetched (and decoded) in a trace. *)
Definition allocValues (esUrl : string) (tr : list Event) : list string :=
  omap (fun body => match json_Unmarshal_ClusterSettings body with
                    | (cs, None) => Some (Transient_Cluster_Routing_Allocation_Enable cs)
                    | _ => None
                    end)
       (bodiesSeen (esUrl +:+ "/_cluster/settings") tr).

End Seen.

(** The safety predicate of the spec. *)
Definition Safe (h a : string) : Prop := ToLower h <> "red" /\ ToLower a = "all".

(** What one evaluation of a service (one turn of the inner loop) looks
    like from outside: its trace [tr], and whether it stored [now]. *)
Inductive Evaluated {W} `{Host W} (esUrl unit : string) (period : Z) (dry : bool)
    (now stored : Z) (tr : list Event) : bool -> Prop :=
| ev_suppressed :
    sub64 now stored <= period ->
    restarts tr = [] -> announced tr = false ->
    filter (fun e => isHttp e = true) tr = [] ->
    Evaluated esUrl unit period dry now stored tr false
| ev_no_health :
    period < sub64 now stored ->
    restarts tr = [] -> announced tr = false ->
    healthValues esUrl tr = [] -> allocValues esUrl tr = [] ->
    Evaluated esUrl unit period dry now stored tr false
| ev_no_alloc h :
    period < sub64 now stored ->
    restarts tr = [] -> announced tr = false ->
    healthValues esUrl tr = [h] -> allocValues esUrl tr = [] ->
    Evaluated esUrl unit period dry now stored tr false
| ev_blocked h a :
    period < sub64 now stored ->
    restarts tr = [] -> announced tr = false ->
    healthValues esUrl tr = [h] -> allocValues esUrl tr = [a] -> ~ Safe h a ->
    Evaluated esUrl unit period dry now stored tr false
| ev_dry_run h a :
    period < sub64 now stored ->
    restarts tr = [] -> announced tr = true -> dry = true ->
    healthValues esUrl tr = [h] -> allocValues esUrl tr = [a] -> Safe h a ->
    Evaluated esUrl unit period dry now stored tr false
| ev_restart_failed h a err :
    period < sub64 now stored ->
    restarts tr = [unit] -> restartResults tr = [Some err] ->
    announced tr = true -> dry = false ->
    healthValues esUrl tr = [h] -> allocValues esUrl tr = [a] -> Safe h a ->
    Evaluated esUrl unit period dry now stored tr false
| ev_restarted h a :
    period < sub64 now stored ->
    restarts tr = [unit] -> restartResults tr = [None] ->
    announced tr = true -> dry = false ->
    healthValues esUrl tr = [h] -> allocValues esUrl tr = [a] -> Safe h a ->
    Evaluated esUrl unit period dry now stored tr true.

(** ** A small host to run the program on

    A cluster that is reachable or not and answers every request with one
    status code and, by URL, one of three documents; a service manager
    that reports since when the unit is active (or fails to), restarts it
    or fails to, and reports another time once it has restarted it; a
    clock that advances when the program sleeps; one configuration file.
    The decoders know the few documents the examples use. *)

Record Sim := {
  sim_clock : Z;
  sim_up : bool;
  sim_code : Z;
  sim_nodes : string;
  sim_health : string;
  sim_alloc : string;
  sim_since : option string;
  sim_since_next : option string;
  sim_restart_ok : bool;
  sim_file : string * option error;
  sim_order : list nat
}.

Definition lookupDoc {A} (table : list (string * A)) (zero : A) (doc : string)
    : A * option error :=
  match List.find (fun '(d, _) => String.eqb d doc) table with
  | Some (_, v) => (v, None)
  | None => (zero, Some "cannot decode")
  end.

(** Documents are written with ['] for the double quote. *)
Definition js (s : string) : string :=
  string_of_list_ascii
    (List.map (fun c => if Ascii.eqb c "'"%char then "034"%char else c)
              (list_ascii_of_string s)).

Definition simBody (w : Sim) (url : string) : string :=
  if String.eqb url "http://es/_cluster/health" then sim_health w
  else if String.eqb url "http://es/_cluster/settings" then sim_alloc w
  else sim_nodes w.

Definition simResponse (w : Sim) : Response :=
  {| StatusCode := sim_code w; Status_line := "status" |}.

Definition simExec (command : string) (args : list string) (w : Sim) : ExecResult * Sim :=
  match args with
  | [_; _] =>
      if sim_restart_ok w then
        ({| stdout := EmptyString; stderr := EmptyString; run_err := None |},
         {| sim_clock := sim_clock w; sim_up := sim_up w; sim_code := sim_code w;
            sim_nodes := sim_nodes w; sim_health := sim_health w; sim_alloc := sim_alloc w;
            sim_since := sim_since_next w; sim_since_next := sim_since_next w;
            sim_restart_ok := sim_restart_ok w; sim_file := sim_file w;
            sim_order := sim_order w |})
      else
        ({| stdout := EmptyString; stderr := "failed"; run_err := Some "exit status 1" |}, w)
  | _ =>
      match sim_since w with
      | Some t => ({| stdout := "ActiveEnterTimestamp=" +:+ t; stderr := EmptyString;
                      run_err := None |}, w)
      | None => ({| stdout := EmptyString; stderr := "not found";
                    run_err := Some "exit status 1" |}, w)
      end
  end.

Definition simSleep (n : Z) (w : Sim) : Sim :=
  {| sim_clock := sim_clock w + n; sim_up := sim_up w; sim_code := sim_code w;
     sim_nodes := sim_nodes w; sim_health := sim_health w; sim_alloc := sim_alloc w;
     sim_since := sim_since w; sim_since_next := sim_since_next w;
     sim_restart_ok := sim_restart_ok w; sim_file := sim_file w;
     sim_order := sim_order w |}.

#[global] Instance Sim_Host : Host Sim := {
  gorequest_End url t w :=
    ({| gr_resp := simResponse w; gr_body := simBody w url;
        gr_errs := if sim_up w then [] else ["connection refused"] |}, w);
  http_NewRequest method url := None;
  http_Client_Do url t w :=
    (if sim_up w then DoResp (simResponse w) (simBody w url, None)
     else DoErr "connection refused", w);
  exec_Run := simExec;
  ioutil_ReadFile file w := (sim_file w, w);
  time_Now_Unix w := (sim_clock w, w);
  time_Sleep := simSleep;
  map_range_order w := (sim_order w, w);
  json_Unmarshal_Nodes :=
    lookupDoc [ (js "[]", []);
                (js "[{'name':'instA'}]", [ {| Name := "instA" |} ]);
                (js "[{'name':'instA'},{'name':'instB'}]",
                 [ {| Name := "instA" |}; {| Name := "instB" |} ]) ] [];
  json_Unmarshal_ClusterStatus :=
    lookupDoc [ (js "{'status':'green'}", {| Status := "green" |});
                (js "{'status':'yellow'}", {| Status := "yellow" |});
                (js "{'status':'RED'}", {| Status := "RED" |});
                (js "{'status':'red'}", {| Status := "red" |});
                (js "{'cluster_name':'es'}", {| Status := EmptyString |});
                (js "{'message':'Forbidden'}", {| Status := EmptyString |}) ]
              {| Status := EmptyString |};
  json_Unmarshal_ClusterSettings :=
    lookupDoc [ (js "{'transient':{'cluster':{'routing':{'allocation':{'enable':'all'}}}}}",
                 {| Transient_Cluster_Routing_Allocation_Enable := "all" |});
                (js "{'transient':{'cluster':{'routing':{'allocation':{'enable':'ALL'}}}}}",
                 {| Transient_Cluster_Routing_Allocation_Enable := "ALL" |});
                (js "{'transient':{'cluster':{'routing':{'allocation':{'enable':'none'}}}}}",
                 {| Transient_Cluster_Routing_Allocation_Enable := "none" |});
                (js "{'persistent':{},'transient':{}}",
                 {| Transient_Cluster_Routing_Allocation_Enable := EmptyString |});
                (js "{'message':'Forbidden'}",
                 {| Transient_Cluster_Routing_Allocation_Enable := EmptyString |}) ]
              {| Transient_Cluster_Routing_Allocation_Enable := EmptyString |};
  yaml_Unmarshal :=
    lookupDoc [ ("nodes: [{instance: instA, service: svc1}]",
                 {| Nodes := [ {| Instance := "instA"; Service := "svc1" |} ] |});
                ("nodes: []", {| Nodes := [] |}) ]
              {| Nodes := [] |};
  time_Parse layout value :=
    lookupDoc [ ("Thu 1970-01-01 00:01:40 UTC", 100);
                ("Thu 1970-01-01 00:03:20 UTC", 200);
                ("Thu 1970-01-01 00:15:00 UTC", 900);
                ("Thu 1970-01-01 00:16:40 UTC", 1000) ] 0 value
}.

(** An evaluation that touches neither the cluster nor the service. *)
Definition Quiet (tr : list Event) : Prop :=
  restarts tr = [] /\ filter (fun e => isHttp e = true) tr = [] /\ announced tr = false.

(** [tr] is a sequence of pieces, each of which satisfies [P]. *)
Definition Segmented (P : list Event -> Prop) (tr : list Event) : Prop :=
  exists segs, tr = concat segs /\ Forall P segs.

(** A piece of a run that restarts nothing, or restarts one unit after
    fetching one health value and one allocation policy that are safe. *)
Definition SafeSegment {W} `{Host W} (esUrl : string) (seg : list Event) : Prop :=
  restarts seg = []
  \/ exists u h a, restarts seg = [u] /\ healthValues esUrl seg = [h]
                   /\ allocValues esUrl seg = [a] /\ Safe h a.

(** What a pass does once the loop over the invalid services is over: it
    sleeps, unless an evaluation panicked. *)
Definition afterLoop {W} `{Host W} (loop : Res W unit) : Res W unit :=
  match loop with
  | Done _ s2 tr =>
      Done tt (mkSt (time_Sleep interval (world s2)) (localNodes s2)) (tr ++ [EvSleep interval])
  | r => r
  end.

(** The claim of the spec about one evaluation: it restarts only on safe
    values, and never on a red health or on a policy other than "all". *)
Definition RestartsOnlyWhenSafe {W} `{Host W} (esUrl : string) (tr : list Event) : Prop :=
  (restarts tr <> [] ->
     exists h a, healthValues esUrl tr = [h] /\ allocValues esUrl tr = [a] /\ Safe h a)
  /\ (forall h, healthValues esUrl tr = [h] -> ToLower h = "red" -> restarts tr = [])
  /\ (forall a, allocValues esUrl tr = [a] -> ToLower a <> "all" -> restarts tr = []).

(** *** Worlds for the examples

    A cluster at [http://es] that answers every request with status [code]
    and the given documents; a service manager that reports [since] as the
    time the unit became active (or fails to), and whose restarts succeed
    or fail as [restartOk] says; a configuration file with one service,
    [svc1], expected as [instA]. *)
Definition simWorld (clock code : Z) (nodes health alloc : string)
    (since : option string) (restartOk : bool) : Sim :=
  {| sim_clock := clock; sim_up := true; sim_code := code;
     sim_nodes := nodes; sim_health := health; sim_alloc := alloc;
     sim_since := since; sim_since_next := since; sim_restart_ok := restartOk;
     sim_file := ("nodes: [{instance: instA, service: svc1}]", None);
     sim_order := [] |}.

(** The same, with the service manager reporting [next] once it has
    restarted the unit. *)
Definition thenSince (next : option string) (w : Sim) : Sim :=
  {| sim_clock := sim_clock w; sim_up := sim_up w; sim_code := sim_code w;
     sim_nodes := sim_nodes w; sim_health := sim_health w; sim_alloc := sim_alloc w;
     sim_since := sim_since w; sim_since_next := next;
     sim_restart_ok := sim_restart_ok w; sim_file := sim_file w;
     sim_order := sim_order w |}.

(** A cluster that cannot be reached. *)
Definition simDown (clock : Z) : Sim :=
  {| sim_clock := clock; sim_up := false; sim_code := 0;
     sim_nodes := EmptyString; sim_health := EmptyString; sim_alloc := EmptyString;
     sim_since := None; sim_since_next := None; sim_restart_ok := true;
     sim_file := ("nodes: [{instance: instA, service: svc1}]", None);
     sim_order := [] |}.

(** The same, with the configuration file as [file] says. *)
Definition withFile (file : string * option error) (w : Sim) : Sim :=
  {| sim_clock := sim_clock w; sim_up := sim_up w; sim_code := sim_code w;
     sim_nodes := sim_nodes w; sim_health := sim_health w; sim_alloc := sim_alloc w;
     sim_since := sim_since w; sim_since_next := sim_since_next w;
     sim_restart_ok := sim_restart_ok w; sim_file := file;
     sim_order := sim_order w |}.

Definition forbiddenBody : string := js "{'message':'Forbidden'}".
Definition greenBody : string := js "{'status':'green'}".
Definition redBody : string := js "{'status':'RED'}".
Definition noStatusBody : string := js "{'cluster_name':'es'}".
Definition allBody : string :=
  js "{'transient':{'cluster':{'routing':{'allocation':{'enable':'all'}}}}}".
Definition noneBody : string :=
  js "{'transient':{'cluster':{'routing':{'allocation':{'enable':'none'}}}}}".
Definition unsetBody : string := js "{'persistent':{},'transient':{}}".
Definition noNodesBody : string := js "[]".
Definition instANodesBody : string := js "[{'name':'instA'}]".

(** The registry [{svc1 -> instA}], last restarted at [last]. *)
Definition registry1 (last : Z) : gmap string Entry :=
  {[ "svc1" := {| instance := "instA"; lastRestart := last |} ]}.

Definition flags019 (period : Z) (dry : bool) : V019.Flags :=
  {| V019.esUrl := "http://es"; V019.timeout := 10; V019.config := "/etc/es-node-keeper.yaml";
     V019.restartExclusionPeriod := period; V019.dryRun := dry; V019.verbose := false |}.

Definition flags013 (minutes : Z) (dry : bool) : V013.Flags :=
  {| V013.esUrl := "http://es"; V013.timeout := 10; V013.config := "/etc/es-node-keeper.yaml";
     V013.noRestartTime := minutes; V013.dryRun := dry; V013.verbose := false |}.

Definition flags010 (minutes : Z) : V010.Flags :=
  {| V010.esURL := "http://es"; V010.timeout := 10; V010.config := "/etc/es-node-keeper.yaml";
     V010.noRestartTime := minutes |}.

(** ** More readings of a trace *)

(** The requests of a trace, by URL and timeout, in order. *)
Definition requestOf (e : Event) : option (string * Z) :=
  match e with
  | EvGorequest u t _ | EvHttpDo u t _ => Some (u, t)
  | _ => None
  end.

Definition requests (tr : list Event) : list (string * Z) := omap requestOf tr.

(** The commands run in a trace, in order. *)
Definition commandOf (e : Event) : option (string * list string) :=
  match e with EvExec c args _ => Some (c, args) | _ => None end.

Definition commands (tr : list Event) : list (string * list string) := omap commandOf tr.

(** The sleeps of a trace, in seconds. *)
Definition sleeps (tr : list Event) : list Z :=
  omap (fun e => match e with EvSleep n => Some n | _ => None end) tr.

(** The inner map [localNodesToMap] builds for a node of the configuration. *)
Definition entryOf (n : LocalNode) : Entry :=
  {| instance := Instance n; lastRestart := 0 |}.

(** A string made of the characters the timestamp group of the regular
    expression of 0.19 accepts. *)
Definition tsString (g : string) : bool :=
  forallb V019.tsChar (list_ascii_of_string g).

(** A string that does not go on with such a character. *)
Definition tsEnd (rest : string) : bool :=
  match rest with
  | EmptyString => true
  | String c _ => negb (V019.tsChar c)
  end.

(** The name before [=] in the output of [systemctl show]. *)
Definition tsKey : string := "ActiveEnterTimestamp=".

(** The shape of a registry: its services and their instances. *)
Definition sameShape (m m0 : gmap string Entry) : Prop :=
  forall svc, instance <$> m !! svc = instance <$> m0 !! svc.

(** The three requests the program has a use for. *)
Definition allowedRequest (url : string) (timeout : Z) (rq : string * Z) : Prop :=
  rq ∈ [(url +:+ "/_cat/nodes?h=name&format=json", timeout);
        (url +:+ "/_cluster/health", timeout);
        (url +:+ "/_cluster/settings", timeout)].

(** The commands of the three revisions. *)
Definition showCommand (unit : string) : string * list string :=
  ("systemctl", ["--no-pager"; "--property=ActiveEnterTimestamp"; "show"; unit]).

Definition restartCommand (unit : string) : string * list string :=
  ("systemctl", ["restart"; unit]).

Definition serviceRestartCommand (node : string) : string * list string :=
  ("service", [node; "restart"]).

(** * Properties *)

Lemma wrap64_id z : int64_range z -> wrap64 z = z.
Proof.
  unfold int64_range, wrap64. intros Hz.
  rewrite Z.mod_small by lia. lia.
Qed.

Lemma wrap64_range z : int64_range (wrap64 z).
Proof.
  unfold int64_range, wrap64.
  pose proof (Z.mod_pos_bound (z + 2 ^ 63) (2 ^ 64) ltac:(lia)). lia.
Qed.

Lemma append_cancel_l (s a b : string) : s +:+ a = s +:+ b -> a = b.
Proof. induction s as [|c s IH]; cbn; [done | intros [= Heq]; auto]. Qed.

Lemma append_length (s t : string) :
  String.length (s +:+ t) = (String.length s + String.length t)%nat.
Proof. induction s as [|c s IH]; simpl; [done | by f_equal]. Qed.

Lemma append_cancel_r (s1 s2 t : string) : s1 +:+ t = s2 +:+ t -> s1 = s2.
Proof.
  revert s2. induction s1 as [|c s1 IH]; intros [|d s2] Heq; simpl in *.
  - done.
  - apply (f_equal String.length) in Heq. simpl in Heq. rewrite !append_length in Heq. simpl in Heq. lia.
  - apply (f_equal String.length) in Heq. simpl in Heq. rewrite !append_length in Heq. simpl in Heq. lia.
  - injection Heq as -> Heq. f_equal. by apply IH.
Qed.

Section MonadFacts.
Context {W : Type}.

Lemma events_prepend {A} tr (r : Res W A) : events (prepend tr r) = tr ++ events r.
Proof. by destruct r. Qed.

Lemma final_prepend {A} tr (r : Res W A) : final (prepend tr r) = final r.
Proof. by destruct r. Qed.

Lemma prepend_nil {A} (r : Res W A) : prepend [] r = r.
Proof. by destruct r. Qed.

Lemma events_bind {A B} (m : M W A) (k : A -> M W B) s :
  events ((m ≫= k) s)
  = events (m s) ++ match m s with Done a s' _ => events (k a s') | _ => [] end.
Proof.
  unfold mbind, M_bind, bind. destruct (m s); cbn; [apply events_prepend | |];
    by rewrite app_nil_r.
Qed.

Lemma final_bind {A B} (m : M W A) (k : A -> M W B) s :
  final ((m ≫= k) s) = match m s with Done a s' _ => final (k a s') | _ => None end.
Proof. unfold mbind, M_bind, bind. destruct (m s); cbn; [apply final_prepend|done|done]. Qed.

Lemma bind_Done {A B} (m : M W A) (k : A -> M W B) s a s' tr :
  m s = Done a s' tr -> (m ≫= k) s = prepend tr (k a s').
Proof. unfold mbind, M_bind, bind. by intros ->. Qed.

(** A property of traces that holds of the empty trace and of [a ++ b] when
    it holds of [a] and of [b] holds of what a loop emits when it holds of
    what each body emits. *)
Lemma forEach_events {A} (Q : list Event -> Prop) (body : A -> M W unit) l s :
  Q [] -> (forall a b, Q a -> Q b -> Q (a ++ b)) ->
  (forall x s', x ∈ l -> Q (events (body x s'))) ->
  Q (events (forEach body l s)).
Proof.
  intros Hnil Happ. revert s. induction l as [|x l IH]; intros s Hb; cbn; [done|].
  rewrite events_bind. apply Happ; [apply Hb; by left|].
  destruct (body x s) as [[] s' tr| |]; [|done|done].
  apply IH. intros y s'' Hy. apply Hb. by right.
Qed.

(** A loop whose bodies keep an invariant of the registry keeps it. *)
Lemma forEach_final {A} (I : gmap string Entry -> Prop) (body : A -> M W unit) l s s' :
  (forall x s1 s2, x ∈ l -> I (localNodes s1) -> final (body x s1) = Some s2 -> I (localNodes s2)) ->
  I (localNodes s) ->
  final (forEach body l s) = Some s' -> I (localNodes s').
Proof.
  revert s. induction l as [|x l IH]; intros s Hb HI; cbn.
  - by intros [= <-].
  - rewrite final_bind.
    destruct (body x s) as [[] s1 tr| |] eqn:Hx; cbn; try done.
    apply IH.
    + intros y s2 s3 Hy. apply Hb. by right.
    + eapply (Hb x s s1); [by left|done|by rewrite Hx].
Qed.

End MonadFacts.

Create HintDb go discriminated.
#[global] Hint Unfold mbind M_bind bind mret M_ret ret logAt emit call timeNow sleepFor
  readLastRestart writeLastRestart rangeOrder getNodes putNodes panic os_Exit
  parseNodes parseClusterStatus parseClusterSettings : go.
#[global] Hint Unfold V019.slog V019.httpGet V019.parseConfig V019.getActiveNodes
  V019.getClusterStatus V019.getClusterRoutingAllocation V019.executeCommand
  V019.restartSystemdService V019.getSystemdServiceActiveEnterTimestamp V019.sleepLoop
 : go.
#[global] Hint Unfold V013.slog V013.httpGet V013.parseConfig V013.getActiveNodes
  V013.getClusterStatus V013.getClusterRoutingAllocation
  V013.restartSystemdService V013.sleepLoop
 : go.
#[global] Hint Unfold V010.log V010.esQueryGet V010.parseConfig V010.getActiveNodes
  V010.getClusterStatus V010.getClusterRoutingAllocation V010.restartNode
 : go.

Ltac go_simpl :=
  cbn -[Z.ltb Z.eqb sub64 mul64 wrap64 ToLower String.eqb String.append
        V019.FindStringSubmatch interval getInvalidNodes forEach activeSet
        localNodesToMap Nat.ltb Join].

Ltac go_rew x E :=
  repeat match goal with
         | H : context [x] |- _ =>
             tryif constr_eq H E then fail else rewrite E in H
         end.

Ltac go_arith :=
  repeat match goal with
         | H : (_ <? _) = true |- _ => apply Z.ltb_lt in H
         | H : (_ <? _) = false |- _ => apply Z.ltb_ge in H
         end;
  try lia.

Ltac go_destruct x :=
  let E := fresh "E" in
  destruct x eqn:E; go_rew x E;
  lazymatch x with
  | (_ <? _) => try (exfalso; go_arith; fail)
  | _ => idtac
  end.

Ltac go_case x :=
  first [ match goal with H : x = _ |- _ => rewrite H end | go_destruct x ].

Ltac go_split :=
  match goal with
  | |- context [match ?x with _ => _ end] =>
      lazymatch x with
      | context [match _ with _ => _ end] => fail
      | _ => go_case x
      end
  | |- context [if ?x then _ else _] =>
      lazymatch x with
      | context [match _ with _ => _ end] => fail
      | context [if _ then _ else _] => fail
      | _ => go_case x
      end
  end.

Ltac go_run :=
  autounfold with go in *;
  repeat first [ progress go_simpl | progress (rewrite ?lookup_insert_eq) | go_split ].

Lemma eqb_append_l (s a b : string) : String.eqb (s +:+ a) (s +:+ b) = String.eqb a b.
Proof.
  induction s as [|c s IH]; simpl; [done|].
  by rewrite Ascii.eqb_refl.
Qed.

Lemma safe_true h a :
  negb (String.eqb (ToLower h) "red") && String.eqb (ToLower a) "all" = true -> Safe h a.
Proof.
  intros [Hh Ha]%andb_true_iff. split.
  - apply negb_true_iff in Hh. by apply String.eqb_neq.
  - by apply String.eqb_eq.
Qed.

Lemma safe_false h a :
  negb (String.eqb (ToLower h) "red") && String.eqb (ToLower a) "all" = false -> ~ Safe h a.
Proof.
  intros Hf [Hh Ha]. apply String.eqb_neq in Hh. apply String.eqb_eq in Ha.
  by rewrite Hh, Ha in Hf.
Qed.

Lemma safe_empty h a : String.eqb a EmptyString = true -> ~ Safe h a.
Proof. intros ->%String.eqb_eq [_ Ha]. discriminate Ha. Qed.

(** Read a concrete trace. *)
Ltac go_read_step :=
  first
    [ progress cbn -[Z.ltb Z.eqb sub64 mul64 wrap64 ToLower String.eqb String.append]
    | progress rewrite ?String.eqb_refl, ?eqb_append_l
    | match goal with
      | E : ?x = _ |- context [match ?x with _ => _ end] => rewrite E
      | E : ?x = _ |- context [length ?x] => rewrite E
      | E : run_err ?x = _ |- context [run_err ?x] => rewrite E
      | E : ?x = true |- context [?x] => rewrite E
      | E : ?x = false |- context [?x] => rewrite E
      end
    | progress cbn -[Z.ltb sub64 mul64 wrap64 ToLower String.append] ].

Ltac go_read :=
  repeat match goal with
         | E : negb _ = true |- _ => apply negb_true_iff in E
         | E : negb _ = false |- _ => apply negb_false_iff in E
         end;
  repeat go_read_step.

Lemma setLastRestart_same e : setLastRestart e (lastRestart e) = e.
Proof. by destruct e. Qed.

Lemma setLastRestart_twice e t t' :
  setLastRestart (setLastRestart e t) t' = setLastRestart e t'.
Proof. done. Qed.

Ltac go_registry :=
  cbn; rewrite ?insert_insert_eq, ?setLastRestart_twice, ?setLastRestart_same;
  first [ done | by (symmetry; apply insert_id) ].

Ltac go_side :=
  lazymatch goal with
  | |- _ <= _ => by go_arith
  | |- _ < _ => by go_arith
  | |- Safe _ _ => by eauto using safe_true
  | |- ~ Safe _ _ => by eauto using safe_false, safe_empty
  | |- _ => by go_read
  end.

(** The last line an evaluation logs tells which way it went. *)
Ltac go_evaluated :=
  lazymatch goal with
  | |- Evaluated _ _ _ _ _ _ ?tr _ =>
      lazymatch tr with
      | context [EvLog Warn "Cannot get cluster status"] => eapply ev_no_health
      | context [EvLog Warn "Cannot get cluster routing allocation"] => eapply ev_no_alloc
      | context [EvLog Warn "Cluster routing allocation is empty"] => eapply ev_blocked
      | context [EvLog Debug "Cannot restart service due to cluster conditions"] =>
          eapply ev_blocked
      | context [EvLog Debug "Cannot restart service %s due to cluster conditions"] =>
          eapply ev_blocked
      | context [EvLog Info "Dry run, skipping"] => eapply ev_dry_run
      | context [EvLog Info "Service restarted"] => eapply ev_restarted
      | context [EvLog Info "Service %s restarted"] => eapply ev_restarted
      | context [EvLog Error _] => eapply ev_restart_failed
      | _ => eapply ev_suppressed
      end
  end;
  go_side.

(** Run a call [t] of the program that occurs in the goal. *)
Ltac go_exec_with t tac :=
  let r := fresh "r" in
  let Hr := fresh "Hr" in
  remember t as r eqn:Hr; revert Hr; tac; go_run; intros ->; go_simpl.

Ltac go_exec t := go_exec_with t idtac.


Ltac merge_eq :=
  repeat match goal with
         | H1 : ?x = _, H2 : ?x = _ |- _ => rewrite H1 in H2
         end;
  simplify_eq.

(** ** Reading traces *)

Lemma restarts_app tr1 tr2 : restarts (tr1 ++ tr2) = restarts tr1 ++ restarts tr2.
Proof. apply omap_app. Qed.

Lemma restartResults_length tr : length (restartResults tr) = length (restarts tr).
Proof.
  unfold restartResults, restarts.
  induction tr as [|e tr IH]; [done|]. cbn.
  destruct (restartTarget e) eqn:He; cbn.
  - destruct e; try done. cbn. by f_equal.
  - destruct e; done.
Qed.

Lemma bodiesSeen_app url tr1 tr2 :
  bodiesSeen url (tr1 ++ tr2) = bodiesSeen url tr1 ++ bodiesSeen url tr2.
Proof. apply omap_app. Qed.

Lemma bodiesSeen_no_http url tr :
  filter (fun e => isHttp e = true) tr = [] -> bodiesSeen url tr = [].
Proof.
  induction tr as [|e tr IH]; [done|].
  unfold bodiesSeen in *. rewrite filter_cons. cbn.
  destruct e; cbn; try done; case_decide; try done; auto.
Qed.

Section Facts.
Context {W : Type} `{Host W}.

Lemma healthValues_app url tr1 tr2 :
  healthValues url (tr1 ++ tr2) = healthValues url tr1 ++ healthValues url tr2.
Proof. unfold healthValues. by rewrite bodiesSeen_app, omap_app. Qed.

Lemma allocValues_app url tr1 tr2 :
  allocValues url (tr1 ++ tr2) = allocValues url tr1 ++ allocValues url tr2.
Proof. unfold allocValues. by rewrite bodiesSeen_app, omap_app. Qed.

Lemma healthValues_no_http url tr :
  filter (fun e => isHttp e = true) tr = [] -> healthValues url tr = [].
Proof. intros Hn. unfold healthValues. by rewrite bodiesSeen_no_http. Qed.

Lemma allocValues_no_http url tr :
  filter (fun e => isHttp e = true) tr = [] -> allocValues url tr = [].
Proof. intros Hn. unfold allocValues. by rewrite bodiesSeen_no_http. Qed.

(** ** What follows from [Evaluated] *)

Section Evaluated.
Variables (url unit : string) (period : Z) (dry : bool) (now stored : Z)
          (tr : list Event) (written : bool).
Hypothesis Hev : Evaluated url unit period dry now stored tr written.

Lemma evaluated_restarts : restarts tr = [] \/ restarts tr = [unit].
Proof using Hev. destruct Hev; auto. Qed.

Lemma evaluated_safe :
  restarts tr <> [] ->
  exists h a, healthValues url tr = [h] /\ allocValues url tr = [a] /\ Safe h a.
Proof using Hev. destruct Hev; try done; eauto. Qed.

Lemma evaluated_unsafe h a :
  healthValues url tr = [h] -> allocValues url tr = [a] -> ~ Safe h a ->
  restarts tr = [] /\ announced tr = false /\ written = false.
Proof using Hev.
  intros Hh Ha Hn.
  destruct Hev as [?? ? Hf| | | | | |]; try (rewrite (healthValues_no_http _ _ Hf) in Hh);
    merge_eq; try done; by exfalso; auto.
Qed.

Lemma evaluated_suppressed :
  sub64 now stored <= period ->
  restarts tr = [] /\ filter (fun e => isHttp e = true) tr = [] /\ announced tr = false
  /\ written = false.
Proof using Hev. intros Hle. destruct Hev; try done; lia. Qed.

Lemma evaluated_dry :
  dry = true -> restarts tr = [] /\ written = false.
Proof using Hev. intros Hd. destruct Hev; try done; congruence. Qed.

Lemma evaluated_written :
  (written = true <-> restartResults tr = [None])
  /\ (forall err, restartResults tr = [Some err] -> written = false)
  /\ (restarts tr = [] -> written = false).
Proof using Hev.
  pose proof (restartResults_length tr) as Hlen.
  destruct Hev; (split; [split|split]); try done; try congruence;
    intros; exfalso; merge_eq;
    match goal with
    | H1 : restarts tr = _, H2 : restartResults tr = _ |- _ =>
        rewrite H1, H2 in Hlen; done
    end.
Qed.

Lemma evaluated_empty_health a :
  healthValues url tr = [EmptyString] -> allocValues url tr = [a] ->
  (announced tr = true <-> ToLower a = "all")
  /\ (dry = false -> (restarts tr = [unit] <-> ToLower a = "all")).
Proof using Hev.
  intros Hh Ha.
  destruct Hev as [?? ? Hf| | | | | |]; try (rewrite (healthValues_no_http _ _ Hf) in Hh);
    merge_eq; unfold Safe in *; cbn in *;
    (split; [split|intros ?; split]); intros; try done; try congruence; try tauto.
  all: exfalso; match goal with Hn : ~ _ |- _ => apply Hn end; by split.
Qed.

End Evaluated.
End Facts.

(** ** One evaluation of a service *)

Section Service.
Context {W : Type} `{Host W}.

Lemma evaluated_segment url unit period dry now stored tr written :
  Evaluated url unit period dry now stored tr written -> SafeSegment url tr.
Proof.
  intros Hev. destruct (evaluated_restarts _ _ _ _ _ _ _ _ Hev) as [Hr|Hr]; [by left|].
  right. destruct (evaluated_safe _ _ _ _ _ _ _ _ Hev) as (h & a & ?); [by rewrite Hr|].
  by exists unit, h, a.
Qed.

Lemma evaluated_013 flags url svc s t w1 e :
  time_Now_Unix (world s) = (t, w1) -> localNodes s !! svc = Some e ->
  let r := V013.nodeKeeper_service flags url svc s in
  exists s' written,
    final r = Some s'
    /\ clockReads (events r) = [wrap64 t]
    /\ Evaluated url (svc +:+ ".service") (mul64 (V013.noRestartTime flags) 60)
         (V013.dryRun flags) (wrap64 t) (lastRestart e) (events r) written
    /\ localNodes s' = if written then <[svc := setLastRestart e (wrap64 t)]> (localNodes s)
                       else localNodes s.
Proof.
  intros Ht He r. subst r.
  go_exec_with (V013.nodeKeeper_service flags url svc s) ltac:(unfold V013.nodeKeeper_service).
  all: eexists _, _; split; [reflexivity|]; split; [reflexivity|];
       split; [go_evaluated|go_registry].
Qed.

Lemma evaluated_010 url timeout noRestartTime svc s t w1 e :
  time_Now_Unix (world s) = (t, w1) -> localNodes s !! svc = Some e ->
  let r := V010.nodeKeeper_service url timeout noRestartTime svc s in
  exists s' written,
    final r = Some s'
    /\ clockReads (events r) = [wrap64 t]
    /\ Evaluated url svc (mul64 noRestartTime 60) false (wrap64 t) (lastRestart e)
         (events r) written
    /\ localNodes s' = if written then <[svc := setLastRestart e (wrap64 t)]> (localNodes s)
                       else localNodes s.
Proof.
  intros Ht He r. subst r.
  go_exec_with (V010.nodeKeeper_service url timeout noRestartTime svc s)
    ltac:(unfold V010.nodeKeeper_service).
  all: eexists _, _; split; [reflexivity|]; split; [reflexivity|];
       split; [go_evaluated|go_registry].
Qed.

(** The recency query of 0.19 always answers, leaves the registry alone,
    and emits the one command it runs. *)
Lemma rederive_019 unit (s : St W) :
  exists q wq ts qerr,
    exec_Run "systemctl" ["--no-pager"; "--property=ActiveEnterTimestamp"; "show"; unit]
      (world s) = (q, wq)
    /\ V019.getSystemdServiceActiveEnterTimestamp unit s
       = Done (ts, qerr) (mkSt wq (localNodes s))
           [EvLog Debug "Executing";
            EvExec "systemctl" ["--no-pager"; "--property=ActiveEnterTimestamp"; "show"; unit] q].
Proof.
  go_exec (V019.getSystemdServiceActiveEnterTimestamp unit s); eauto 10.
Qed.

Lemma evaluated_019 flags url svc s ts qerr sq trq t w1 e :
  V019.getSystemdServiceActiveEnterTimestamp (svc +:+ ".service") s = Done (ts, qerr) sq trq ->
  time_Now_Unix (world sq) = (t, w1) -> localNodes s !! svc = Some e ->
  let r := V019.nodeKeeper_service flags url svc s in
  let stored := match qerr with None => ts | Some _ => lastRestart e end in
  exists s' written,
    final r = Some s'
    /\ clockReads (events r) = [wrap64 t]
    /\ Evaluated url (svc +:+ ".service") (V019.restartExclusionPeriod flags)
         (V019.dryRun flags) (wrap64 t) stored (events r) written
    /\ localNodes s' = <[svc := setLastRestart e (if written then wrap64 t else stored)]> (localNodes s).
Proof.
  intros Hq Ht He r stored. subst r stored.
  destruct (rederive_019 (svc +:+ ".service") s) as (q & wq & ts' & qerr' & Hx & Hq').
  rewrite Hq' in Hq. simplify_eq. cbn in Ht.
  go_exec_with (V019.nodeKeeper_service flags url svc s)
    ltac:(unfold V019.nodeKeeper_service; rewrite (bind_Done _ _ _ _ _ _ Hq')).
  all: eexists _, _; split; [reflexivity|]; split; [reflexivity|];
       split; [go_evaluated|go_registry].
Qed.

(** *** A service that is not in the registry *)

Lemma missing_019 flags url svc s :
  localNodes s !! svc = None ->
  let r := V019.nodeKeeper_service flags url svc s in
  final r = None /\ Quiet (events r).
Proof.
  intros He r. subst r. unfold Quiet.
  destruct (rederive_019 (svc +:+ ".service") s) as (q & wq & ts' & qerr' & Hx & Hq').
  go_exec_with (V019.nodeKeeper_service flags url svc s)
    ltac:(unfold V019.nodeKeeper_service; rewrite (bind_Done _ _ _ _ _ _ Hq')); done.
Qed.

Lemma missing_013 flags url svc s :
  localNodes s !! svc = None ->
  let r := V013.nodeKeeper_service flags url svc s in
  final r = None /\ Quiet (events r).
Proof.
  intros He r. subst r. unfold Quiet.
  go_exec_with (V013.nodeKeeper_service flags url svc s)
    ltac:(unfold V013.nodeKeeper_service); done.
Qed.

Lemma missing_010 url timeout noRestartTime svc s :
  localNodes s !! svc = None ->
  let r := V010.nodeKeeper_service url timeout noRestartTime svc s in
  final r = None /\ Quiet (events r).
Proof.
  intros He r. subst r. unfold Quiet.
  go_exec_with (V010.nodeKeeper_service url timeout noRestartTime svc s)
    ltac:(unfold V010.nodeKeeper_service); done.
Qed.

(** *** Every evaluation, whatever the state *)

Lemma service_019 flags url svc s :
  let r := V019.nodeKeeper_service flags url svc s in
  (localNodes s !! svc = None /\ final r = None /\ Quiet (events r))
  \/ exists e ts qerr sq trq t w1 s' written,
       localNodes s !! svc = Some e
       /\ V019.getSystemdServiceActiveEnterTimestamp (svc +:+ ".service") s
          = Done (ts, qerr) sq trq
       /\ time_Now_Unix (world sq) = (t, w1)
       /\ final r = Some s'
       /\ clockReads (events r) = [wrap64 t]
       /\ Evaluated url (svc +:+ ".service") (V019.restartExclusionPeriod flags)
            (V019.dryRun flags) (wrap64 t)
            (match qerr with None => ts | Some _ => lastRestart e end) (events r) written
       /\ localNodes s'
          = <[svc := setLastRestart e
                       (if written then wrap64 t
                        else match qerr with None => ts | Some _ => lastRestart e end)]>
              (localNodes s).
Proof.
  intros r. destruct (localNodes s !! svc) as [e|] eqn:He.
  - right.
    destruct (rederive_019 (svc +:+ ".service") s) as (q & wq & ts & qerr & Hx & Hq).
    destruct (time_Now_Unix wq) as [t w1] eqn:Ht.
    destruct (evaluated_019 flags url svc s _ _ _ _ t w1 e Hq Ht He) as (s' & written & Hev).
    eexists e, ts, qerr, _, _, t, w1, s', written.
    split_and!; try done; try apply Hq; try apply Ht; apply Hev.
  - left. split; [done|]. by apply missing_019.
Qed.

Lemma service_013 flags url svc s :
  let r := V013.nodeKeeper_service flags url svc s in
  (localNodes s !! svc = None /\ final r = None /\ Quiet (events r))
  \/ exists e t w1 s' written,
       localNodes s !! svc = Some e
       /\ time_Now_Unix (world s) = (t, w1)
       /\ final r = Some s'
       /\ clockReads (events r) = [wrap64 t]
       /\ Evaluated url (svc +:+ ".service") (mul64 (V013.noRestartTime flags) 60)
            (V013.dryRun flags) (wrap64 t) (lastRestart e) (events r) written
       /\ localNodes s' = if written then <[svc := setLastRestart e (wrap64 t)]> (localNodes s)
                          else localNodes s.
Proof.
  intros r. destruct (localNodes s !! svc) as [e|] eqn:He.
  - right. destruct (time_Now_Unix (world s)) as [t w1] eqn:Ht.
    destruct (evaluated_013 flags url svc s t w1 e Ht He) as (s' & written & ?).
    by exists e, t, w1, s', written.
  - left. split; [done|]. by apply missing_013.
Qed.

Lemma service_010 url timeout noRestartTime svc s :
  let r := V010.nodeKeeper_service url timeout noRestartTime svc s in
  (localNodes s !! svc = None /\ final r = None /\ Quiet (events r))
  \/ exists e t w1 s' written,
       localNodes s !! svc = Some e
       /\ time_Now_Unix (world s) = (t, w1)
       /\ final r = Some s'
       /\ clockReads (events r) = [wrap64 t]
       /\ Evaluated url svc (mul64 noRestartTime 60) false (wrap64 t) (lastRestart e)
            (events r) written
       /\ localNodes s' = if written then <[svc := setLastRestart e (wrap64 t)]> (localNodes s)
                          else localNodes s.
Proof.
  intros r. destruct (localNodes s !! svc) as [e|] eqn:He.
  - right. destruct (time_Now_Unix (world s)) as [t w1] eqn:Ht.
    destruct (evaluated_010 url timeout noRestartTime svc s t w1 e Ht He) as (s' & written & ?).
    by exists e, t, w1, s', written.
  - left. split; [done|]. by apply missing_010.
Qed.

End Service.

(** ** Pieces of a trace *)

Lemma Segmented_one (P : list Event -> Prop) tr : P tr -> Segmented P tr.
Proof. intros HP. exists [tr]. cbn. rewrite app_nil_r. split; [done|]. by constructor. Qed.

Lemma Segmented_app (P : list Event -> Prop) a b :
  Segmented P a -> Segmented P b -> Segmented P (a ++ b).
Proof.
  intros (sa & -> & Ha) (sb & -> & Hb). exists (sa ++ sb).
  split; [by rewrite concat_app|]. by apply Forall_app.
Qed.

(** ** One pass, and a run *)

Section Pass.
Context {W : Type} `{Host W}.

Lemma getActiveNodes_019 flags url (s : St W) :
  exists active err s1 tr1,
    V019.getActiveNodes flags url s = Done (active, err) s1 tr1
    /\ localNodes s1 = localNodes s /\ restarts tr1 = []
    /\ Forall (fun e => isSleep e = false) tr1.
Proof.
  go_exec (V019.getActiveNodes flags url s).
  all: eexists _, _, _, _; (split; [reflexivity|]); split_and!; try done; by repeat constructor.
Qed.

Lemma getActiveNodes_013 flags url (s : St W) :
  exists active err s1 tr1,
    V013.getActiveNodes flags url s = Done (active, err) s1 tr1
    /\ localNodes s1 = localNodes s /\ restarts tr1 = []
    /\ Forall (fun e => isSleep e = false) tr1.
Proof.
  go_exec (V013.getActiveNodes flags url s).
  all: eexists _, _, _, _; (split; [reflexivity|]); split_and!; try done; by repeat constructor.
Qed.

Lemma getActiveNodes_010 url timeout (s : St W) :
  exists active err s1 tr1,
    V010.getActiveNodes url timeout s = Done (active, err) s1 tr1
    /\ localNodes s1 = localNodes s /\ restarts tr1 = []
    /\ Forall (fun e => isSleep e = false) tr1.
Proof.
  go_exec (V010.getActiveNodes url timeout s).
  all: eexists _, _, _, _; (split; [reflexivity|]); split_and!; try done; by repeat constructor.
Qed.

Lemma pass_019 flags url (s : St W) active err s1 tr1 :
  V019.getActiveNodes flags url s = Done (active, err) s1 tr1 ->
  localNodes s1 = localNodes s ->
  match err with
  | Some _ =>
      V019.nodeKeeper_pass flags url s
      = Done tt (mkSt (time_Sleep interval (world s1)) (localNodes s))
          (tr1 ++ [EvLog Warn "Cannot get active nodes from cluster"; EvSleep interval])
  | None =>
      exists order w2,
        map_range_order (world s1) = (order, w2)
        /\ let invalid := getInvalidNodes order (localNodes s) active in
           V019.nodeKeeper_pass flags url s
           = prepend tr1
               (afterLoop
                  (if (0 <? length invalid)%nat
                   then forEach (V019.nodeKeeper_service flags url) invalid
                          (mkSt w2 (localNodes s))
                   else Done tt (mkSt w2 (localNodes s))
                          [EvLog Debug "All local nodes are active members of the cluster"]))
  end.
Proof.
  intros Hg Hn.
  unfold V019.nodeKeeper_pass. rewrite (bind_Done _ _ _ _ _ _ Hg).
  destruct err as [e|].
  - autounfold with go. go_simpl. by rewrite Hn.
  - destruct (map_range_order (world s1)) as [order w2] eqn:Ho.
    exists order, w2. split; [done|]. cbv zeta. f_equal.
    autounfold with go. go_simpl. rewrite Ho. go_simpl. rewrite Hn.
    destruct (0 <? length _)%nat; go_simpl; [|done].
    destruct (forEach _ _ _) as [[] s2 tr| |]; go_simpl; by rewrite ?app_nil_r.
Qed.

Lemma pass_013 flags url (s : St W) active err s1 tr1 :
  V013.getActiveNodes flags url s = Done (active, err) s1 tr1 ->
  localNodes s1 = localNodes s ->
  match err with
  | Some _ =>
      V013.nodeKeeper_pass flags url s
      = Done tt (mkSt (time_Sleep interval (world s1)) (localNodes s))
          (tr1 ++ [EvLog Warn "Cannot get active nodes from cluster"; EvSleep interval])
  | None =>
      exists order w2,
        map_range_order (world s1) = (order, w2)
        /\ let invalid := getInvalidNodes order (localNodes s) active in
           V013.nodeKeeper_pass flags url s
           = prepend tr1
               (afterLoop
                  (if (0 <? length invalid)%nat
                   then forEach (V013.nodeKeeper_service flags url) invalid
                          (mkSt w2 (localNodes s))
                   else Done tt (mkSt w2 (localNodes s))
                          [EvLog Debug "All local nodes are active members of the cluster"]))
  end.
Proof.
  intros Hg Hn.
  unfold V013.nodeKeeper_pass. rewrite (bind_Done _ _ _ _ _ _ Hg).
  destruct err as [e|].
  - autounfold with go. go_simpl. by rewrite Hn.
  - destruct (map_range_order (world s1)) as [order w2] eqn:Ho.
    exists order, w2. split; [done|]. cbv zeta. f_equal.
    autounfold with go. go_simpl. rewrite Ho. go_simpl. rewrite Hn.
    destruct (0 <? length _)%nat; go_simpl; [|done].
    destruct (forEach _ _ _) as [[] s2 tr| |]; go_simpl; by rewrite ?app_nil_r.
Qed.

(** In 0.10 a pass that cannot fetch the active nodes ends without sleeping. *)
Lemma pass_010 url timeout noRestartTime (s : St W) active err s1 tr1 :
  V010.getActiveNodes url timeout s = Done (active, err) s1 tr1 ->
  localNodes s1 = localNodes s ->
  match err with
  | Some _ =>
      V010.nodeKeeper_pass url timeout noRestartTime s
      = Done tt s1 (tr1 ++ [EvLog Warn "Cannot get active nodes from cluster"])
  | None =>
      exists order w2,
        map_range_order (world s1) = (order, w2)
        /\ let invalid := getInvalidNodes order (localNodes s) active in
           V010.nodeKeeper_pass url timeout noRestartTime s
           = prepend tr1
               (afterLoop
                  (if (0 <? length invalid)%nat
                   then forEach (V010.nodeKeeper_service url timeout noRestartTime) invalid
                          (mkSt w2 (localNodes s))
                   else Done tt (mkSt w2 (localNodes s)) []))
  end.
Proof.
  intros Hg Hn.
  unfold V010.nodeKeeper_pass. rewrite (bind_Done _ _ _ _ _ _ Hg).
  destruct err as [e|].
  - autounfold with go. go_simpl. done.
  - destruct (map_range_order (world s1)) as [order w2] eqn:Ho.
    exists order, w2. split; [done|]. cbv zeta. f_equal.
    autounfold with go. go_simpl. rewrite Ho. go_simpl. rewrite Hn.
    destruct (0 <? length _)%nat; go_simpl; [|done].
    destruct (forEach _ _ _) as [[] s2 tr| |]; go_simpl; by rewrite ?app_nil_r.
Qed.

Lemma events_afterLoop (r : Res W unit) :
  events (afterLoop r) = events r ++ match r with Done _ _ _ => [EvSleep interval] | _ => [] end.
Proof. destruct r; cbn; by rewrite ?app_nil_r. Qed.

Lemma final_afterLoop (r : Res W unit) :
  final (afterLoop r)
  = (fun s2 => mkSt (time_Sleep interval (world s2)) (localNodes s2)) <$> final r.
Proof. by destruct r. Qed.

(** A property of traces that holds of every trace without restarts and is
    kept by [++] holds of a run when it holds of every evaluation. *)
Section Closed.
Variable Q : list Event -> Prop.
Hypothesis Q_quiet : forall tr, restarts tr = [] -> Q tr.
Hypothesis Q_app : forall a b, Q a -> Q b -> Q (a ++ b).

Lemma afterLoop_closed (r : Res W unit) : Q (events r) -> Q (events (afterLoop r)).
Proof using Q_quiet Q_app.
  intros Hr. rewrite events_afterLoop. apply Q_app; [done|]. apply Q_quiet. by destruct r.
Qed.

Lemma pass_closed_019 flags url s :
  (forall active err s1 tr1 order x s',
     V019.getActiveNodes flags url s = Done (active, err) s1 tr1 ->
     x ∈ getInvalidNodes order (localNodes s) active ->
     Q (events (V019.nodeKeeper_service flags url x s'))) ->
  Q (events (V019.nodeKeeper_pass flags url s)).
Proof using Q_quiet Q_app.
  intros Hsvc.
  destruct (getActiveNodes_019 flags url s) as (active & err & s1 & tr1 & Hg & Hn & Hr & _).
  pose proof (pass_019 flags url s _ _ _ _ Hg Hn) as Hp. destruct err as [e|].
  - rewrite Hp. cbn. apply Q_quiet. by rewrite restarts_app, Hr.
  - destruct Hp as (order & w2 & _ & ->). rewrite events_prepend.
    apply Q_app; [by apply Q_quiet|]. apply afterLoop_closed.
    destruct (0 <? length _)%nat; [|by apply Q_quiet].
    apply forEach_events; eauto.
Qed.

Lemma pass_closed_013 flags url s :
  (forall active err s1 tr1 order x s',
     V013.getActiveNodes flags url s = Done (active, err) s1 tr1 ->
     x ∈ getInvalidNodes order (localNodes s) active ->
     Q (events (V013.nodeKeeper_service flags url x s'))) ->
  Q (events (V013.nodeKeeper_pass flags url s)).
Proof using Q_quiet Q_app.
  intros Hsvc.
  destruct (getActiveNodes_013 flags url s) as (active & err & s1 & tr1 & Hg & Hn & Hr & _).
  pose proof (pass_013 flags url s _ _ _ _ Hg Hn) as Hp. destruct err as [e|].
  - rewrite Hp. cbn. apply Q_quiet. by rewrite restarts_app, Hr.
  - destruct Hp as (order & w2 & _ & ->). rewrite events_prepend.
    apply Q_app; [by apply Q_quiet|]. apply afterLoop_closed.
    destruct (0 <? length _)%nat; [|by apply Q_quiet].
    apply forEach_events; eauto.
Qed.

Lemma pass_closed_010 url timeout noRestartTime s :
  (forall active err s1 tr1 order x s',
     V010.getActiveNodes url timeout s = Done (active, err) s1 tr1 ->
     x ∈ getInvalidNodes order (localNodes s) active ->
     Q (events (V010.nodeKeeper_service url timeout noRestartTime x s'))) ->
  Q (events (V010.nodeKeeper_pass url timeout noRestartTime s)).
Proof using Q_quiet Q_app.
  intros Hsvc.
  destruct (getActiveNodes_010 url timeout s) as (active & err & s1 & tr1 & Hg & Hn & Hr & _).
  pose proof (pass_010 url timeout noRestartTime s _ _ _ _ Hg Hn) as Hp. destruct err as [e|].
  - rewrite Hp. cbn. apply Q_quiet. by rewrite restarts_app, Hr.
  - destruct Hp as (order & w2 & _ & ->). rewrite events_prepend.
    apply Q_app; [by apply Q_quiet|]. apply afterLoop_closed.
    destruct (0 <? length _)%nat; [|by apply Q_quiet].
    apply forEach_events; eauto.
Qed.

Lemma run_closed_019 flags url passes s :
  (forall svc s', Q (events (V019.nodeKeeper_service flags url svc s'))) ->
  Q (events (V019.nodeKeeper flags passes url s)).
Proof using Q_quiet Q_app.
  intros Hsvc. revert s. induction passes as [|n IH]; intros s; cbn; [by apply Q_quiet|].
  rewrite events_bind. apply Q_app; [apply pass_closed_019; auto|].
  destruct (V019.nodeKeeper_pass flags url s); [apply IH | by apply Q_quiet | by apply Q_quiet].
Qed.

Lemma run_closed_013 flags url passes s :
  (forall svc s', Q (events (V013.nodeKeeper_service flags url svc s'))) ->
  Q (events (V013.nodeKeeper flags passes url s)).
Proof using Q_quiet Q_app.
  intros Hsvc. revert s. induction passes as [|n IH]; intros s; cbn; [by apply Q_quiet|].
  rewrite events_bind. apply Q_app; [apply pass_closed_013; auto|].
  destruct (V013.nodeKeeper_pass flags url s); [apply IH | by apply Q_quiet | by apply Q_quiet].
Qed.

Lemma run_closed_010 url timeout noRestartTime passes s :
  (forall svc s', Q (events (V010.nodeKeeper_service url timeout noRestartTime svc s'))) ->
  Q (events (V010.nodeKeeper passes url timeout noRestartTime s)).
Proof using Q_quiet Q_app.
  intros Hsvc. revert s. induction passes as [|n IH]; intros s; cbn; [by apply Q_quiet|].
  rewrite events_bind. apply Q_app; [apply pass_closed_010; auto|].
  destruct (V010.nodeKeeper_pass url timeout noRestartTime s);
    [apply IH | by apply Q_quiet | by apply Q_quiet].
Qed.

End Closed.
End Pass.

(** ** The registry across a pass and a run *)

Section Registry.
Context {W : Type} `{Host W}.
Variable I : gmap string Entry -> Prop.

Lemma pass_final_019 flags url s s' :
  (forall active err s1 tr1 order x sa sb,
     V019.getActiveNodes flags url s = Done (active, err) s1 tr1 ->
     x ∈ getInvalidNodes order (localNodes s) active ->
     I (localNodes sa) -> final (V019.nodeKeeper_service flags url x sa) = Some sb ->
     I (localNodes sb)) ->
  I (localNodes s) ->
  final (V019.nodeKeeper_pass flags url s) = Some s' -> I (localNodes s').
Proof.
  intros Hsvc HI.
  destruct (getActiveNodes_019 flags url s) as (active & err & s1 & tr1 & Hg & Hn & Hr & _).
  pose proof (pass_019 flags url s _ _ _ _ Hg Hn) as Hp. destruct err as [e|].
  - rewrite Hp. by intros [= <-].
  - destruct Hp as (order & w2 & _ & ->). rewrite final_prepend, final_afterLoop.
    destruct (0 <? length _)%nat; cbn.
    + destruct (final (forEach _ _ _)) as [s2|] eqn:Hf; cbn; [|done]. intros [= <-]. cbn.
      refine (forEach_final I _ _ _ _ _ _ Hf); [eauto|exact HI].
    + by intros [= <-].
Qed.

Lemma pass_final_013 flags url s s' :
  (forall active err s1 tr1 order x sa sb,
     V013.getActiveNodes flags url s = Done (active, err) s1 tr1 ->
     x ∈ getInvalidNodes order (localNodes s) active ->
     I (localNodes sa) -> final (V013.nodeKeeper_service flags url x sa) = Some sb ->
     I (localNodes sb)) ->
  I (localNodes s) ->
  final (V013.nodeKeeper_pass flags url s) = Some s' -> I (localNodes s').
Proof.
  intros Hsvc HI.
  destruct (getActiveNodes_013 flags url s) as (active & err & s1 & tr1 & Hg & Hn & Hr & _).
  pose proof (pass_013 flags url s _ _ _ _ Hg Hn) as Hp. destruct err as [e|].
  - rewrite Hp. by intros [= <-].
  - destruct Hp as (order & w2 & _ & ->). rewrite final_prepend, final_afterLoop.
    destruct (0 <? length _)%nat; cbn.
    + destruct (final (forEach _ _ _)) as [s2|] eqn:Hf; cbn; [|done]. intros [= <-]. cbn.
      refine (forEach_final I _ _ _ _ _ _ Hf); [eauto|exact HI].
    + by intros [= <-].
Qed.

Lemma pass_final_010 url timeout noRestartTime s s' :
  (forall active err s1 tr1 order x sa sb,
     V010.getActiveNodes url timeout s = Done (active, err) s1 tr1 ->
     x ∈ getInvalidNodes order (localNodes s) active ->
     I (localNodes sa) ->
     final (V010.nodeKeeper_service url timeout noRestartTime x sa) = Some sb ->
     I (localNodes sb)) ->
  I (localNodes s) ->
  final (V010.nodeKeeper_pass url timeout noRestartTime s) = Some s' -> I (localNodes s').
Proof.
  intros Hsvc HI.
  destruct (getActiveNodes_010 url timeout s) as (active & err & s1 & tr1 & Hg & Hn & Hr & _).
  pose proof (pass_010 url timeout noRestartTime s _ _ _ _ Hg Hn) as Hp. destruct err as [e|].
  - rewrite Hp. intros [= <-]. by rewrite Hn.
  - destruct Hp as (order & w2 & _ & ->). rewrite final_prepend, final_afterLoop.
    destruct (0 <? length _)%nat; cbn.
    + destruct (final (forEach _ _ _)) as [s2|] eqn:Hf; cbn; [|done]. intros [= <-]. cbn.
      refine (forEach_final I _ _ _ _ _ _ Hf); [eauto|exact HI].
    + by intros [= <-].
Qed.

Lemma run_final_013 flags url passes s s' :
  (forall x sa sb, I (localNodes sa) ->
     final (V013.nodeKeeper_service flags url x sa) = Some sb -> I (localNodes sb)) ->
  I (localNodes s) ->
  final (V013.nodeKeeper flags passes url s) = Some s' -> I (localNodes s').
Proof.
  intros Hsvc. revert s. induction passes as [|n IH]; intros s HI; cbn.
  - by intros [= <-].
  - rewrite final_bind.
    destruct (V013.nodeKeeper_pass flags url s) as [[] s1 tr| |] eqn:Hp; [|done|done].
    apply IH. eapply (pass_final_013 flags url s s1); eauto. by rewrite Hp.
Qed.

End Registry.

(** ** The invalid services *)

Lemma insertAt_Permutation {A} n (x : A) l : insertAt n x l ≡ₚ x :: l.
Proof.
  revert n. induction l as [|y l IH]; intros [|n]; cbn; try done.
  rewrite IH. apply perm_swap.
Qed.

Lemma permute_Permutation {A} order (l : list A) : permute order l ≡ₚ l.
Proof.
  revert order. induction l as [|x l IH]; intros order; cbn; [done|].
  by rewrite insertAt_Permutation, IH.
Qed.

Lemma getInvalidNodes_foldl (activeNodes : gset string)
    (kvs : list (string * Entry)) (acc : list string) (svc : string) :
  svc ∈ foldl (fun (nodesToRestart : list string) '(service, value) =>
                 if decide (instance value ∈ activeNodes)
                 then nodesToRestart
                 else nodesToRestart ++ [service]) acc kvs
  <-> svc ∈ acc \/ exists e : Entry, (svc, e) ∈ kvs /\ instance e ∉ activeNodes.
Proof.
  revert acc. induction kvs as [|[k v] kvs IH]; intros acc; cbn.
  - split; [auto|]. intros [?|(e & He & _)]; [done|]. by apply elem_of_nil in He.
  - rewrite IH. case_decide as Hin.
    + split.
      * intros [?|(e & He & Hne)]; [auto|]. right. exists e. split; [by right|done].
      * intros [?|(e & He & Hne)]; [auto|]. apply elem_of_cons in He as [[= -> ->]|He]; [done|].
        right. eauto.
    + rewrite elem_of_app, list_elem_of_singleton. split.
      * intros [[?| ->]|(e & He & Hne)]; [auto| |].
        -- right. exists v. split; [by left|done].
        -- right. exists e. split; [by right|done].
      * intros [?|(e & He & Hne)]; [auto|]. apply elem_of_cons in He as [[= -> ->]|He]; [auto|].
        right. eauto.
Qed.

Lemma getInvalidNodes_spec order (localNodes : gmap string Entry) (activeNodes : gset string) svc :
  svc ∈ getInvalidNodes order localNodes activeNodes
  <-> exists e, localNodes !! svc = Some e /\ instance e ∉ activeNodes.
Proof.
  unfold getInvalidNodes. rewrite getInvalidNodes_foldl. split.
  - intros [Hn|(e & He & Hne)]; [by apply elem_of_nil in Hn|].
    rewrite permute_Permutation in He. apply elem_of_map_to_list in He. eauto.
  - intros (e & He & Hne). right. exists e. split; [|done].
    rewrite permute_Permutation. by apply elem_of_map_to_list.
Qed.

(** ** What every evaluation satisfies *)

Section Evaluations.
Context {W : Type} `{Host W}.

Lemma quiet_segment url tr : Quiet tr -> SafeSegment url tr.
Proof. intros (Hr & _). by left. Qed.

Lemma service_segment_019 flags url svc s :
  SafeSegment url (events (V019.nodeKeeper_service flags url svc s)).
Proof.
  destruct (service_019 flags url svc s)
    as [(_ & _ & Hq)|(e & ts & qerr & sq & trq & t & w1 & s' & wr & _ & _ & _ & _ & _ & Hev & _)].
  - by apply quiet_segment.
  - by eapply evaluated_segment.
Qed.

Lemma service_segment_013 flags url svc s :
  SafeSegment url (events (V013.nodeKeeper_service flags url svc s)).
Proof.
  destruct (service_013 flags url svc s)
    as [(_ & _ & Hq)|(e & t & w1 & s' & wr & _ & _ & _ & _ & Hev & _)].
  - by apply quiet_segment.
  - by eapply evaluated_segment.
Qed.

Lemma service_segment_010 url timeout noRestartTime svc s :
  SafeSegment url (events (V010.nodeKeeper_service url timeout noRestartTime svc s)).
Proof.
  destruct (service_010 url timeout noRestartTime svc s)
    as [(_ & _ & Hq)|(e & t & w1 & s' & wr & _ & _ & _ & _ & Hev & _)].
  - by apply quiet_segment.
  - by eapply evaluated_segment.
Qed.

(** An evaluation restarts nothing but its own service. *)
Lemma service_own_019 flags url svc s :
  let tr := events (V019.nodeKeeper_service flags url svc s) in
  restarts tr = [] \/ restarts tr = [svc +:+ ".service"].
Proof.
  destruct (service_019 flags url svc s)
    as [(_ & _ & Hq & _)|(e & ts & qerr & sq & trq & t & w1 & s' & wr & _ & _ & _ & _ & _ & Hev & _)].
  - by left.
  - by eapply evaluated_restarts.
Qed.

Lemma service_own_013 flags url svc s :
  let tr := events (V013.nodeKeeper_service flags url svc s) in
  restarts tr = [] \/ restarts tr = [svc +:+ ".service"].
Proof.
  destruct (service_013 flags url svc s)
    as [(_ & _ & Hq & _)|(e & t & w1 & s' & wr & _ & _ & _ & _ & Hev & _)].
  - by left.
  - by eapply evaluated_restarts.
Qed.

Lemma service_own_010 url timeout noRestartTime svc s :
  let tr := events (V010.nodeKeeper_service url timeout noRestartTime svc s) in
  restarts tr = [] \/ restarts tr = [svc].
Proof.
  destruct (service_010 url timeout noRestartTime svc s)
    as [(_ & _ & Hq & _)|(e & t & w1 & s' & wr & _ & _ & _ & _ & Hev & _)].
  - by left.
  - by eapply evaluated_restarts.
Qed.

(** An evaluation writes no entry but its own service's. *)
Lemma service_frame_019 flags url x s s' svc :
  final (V019.nodeKeeper_service flags url x s) = Some s' -> svc <> x ->
  localNodes s' !! svc = localNodes s !! svc.
Proof.
  intros Hf Hne.
  destruct (service_019 flags url x s)
    as [(_ & Hp & _)|(e & ts & qerr & sq & trq & t & w1 & s'' & wr & _ & _ & _ & Hf' & _ & _ & Hs)].
  - congruence.
  - rewrite Hf in Hf'. simplify_eq. rewrite Hs. by rewrite lookup_insert_ne.
Qed.

Lemma service_frame_013 flags url x s s' svc :
  final (V013.nodeKeeper_service flags url x s) = Some s' -> svc <> x ->
  localNodes s' !! svc = localNodes s !! svc.
Proof.
  intros Hf Hne.
  destruct (service_013 flags url x s)
    as [(_ & Hp & _)|(e & t & w1 & s'' & wr & _ & _ & Hf' & _ & _ & Hs)].
  - congruence.
  - rewrite Hf in Hf'. simplify_eq. rewrite Hs. destruct wr; [by rewrite lookup_insert_ne|done].
Qed.

Lemma service_frame_010 url timeout noRestartTime x s s' svc :
  final (V010.nodeKeeper_service url timeout noRestartTime x s) = Some s' -> svc <> x ->
  localNodes s' !! svc = localNodes s !! svc.
Proof.
  intros Hf Hne.
  destruct (service_010 url timeout noRestartTime x s)
    as [(_ & Hp & _)|(e & t & w1 & s'' & wr & _ & _ & Hf' & _ & _ & Hs)].
  - congruence.
  - rewrite Hf in Hf'. simplify_eq. rewrite Hs. destruct wr; [by rewrite lookup_insert_ne|done].
Qed.

End Evaluations.

(** ** The claims *)

Section Claims.
Context {W : Type} `{Host W}.

Lemma segment_only_when_safe url tr : SafeSegment url tr -> RestartsOnlyWhenSafe url tr.
Proof.
  intros [Hr|(u & h & a & Hr & Hh & Ha & Hs & Hs')]; split_and!; try done.
  - by exists h, a.
  - intros h' Hh' Hred. rewrite Hh in Hh'. by simplify_eq.
  - intros a' Ha' Hna. rewrite Ha in Ha'. by simplify_eq.
Qed.

Lemma segmented_quiet url tr : restarts tr = [] -> Segmented (SafeSegment url) tr.
Proof. intros Hr. apply Segmented_one. by left. Qed.

(** C1: in every evaluation of a service, in each revision, a restart
    command is run only when one health value and one allocation policy
    were fetched and the health, lowercased, is not "red" while the policy,
    lowercased, is "all"; a health that lowers to "red", or a policy that
    does not lower to "all" (the empty one included), means no restart.  And
    every run of [nodeKeeper] is a sequence of pieces each of which restarts
    nothing or restarts one unit on such values. *)
Theorem C1_restart_only_when_safe :
  (forall flags url svc s,
     RestartsOnlyWhenSafe url (events (V019.nodeKeeper_service flags url svc s)))
  /\ (forall flags url svc s,
        RestartsOnlyWhenSafe url (events (V013.nodeKeeper_service flags url svc s)))
  /\ (forall url timeout noRestartTime svc s,
        RestartsOnlyWhenSafe url
          (events (V010.nodeKeeper_service url timeout noRestartTime svc s)))
  /\ (forall flags passes url s,
        Segmented (SafeSegment url) (events (V019.nodeKeeper flags passes url s)))
  /\ (forall flags passes url s,
        Segmented (SafeSegment url) (events (V013.nodeKeeper flags passes url s)))
  /\ (forall passes url timeout noRestartTime s,
        Segmented (SafeSegment url)
          (events (V010.nodeKeeper passes url timeout noRestartTime s))).
Proof.
  split_and!.
  - intros. apply segment_only_when_safe, service_segment_019.
  - intros. apply segment_only_when_safe, service_segment_013.
  - intros. apply segment_only_when_safe, service_segment_010.
  - intros. apply run_closed_019;
      [apply segmented_quiet | apply Segmented_app
      | intros; apply Segmented_one, service_segment_019].
  - intros. apply run_closed_013;
      [apply segmented_quiet | apply Segmented_app
      | intros; apply Segmented_one, service_segment_013].
  - intros. apply run_closed_010;
      [apply segmented_quiet | apply Segmented_app
      | intros; apply Segmented_one, service_segment_010].
Qed.

(** C2: an evaluation in which the time elapsed since the stored timestamp
    (in 0.19: as it stands once the recency query has been made) is at most
    the exclusion period runs no restart command and sends no request to
    the cluster, whatever the cluster would have answered; the registry is
    left as the recency query left it (0.13, 0.10: untouched).  No
    evaluation restarts another service than its own. *)
Theorem C2_suppressed_within_exclusion_period :
  (forall flags url svc s ts qerr sq trq t w1 e,
     V019.getSystemdServiceActiveEnterTimestamp (svc +:+ ".service") s
       = Done (ts, qerr) sq trq ->
     time_Now_Unix (world sq) = (t, w1) ->
     localNodes s !! svc = Some e ->
     let stored := match qerr with None => ts | Some _ => lastRestart e end in
     sub64 (wrap64 t) stored <= V019.restartExclusionPeriod flags ->
     let r := V019.nodeKeeper_service flags url svc s in
     restarts (events r) = []
     /\ filter (fun ev => isHttp ev = true) (events r) = []
     /\ exists s', final r = Some s'
          /\ localNodes s' = <[svc := setLastRestart e stored]> (localNodes s))
  /\ (forall flags url svc s t w1 e,
        time_Now_Unix (world s) = (t, w1) ->
        localNodes s !! svc = Some e ->
        sub64 (wrap64 t) (lastRestart e) <= mul64 (V013.noRestartTime flags) 60 ->
        let r := V013.nodeKeeper_service flags url svc s in
        restarts (events r) = []
        /\ filter (fun ev => isHttp ev = true) (events r) = []
        /\ exists s', final r = Some s' /\ localNodes s' = localNodes s)
  /\ (forall url timeout noRestartTime svc s t w1 e,
        time_Now_Unix (world s) = (t, w1) ->
        localNodes s !! svc = Some e ->
        sub64 (wrap64 t) (lastRestart e) <= mul64 noRestartTime 60 ->
        let r := V010.nodeKeeper_service url timeout noRestartTime svc s in
        restarts (events r) = []
        /\ filter (fun ev => isHttp ev = true) (events r) = []
        /\ exists s', final r = Some s' /\ localNodes s' = localNodes s)
  /\ (forall flags url svc s,
        let tr := events (V019.nodeKeeper_service flags url svc s) in
        restarts tr = [] \/ restarts tr = [svc +:+ ".service"])
  /\ (forall flags url svc s,
        let tr := events (V013.nodeKeeper_service flags url svc s) in
        restarts tr = [] \/ restarts tr = [svc +:+ ".service"])
  /\ (forall url timeout noRestartTime svc s,
        let tr := events (V010.nodeKeeper_service url timeout noRestartTime svc s) in
        restarts tr = [] \/ restarts tr = [svc]).
Proof.
  split_and!.
  - intros flags url svc s ts qerr sq trq t w1 e Hq Ht He stored Hle r.
    destruct (evaluated_019 flags url svc s _ _ _ _ t w1 e Hq Ht He)
      as (s' & wr & Hf & _ & Hev & Hs).
    destruct (evaluated_suppressed _ _ _ _ _ _ _ _ Hev Hle) as (Hr & Hh & _ & ->).
    split_and!; [done|done|]. by exists s'.
  - intros flags url svc s t w1 e Ht He Hle r.
    destruct (evaluated_013 flags url svc s t w1 e Ht He) as (s' & wr & Hf & _ & Hev & Hs).
    destruct (evaluated_suppressed _ _ _ _ _ _ _ _ Hev Hle) as (Hr & Hh & _ & ->).
    split_and!; [done|done|]. by exists s'.
  - intros url timeout nrt svc s t w1 e Ht He Hle r.
    destruct (evaluated_010 url timeout nrt svc s t w1 e Ht He) as (s' & wr & Hf & _ & Hev & Hs).
    destruct (evaluated_suppressed _ _ _ _ _ _ _ _ Hev Hle) as (Hr & Hh & _ & ->).
    split_and!; [done|done|]. by exists s'.
  - apply service_own_019.
  - apply service_own_013.
  - apply service_own_010.
Qed.

Lemma evaluated_gate url unit period dry now stored tr :
  Evaluated url unit period dry now stored tr true -> period < sub64 now stored.
Proof. by inversion 1. Qed.

Lemma rederive_range unit (s : St W) ts qerr sq trq :
  V019.getSystemdServiceActiveEnterTimestamp unit s = Done (ts, qerr) sq trq ->
  int64_range ts.
Proof.
  intros Hq. revert Hq.
  go_exec (V019.getSystemdServiceActiveEnterTimestamp unit s);
    intros [= <- _ _ _]; first [apply wrap64_range | by unfold int64_range].
Qed.

(** C3, as the code has it: an evaluation of 0.19 leaves in the registry the
    timestamp [now] if it restarted the service, and otherwise what the
    recency query reported (or the old value, when the query failed).  The
    timestamp does not decrease provided the reported time is not before
    the stored one, the exclusion period is not negative, and the times
    are those of a clock after 1970; no other entry is written. *)
Theorem C3_timestamp_monotone_when_host_is :
  forall flags url svc s ts qerr sq trq t w1 e s',
    V019.getSystemdServiceActiveEnterTimestamp (svc +:+ ".service") s
      = Done (ts, qerr) sq trq ->
    time_Now_Unix (world sq) = (t, w1) ->
    localNodes s !! svc = Some e ->
    final (V019.nodeKeeper_service flags url svc s) = Some s' ->
    0 <= V019.restartExclusionPeriod flags ->
    0 <= lastRestart e < 2 ^ 63 ->
    0 <= t < 2 ^ 63 ->
    (qerr = None -> lastRestart e <= ts) ->
    exists e',
      localNodes s' !! svc = Some e'
      /\ instance e' = instance e
      /\ lastRestart e <= lastRestart e'
      /\ (lastRestart e' = t
          \/ lastRestart e' = match qerr with None => ts | Some _ => lastRestart e end)
      /\ forall svc', svc' <> svc -> localNodes s' !! svc' = localNodes s !! svc'.
Proof.
  intros flags url svc s ts qerr sq trq t w1 e s' Hq Ht He Hf Hp Hl Hc Hm.
  destruct (evaluated_019 flags url svc s _ _ _ _ t w1 e Hq Ht He)
    as (s'' & wr & Hf' & _ & Hev & Hs).
  rewrite Hf in Hf'. simplify_eq.
  pose proof (rederive_range _ _ _ _ _ _ Hq) as Hts.
  set (stored := match qerr with None => ts | Some _ => lastRestart e end) in *.
  assert (Hst : lastRestart e <= stored < 2 ^ 63).
  { subst stored. destruct qerr; [lia|]. unfold int64_range in Hts. specialize (Hm eq_refl). lia. }
  rewrite (wrap64_id t) in * by (unfold int64_range; lia).
  eexists. rewrite Hs, lookup_insert_eq. split_and!; [done|done| | |].
  - destruct wr; cbn; [|lia].
    apply evaluated_gate in Hev. unfold sub64 in Hev.
    rewrite wrap64_id in Hev by (unfold int64_range; lia). lia.
  - destruct wr; cbn; auto.
  - intros svc' Hne. by rewrite lookup_insert_ne.
Qed.

(** *** A pass that cannot fetch the active nodes *)

Lemma fetch_error_pass_019 flags url (s : St W) active err s1 tr1 :
  V019.getActiveNodes flags url s = Done (active, Some err) s1 tr1 ->
  V019.nodeKeeper_pass flags url s
  = Done tt (mkSt (time_Sleep interval (world s1)) (localNodes s))
      (tr1 ++ [EvLog Warn "Cannot get active nodes from cluster"; EvSleep interval])
  /\ restarts tr1 = [] /\ Forall (fun e => isSleep e = false) tr1.
Proof.
  intros Hg.
  destruct (getActiveNodes_019 flags url s) as (a' & e' & s1' & tr1' & Hg' & Hn & Hr & Hs).
  rewrite Hg in Hg'. simplify_eq. split; [|done].
  exact (pass_019 flags url s _ _ _ _ Hg Hn).
Qed.

Lemma fetch_error_pass_013 flags url (s : St W) active err s1 tr1 :
  V013.getActiveNodes flags url s = Done (active, Some err) s1 tr1 ->
  V013.nodeKeeper_pass flags url s
  = Done tt (mkSt (time_Sleep interval (world s1)) (localNodes s))
      (tr1 ++ [EvLog Warn "Cannot get active nodes from cluster"; EvSleep interval])
  /\ restarts tr1 = [] /\ Forall (fun e => isSleep e = false) tr1.
Proof.
  intros Hg.
  destruct (getActiveNodes_013 flags url s) as (a' & e' & s1' & tr1' & Hg' & Hn & Hr & Hs).
  rewrite Hg in Hg'. simplify_eq. split; [|done].
  exact (pass_013 flags url s _ _ _ _ Hg Hn).
Qed.

(** In 0.10 such a pass ends without any sleep: the next one starts at
    once. *)
Lemma fetch_error_pass_010 url timeout noRestartTime (s : St W) active err s1 tr1 :
  V010.getActiveNodes url timeout s = Done (active, Some err) s1 tr1 ->
  V010.nodeKeeper_pass url timeout noRestartTime s
  = Done tt s1 (tr1 ++ [EvLog Warn "Cannot get active nodes from cluster"])
  /\ Forall (fun e => isSleep e = false)
       (events (V010.nodeKeeper_pass url timeout noRestartTime s)).
Proof.
  intros Hg.
  destruct (getActiveNodes_010 url timeout s) as (a' & e' & s1' & tr1' & Hg' & Hn & Hr & Hs).
  rewrite Hg in Hg'. simplify_eq.
  pose proof (pass_010 url timeout noRestartTime s _ _ _ _ Hg Hn) as Hp. cbn in Hp.
  split; [done|]. rewrite Hp. cbn. apply Forall_app. split; [done|]. by repeat constructor.
Qed.

(** *** Status codes *)

(** [esQueryGet] (0.10) turns every status other than 200 into an error. *)
Lemma esQueryGet_non_200 url timeout (s : St W) r w :
  gorequest_End url timeout (world s) = (r, w) ->
  StatusCode (gr_resp r) <> 200 ->
  exists err, V010.esQueryGet url timeout s
              = Done (EmptyString, Some err) (mkSt w (localNodes s)) [EvGorequest url timeout r].
Proof.
  intros Hr Hc.
  go_exec (V010.esQueryGet url timeout s); eauto.
  apply negb_false_iff, Z.eqb_eq in E0. done.
Qed.

(** [httpGet] (0.13, 0.19) returns the body of a response whatever its
    status. *)
Lemma httpGet_any_status_019 flags url (s : St W) resp body w :
  http_NewRequest "GET" url = None ->
  http_Client_Do url (V019.timeout flags) (world s) = (DoResp resp (body, None), w) ->
  V019.httpGet flags url s
  = Done (body, None) (mkSt w (localNodes s))
      [EvHttpDo url (V019.timeout flags) (DoResp resp (body, None))].
Proof. intros Hn Hd. by go_exec (V019.httpGet flags url s). Qed.

Lemma httpGet_any_status_013 flags url (s : St W) resp body w :
  http_NewRequest "GET" url = None ->
  http_Client_Do url (V013.timeout flags) (world s) = (DoResp resp (body, None), w) ->
  V013.httpGet flags url s
  = Done (body, None) (mkSt w (localNodes s))
      [EvHttpDo url (V013.timeout flags) (DoResp resp (body, None))].
Proof. intros Hn Hd. by go_exec (V013.httpGet flags url s). Qed.

(** C6, as the code has it.  When the restart command of an evaluation
    succeeds, the service's timestamp becomes [now] and no other entry
    changes; when it fails, the registry is as it was before the attempt
    (0.13: as at the start; 0.19: as the recency query left it).  After a
    success, a later evaluation of the service within the exclusion
    period runs no restart in 0.13; in 0.19 it runs none when the recency
    query of that later evaluation fails or reports a time that is itself
    within the period. *)
Theorem C6_timestamp_follows_restart_outcome :
  (forall flags url svc s t w1 e,
     time_Now_Unix (world s) = (t, w1) -> localNodes s !! svc = Some e ->
     let r := V013.nodeKeeper_service flags url svc s in
     exists s', final r = Some s'
       /\ (restartResults (events r) = [None] ->
           localNodes s' = <[svc := setLastRestart e (wrap64 t)]> (localNodes s))
       /\ (forall err, restartResults (events r) = [Some err] ->
           localNodes s' = localNodes s)
       /\ (restartResults (events r) = [None] ->
           forall s2 t2 w2,
             localNodes s2 !! svc = localNodes s' !! svc ->
             time_Now_Unix (world s2) = (t2, w2) ->
             sub64 (wrap64 t2) (wrap64 t) <= mul64 (V013.noRestartTime flags) 60 ->
             restarts (events (V013.nodeKeeper_service flags url svc s2)) = []))
  /\ (forall flags url svc s ts qerr sq trq t w1 e,
        V019.getSystemdServiceActiveEnterTimestamp (svc +:+ ".service") s
          = Done (ts, qerr) sq trq ->
        time_Now_Unix (world sq) = (t, w1) -> localNodes s !! svc = Some e ->
        let r := V019.nodeKeeper_service flags url svc s in
        let stored := match qerr with None => ts | Some _ => lastRestart e end in
        exists s', final r = Some s'
          /\ (restartResults (events r) = [None] ->
              localNodes s' = <[svc := setLastRestart e (wrap64 t)]> (localNodes s))
          /\ (forall err, restartResults (events r) = [Some err] ->
              localNodes s' = <[svc := setLastRestart e stored]> (localNodes s))
          /\ (restartResults (events r) = [None] ->
              forall s2 ts2 qerr2 sq2 trq2 t2 w2,
                localNodes s2 !! svc = localNodes s' !! svc ->
                V019.getSystemdServiceActiveEnterTimestamp (svc +:+ ".service") s2
                  = Done (ts2, qerr2) sq2 trq2 ->
                time_Now_Unix (world sq2) = (t2, w2) ->
                sub64 (wrap64 t2) (match qerr2 with None => ts2 | Some _ => wrap64 t end)
                  <= V019.restartExclusionPeriod flags ->
                restarts (events (V019.nodeKeeper_service flags url svc s2)) = [])).
Proof.
  split.
  - intros flags url svc s t w1 e Ht He r.
    destruct (evaluated_013 flags url svc s t w1 e Ht He) as (s' & wr & Hf & _ & Hev & Hs).
    destruct (evaluated_written _ _ _ _ _ _ _ _ Hev) as (Hw & Hfail & _).
    exists s'. split_and!; [done| | |].
    + intros Hok. apply Hw in Hok. by subst wr.
    + intros err Herr. apply Hfail in Herr. by subst wr.
    + intros Hok s2 t2 w2 He2 Ht2 Hle. apply Hw in Hok. subst wr.
      rewrite Hs, lookup_insert_eq in He2.
      destruct (evaluated_013 flags url svc s2 t2 w2 _ Ht2 He2) as (s2' & wr2 & _ & _ & Hev2 & _).
      by destruct (evaluated_suppressed _ _ _ _ _ _ _ _ Hev2 Hle).
  - intros flags url svc s ts qerr sq trq t w1 e Hq Ht He r stored.
    destruct (evaluated_019 flags url svc s _ _ _ _ t w1 e Hq Ht He)
      as (s' & wr & Hf & _ & Hev & Hs).
    destruct (evaluated_written _ _ _ _ _ _ _ _ Hev) as (Hw & Hfail & _).
    exists s'. split_and!; [done| | |].
    + intros Hok. apply Hw in Hok. by subst wr.
    + intros err Herr. apply Hfail in Herr. by subst wr.
    + intros Hok s2 ts2 qerr2 sq2 trq2 t2 w2 He2 Hq2 Ht2 Hle. apply Hw in Hok. subst wr.
      rewrite Hs, lookup_insert_eq in He2.
      destruct (evaluated_019 flags url svc s2 _ _ _ _ t2 w2 _ Hq2 Ht2 He2)
        as (s2' & wr2 & _ & _ & Hev2 & _).
      by destruct (evaluated_suppressed _ _ _ _ _ _ _ _ Hev2 Hle).
Qed.

Lemma dry_service_019 flags url svc s :
  V019.dryRun flags = true -> restarts (events (V019.nodeKeeper_service flags url svc s)) = [].
Proof.
  intros Hd.
  destruct (service_019 flags url svc s)
    as [(_ & _ & Hq & _)|(e & ts & qerr & sq & trq & t & w1 & s' & wr & _ & _ & _ & _ & _ & Hev & _)];
    [done|].
  by destruct (evaluated_dry _ _ _ _ _ _ _ _ Hev Hd).
Qed.

Lemma dry_service_013 flags url svc s :
  V013.dryRun flags = true ->
  let r := V013.nodeKeeper_service flags url svc s in
  restarts (events r) = [] /\ forall s', final r = Some s' -> localNodes s' = localNodes s.
Proof.
  intros Hd r.
  destruct (service_013 flags url svc s)
    as [(_ & Hp & Hq & _)|(e & t & w1 & s' & wr & _ & _ & Hf & _ & Hev & Hs)].
  - split; [done|]. intros s'. subst r. by rewrite Hp.
  - destruct (evaluated_dry _ _ _ _ _ _ _ _ Hev Hd) as [Hr ->].
    split; [done|]. intros s''. subst r. rewrite Hf. by intros [= <-].
Qed.

(** C7: with [--dry-run], no run of [nodeKeeper] (0.13, 0.19) runs a restart
    command, whatever the state of the services and of the cluster.  In
    0.13 the registry is then never written; in 0.19 an evaluation leaves
    in the registry what the recency query put there and nothing else. *)
Theorem C7_dry_run_never_restarts :
  (forall flags passes url s,
     V019.dryRun flags = true ->
     restarts (events (V019.nodeKeeper flags passes url s)) = [])
  /\ (forall flags url svc s ts qerr sq trq e s',
        V019.dryRun flags = true ->
        V019.getSystemdServiceActiveEnterTimestamp (svc +:+ ".service") s
          = Done (ts, qerr) sq trq ->
        localNodes s !! svc = Some e ->
        final (V019.nodeKeeper_service flags url svc s) = Some s' ->
        localNodes s'
        = <[svc := setLastRestart e (match qerr with None => ts | Some _ => lastRestart e end)]>
            (localNodes s))
  /\ (forall flags passes url s,
        V013.dryRun flags = true ->
        restarts (events (V013.nodeKeeper flags passes url s)) = []
        /\ forall s', final (V013.nodeKeeper flags passes url s) = Some s' ->
                      localNodes s' = localNodes s).
Proof.
  split_and!.
  - intros flags passes url s Hd.
    apply (run_closed_019 (fun tr => restarts tr = [])); [done| |].
    + intros a b Ha Hb. by rewrite restarts_app, Ha, Hb.
    + intros. by apply dry_service_019.
  - intros flags url svc s ts qerr sq trq e s' Hd Hq He Hf.
    destruct (time_Now_Unix (world sq)) as [t w1] eqn:Ht.
    destruct (evaluated_019 flags url svc s _ _ _ _ t w1 e Hq Ht He)
      as (s'' & wr & Hf' & _ & Hev & Hs).
    rewrite Hf in Hf'. simplify_eq.
    by destruct (evaluated_dry _ _ _ _ _ _ _ _ Hev Hd) as [_ ->].
  - intros flags passes url s Hd. split.
    + apply (run_closed_013 (fun tr => restarts tr = [])); [done| |].
      * intros a b Ha Hb. by rewrite restarts_app, Ha, Hb.
      * intros. by apply dry_service_013.
    + intros s'. apply (run_final_013 (fun m => m = localNodes s)); [|done].
      intros x sa sb Ha Hf. rewrite <- Ha. by apply (dry_service_013 flags url x sa Hd).
Qed.

(** C8: a service is in the list [getInvalidNodes] computes exactly when it
    is in the registry and its expected instance name is not in the
    active set, whichever way the map is walked.  So in a pass, a service
    whose instance is in the set just fetched is not restarted, and its
    entry is not written. *)
Theorem C8_invalid_iff_instance_absent :
  (forall order (localNodes : gmap string Entry) (activeNodes : gset string) svc,
     svc ∈ getInvalidNodes order localNodes activeNodes
     <-> exists e, localNodes !! svc = Some e /\ instance e ∉ activeNodes)
  /\ (forall flags url s active s1 tr1 svc e,
        V019.getActiveNodes flags url s = Done (active, None) s1 tr1 ->
        localNodes s !! svc = Some e -> instance e ∈ active ->
        let r := V019.nodeKeeper_pass flags url s in
        ((svc +:+ ".service") ∉ restarts (events r))
        /\ forall s', final r = Some s' -> localNodes s' !! svc = Some e)
  /\ (forall flags url s active s1 tr1 svc e,
        V013.getActiveNodes flags url s = Done (active, None) s1 tr1 ->
        localNodes s !! svc = Some e -> instance e ∈ active ->
        let r := V013.nodeKeeper_pass flags url s in
        ((svc +:+ ".service") ∉ restarts (events r))
        /\ forall s', final r = Some s' -> localNodes s' !! svc = Some e)
  /\ (forall url timeout noRestartTime s active s1 tr1 svc e,
        V010.getActiveNodes url timeout s = Done (active, None) s1 tr1 ->
        localNodes s !! svc = Some e -> instance e ∈ active ->
        let r := V010.nodeKeeper_pass url timeout noRestartTime s in
        (svc ∉ restarts (events r))
        /\ forall s', final r = Some s' -> localNodes s' !! svc = Some e).
Proof.
  assert (Hne : forall order (m : gmap string Entry) (active : gset string) svc e x,
             m !! svc = Some e -> instance e ∈ active ->
             x ∈ getInvalidNodes order m active -> svc <> x).
  { intros order m active svc e x He Hin Hx ->.
    apply getInvalidNodes_spec in Hx as (e' & He' & Hni). congruence. }
  split_and!.
  - apply getInvalidNodes_spec.
  - intros flags url s active s1 tr1 svc e Hg He Hin r. split.
    + apply (pass_closed_019 (fun tr => (svc +:+ ".service") ∉ restarts tr)).
      * intros tr ->. apply not_elem_of_nil.
      * intros a b Ha Hb. rewrite restarts_app. by apply not_elem_of_app.
      * intros active' err' s1' tr1' order x s' Hg' Hx. rewrite Hg in Hg'. simplify_eq.
        pose proof (Hne _ _ _ _ _ _ He Hin Hx) as Hsx.
        destruct (service_own_019 flags url x s') as [-> | ->]; [apply not_elem_of_nil|].
        rewrite list_elem_of_singleton. by intros ?%append_cancel_r.
    + intros s'. apply (pass_final_019 (fun m => m !! svc = Some e)); [|done].
      intros active' err' s1' tr1' order x sa sb Hg' Hx Ha Hf. rewrite Hg in Hg'. simplify_eq.
      rewrite <- Ha. eapply service_frame_019; [done|]. exact (Hne _ _ _ _ _ _ He Hin Hx).
  - intros flags url s active s1 tr1 svc e Hg He Hin r. split.
    + apply (pass_closed_013 (fun tr => (svc +:+ ".service") ∉ restarts tr)).
      * intros tr ->. apply not_elem_of_nil.
      * intros a b Ha Hb. rewrite restarts_app. by apply not_elem_of_app.
      * intros active' err' s1' tr1' order x s' Hg' Hx. rewrite Hg in Hg'. simplify_eq.
        pose proof (Hne _ _ _ _ _ _ He Hin Hx) as Hsx.
        destruct (service_own_013 flags url x s') as [-> | ->]; [apply not_elem_of_nil|].
        rewrite list_elem_of_singleton. by intros ?%append_cancel_r.
    + intros s'. apply (pass_final_013 (fun m => m !! svc = Some e)); [|done].
      intros active' err' s1' tr1' order x sa sb Hg' Hx Ha Hf. rewrite Hg in Hg'. simplify_eq.
      rewrite <- Ha. eapply service_frame_013; [done|]. exact (Hne _ _ _ _ _ _ He Hin Hx).
  - intros url timeout nrt s active s1 tr1 svc e Hg He Hin r. split.
    + apply (pass_closed_010 (fun tr => svc ∉ restarts tr)).
      * intros tr ->. apply not_elem_of_nil.
      * intros a b Ha Hb. rewrite restarts_app. by apply not_elem_of_app.
      * intros active' err' s1' tr1' order x s' Hg' Hx. rewrite Hg in Hg'. simplify_eq.
        pose proof (Hne _ _ _ _ _ _ He Hin Hx) as Hsx.
        destruct (service_own_010 url timeout nrt x s') as [-> | ->]; [apply not_elem_of_nil|].
        by rewrite list_elem_of_singleton.
    + intros s'. apply (pass_final_010 (fun m => m !! svc = Some e)); [|done].
      intros active' err' s1' tr1' order x sa sb Hg' Hx Ha Hf. rewrite Hg in Hg'. simplify_eq.
      rewrite <- Ha. eapply service_frame_010; [done|]. exact (Hne _ _ _ _ _ _ He Hin Hx).
Qed.

(** C9: in 0.13 and 0.19, when the configuration file cannot be read,
    [parseConfig] returns no node and no error, and [main] goes on to run
    [nodeKeeper] on the empty registry; when the file is read and is not
    valid YAML, [parseConfig] returns the error and [main] exits with
    status 1. *)
Theorem C9_config_read_failure_is_not_fatal :
  (forall file (s : St W) src err w,
     ioutil_ReadFile file (world s) = ((src, Some err), w) ->
     exists tr, V019.parseConfig file s
                = Done ({| Nodes := [] |}, None) (mkSt w (localNodes s)) tr)
  /\ (forall flags passes (s : St W) src err w,
        ioutil_ReadFile (V019.config flags) (world s) = ((src, Some err), w) ->
        exists pre, V019.main flags passes s
                    = prepend pre (V019.nodeKeeper flags passes (V019.esUrl flags) (mkSt w ∅)))
  /\ (forall file (s : St W) src w nodes err,
        ioutil_ReadFile file (world s) = ((src, None), w) ->
        yaml_Unmarshal src = (nodes, Some err) ->
        exists tr, V019.parseConfig file s
                   = Done (nodes, Some err) (mkSt w (localNodes s)) tr)
  /\ (forall flags passes (s : St W) src w nodes err,
        ioutil_ReadFile (V019.config flags) (world s) = ((src, None), w) ->
        yaml_Unmarshal src = (nodes, Some err) ->
        exists tr, V019.main flags passes s = Exit 1 tr)
  /\ (forall file (s : St W) src err w,
        ioutil_ReadFile file (world s) = ((src, Some err), w) ->
        exists tr, V013.parseConfig file s
                   = Done ({| Nodes := [] |}, None) (mkSt w (localNodes s)) tr)
  /\ (forall flags passes (s : St W) src err w,
        ioutil_ReadFile (V013.config flags) (world s) = ((src, Some err), w) ->
        exists pre, V013.main flags passes s
                    = prepend pre (V013.nodeKeeper flags passes (V013.esUrl flags) (mkSt w ∅)))
  /\ (forall file (s : St W) src w nodes err,
        ioutil_ReadFile file (world s) = ((src, None), w) ->
        yaml_Unmarshal src = (nodes, Some err) ->
        exists tr, V013.parseConfig file s
                   = Done (nodes, Some err) (mkSt w (localNodes s)) tr)
  /\ (forall flags passes (s : St W) src w nodes err,
        ioutil_ReadFile (V013.config flags) (world s) = ((src, None), w) ->
        yaml_Unmarshal src = (nodes, Some err) ->
        exists tr, V013.main flags passes s = Exit 1 tr).
Proof.
  split_and!.
  - intros file s src err w Hr. eexists.
    go_exec (V019.parseConfig file s). reflexivity.
  - intros flags passes s src err w Hr.
    unfold V019.main, V019.parseConfig. autounfold with go. go_simpl.
    destruct (V019.dryRun flags); go_simpl; rewrite Hr; go_simpl;
      destruct (V019.nodeKeeper _ _ _ _);
      first [by eexists [_; _; _; _; _; _] | by eexists [_; _; _; _; _]].
  - intros file s src w nodes err Hr Hy. eexists.
    go_exec (V019.parseConfig file s). reflexivity.
  - intros flags passes s src w nodes err Hr Hy.
    unfold V019.main, V019.parseConfig. autounfold with go. go_simpl.
    destruct (V019.dryRun flags); go_simpl; rewrite Hr; go_simpl; rewrite Hy; go_simpl;
      eexists; reflexivity.
  - intros file s src err w Hr. eexists.
    go_exec (V013.parseConfig file s). reflexivity.
  - intros flags passes s src err w Hr.
    unfold V013.main, V013.parseConfig. autounfold with go. go_simpl.
    destruct (V013.dryRun flags); go_simpl; rewrite Hr; go_simpl;
      destruct (V013.nodeKeeper _ _ _ _);
      first [by eexists [_; _; _; _; _; _] | by eexists [_; _; _; _; _]].
  - intros file s src w nodes err Hr Hy. eexists.
    go_exec (V013.parseConfig file s). reflexivity.
  - intros flags passes s src w nodes err Hr Hy.
    unfold V013.main, V013.parseConfig. autounfold with go. go_simpl.
    destruct (V013.dryRun flags); go_simpl; rewrite Hr; go_simpl; rewrite Hy; go_simpl;
      eexists; reflexivity.
Qed.

(** In 0.10 a configuration file that cannot be read is fatal. *)
Lemma config_read_failure_is_fatal_010 flags passes (s : St W) src err w :
  ioutil_ReadFile (V010.config flags) (world s) = ((src, Some err), w) ->
  exists tr, V010.main flags passes s = Exit 1 tr.
Proof.
  intros Hr. unfold V010.main, V010.parseConfig. autounfold with go. go_simpl.
  rewrite Hr. go_simpl. eexists. reflexivity.
Qed.

(** C10: when the health fetched in an evaluation (0.13, 0.19) is the empty
    string, the restart is announced exactly when the allocation policy
    fetched lowers to "all", and without [--dry-run] the restart command
    is run exactly then.  A response whose body decodes without error to a
    status that is empty is such a fetch. *)
Theorem C10_empty_health_is_not_red :
  (forall flags url svc s a,
     let tr := events (V019.nodeKeeper_service flags url svc s) in
     healthValues url tr = [EmptyString] -> allocValues url tr = [a] ->
     (announced tr = true <-> ToLower a = "all")
     /\ (V019.dryRun flags = false ->
         (restarts tr = [svc +:+ ".service"] <-> ToLower a = "all")))
  /\ (forall flags url svc s a,
        let tr := events (V013.nodeKeeper_service flags url svc s) in
        healthValues url tr = [EmptyString] -> allocValues url tr = [a] ->
        (announced tr = true <-> ToLower a = "all")
        /\ (V013.dryRun flags = false ->
            (restarts tr = [svc +:+ ".service"] <-> ToLower a = "all")))
  /\ (forall flags url s resp body w cs,
        http_NewRequest "GET" (url +:+ "/_cluster/health") = None ->
        http_Client_Do (url +:+ "/_cluster/health") (V019.timeout flags) (world s)
          = (DoResp resp (body, None), w) ->
        json_Unmarshal_ClusterStatus body = (cs, None) -> Status cs = EmptyString ->
        exists tr,
          V019.getClusterStatus flags url s
            = Done (EmptyString, None) (mkSt w (localNodes s)) tr
          /\ healthValues url tr = [EmptyString]).
Proof.
  split_and!.
  - intros flags url svc s a tr Hh Ha.
    destruct (service_019 flags url svc s)
      as [(_ & _ & _ & Hq & _)
         |(e & ts & qerr & sq & trq & t & w1 & s' & wr & _ & _ & _ & _ & _ & Hev & _)].
    + subst tr. by rewrite (healthValues_no_http _ _ Hq) in Hh.
    + by apply (evaluated_empty_health _ _ _ _ _ _ _ _ Hev).
  - intros flags url svc s a tr Hh Ha.
    destruct (service_013 flags url svc s)
      as [(_ & _ & _ & Hq & _)|(e & t & w1 & s' & wr & _ & _ & _ & _ & Hev & _)].
    + subst tr. by rewrite (healthValues_no_http _ _ Hq) in Hh.
    + by apply (evaluated_empty_health _ _ _ _ _ _ _ _ Hev).
  - intros flags url s resp body w cs Hn Hd Hj Hs.
    eexists. split.
    + go_exec (V019.getClusterStatus flags url s). by rewrite Hs.
    + unfold healthValues. go_read. by rewrite Hs.
Qed.

End Claims.

(** ** The program on examples *)

(** Scenario A: the expected instance is active; nothing is done. *)
Example scenario_A :
  let w := simWorld 1000 200 instANodesBody greenBody allBody None true in
  let r := V019.nodeKeeper_pass (flags019 600 false) "http://es" (mkSt w (registry1 0)) in
  restarts (events r) = [] /\ clockReads (events r) = []
  /\ (localNodes <$> final r) = Some (registry1 0).
Proof. vm_compute. by split_and!. Qed.

(** Scenario B: never restarted, not active, green, "all": one restart,
    and the timestamp is the time of the pass. *)
Example scenario_B :
  let w := simWorld 1000 200 noNodesBody greenBody allBody None true in
  let r := V019.nodeKeeper_pass (flags019 600 false) "http://es" (mkSt w (registry1 0)) in
  restarts (events r) = ["svc1.service"]
  /\ (localNodes <$> final r) = Some (registry1 1000).
Proof. vm_compute. by split_and!. Qed.

(** Scenario C: as B, with allocation "none": no restart. *)
Example scenario_C :
  let w := simWorld 1000 200 noNodesBody greenBody noneBody None true in
  let r := V019.nodeKeeper_pass (flags019 600 false) "http://es" (mkSt w (registry1 0)) in
  restarts (events r) = [] /\ (localNodes <$> final r) = Some (registry1 0).
Proof. vm_compute. by split_and!. Qed.

(** Scenario D: restarted 100 seconds ago: suppressed; 700 seconds ago:
    restarted. *)
Example scenario_D :
  let w := simWorld 1000 200 noNodesBody greenBody allBody None true in
  restarts (events (V019.nodeKeeper_pass (flags019 600 false) "http://es"
                      (mkSt w (registry1 900)))) = []
  /\ restarts (events (V019.nodeKeeper_pass (flags019 600 false) "http://es"
                         (mkSt w (registry1 300)))) = ["svc1.service"].
Proof. vm_compute. by split_and!. Qed.

(** A red health in capitals, and an allocation policy that is not set. *)
Example red_or_unset_blocks :
  let red := simWorld 1000 200 noNodesBody redBody allBody None true in
  let unset := simWorld 1000 200 noNodesBody greenBody unsetBody None true in
  restarts (events (V019.nodeKeeper_pass (flags019 600 false) "http://es"
                      (mkSt red (registry1 0)))) = []
  /\ restarts (events (V019.nodeKeeper_pass (flags019 600 false) "http://es"
                         (mkSt unset (registry1 0)))) = []
  /\ restarts (events (V010.nodeKeeper_pass "http://es" 10 10 (mkSt unset (registry1 0)))) = [].
Proof. vm_compute. by split_and!. Qed.

(** An evaluation that restarts, read through C1. *)
Lemma C1_restart_witness :
  let w := simWorld 1000 200 noNodesBody greenBody allBody None true in
  let tr := events (V019.nodeKeeper_service (flags019 600 false) "http://es" "svc1"
                      (mkSt w (registry1 0))) in
  restarts tr = ["svc1.service"]
  /\ exists h a, healthValues "http://es" tr = [h] /\ allocValues "http://es" tr = [a]
                 /\ Safe h a.
Proof.
  cbv zeta. split; [by vm_compute|].
  destruct (@C1_restart_only_when_safe Sim _) as (H19 & _).
  apply (H19 (flags019 600 false) "http://es" "svc1"). by vm_compute.
Defined.

Lemma C2_suppressed_witness :
  let s := mkSt (simWorld 1000 200 noNodesBody greenBody allBody None true) (registry1 900) in
  let r := V019.nodeKeeper_service (flags019 600 false) "http://es" "svc1" s in
  restarts (events r) = []
  /\ filter (fun ev => isHttp ev = true) (events r) = []
  /\ exists s', final r = Some s'
       /\ localNodes s'
          = <["svc1" := setLastRestart {| instance := "instA"; lastRestart := 900 |} 900]>
              (registry1 900).
Proof.
  intros s r.
  destruct (@C2_suppressed_within_exclusion_period Sim _) as (H19 & _).
  eapply (H19 (flags019 600 false) "http://es" "svc1" s _ (Some _) _ _ 1000 _
              {| instance := "instA"; lastRestart := 900 |}).
  - vm_compute. reflexivity.
  - reflexivity.
  - reflexivity.
  - vm_compute. discriminate.
Defined.

(** C3, the claim as stated, fails: the registry holds 1000, the service
    manager reports 900 as the time of activation, and the evaluation
    leaves 900. *)
Lemma C3_counterexample_timestamp_decreases :
  let w := simWorld 1030 200 noNodesBody greenBody allBody
             (Some "Thu 1970-01-01 00:15:00 UTC") true in
  let s := mkSt w (registry1 1000) in
  let r := V019.nodeKeeper_service (flags019 600 false) "http://es" "svc1" s in
  exists s' e e',
    final r = Some s'
    /\ localNodes s !! "svc1" = Some e /\ localNodes s' !! "svc1" = Some e'
    /\ lastRestart e = 1000 /\ lastRestart e' = 900 /\ lastRestart e' < lastRestart e.
Proof.
  cbv zeta. eexists _, _, _. split_and!; [vm_compute; reflexivity| | | | |];
    vm_compute; reflexivity.
Qed.

Lemma C3_monotone_witness :
  let w := simWorld 1030 200 noNodesBody greenBody allBody
             (Some "Thu 1970-01-01 00:16:40 UTC") true in
  let s := mkSt w (registry1 900) in
  let e := {| instance := "instA"; lastRestart := 900 |} in
  exists s',
    final (V019.nodeKeeper_service (flags019 600 false) "http://es" "svc1" s) = Some s'
    /\ exists e',
         localNodes s' !! "svc1" = Some e'
         /\ instance e' = instance e
         /\ lastRestart e <= lastRestart e'
         /\ (lastRestart e' = 1030 \/ lastRestart e' = 1000)
         /\ forall svc', svc' <> "svc1" -> localNodes s' !! svc' = localNodes s !! svc'.
Proof.
  cbv zeta. eexists. split; [by vm_compute|].
  eapply (@C3_timestamp_monotone_when_host_is Sim _ (flags019 600 false) "http://es" "svc1"
            _ 1000 None _ _ 1030 _ {| instance := "instA"; lastRestart := 900 |}).
  - by vm_compute.
  - reflexivity.
  - reflexivity.
  - by vm_compute.
  - by vm_compute.
  - cbn. lia.
  - lia.
  - cbn. lia.
Defined.

(** C4 on 0.10: with a cluster that cannot be reached, two passes of
    [nodeKeeper] follow each other with no sleep in between; no service is
    evaluated and the registry is untouched. *)
Theorem C4_v010_fetch_error_does_not_sleep :
  let s := mkSt (simDown 5) (registry1 0) in
  let r := V010.nodeKeeper 2 "http://es" 10 10 s in
  filter (fun e => isSleep e = true) (events r) = []
  /\ length (filter (fun e => isHttp e = true) (events r)) = 2%nat
  /\ clockReads (events r) = []
  /\ restarts (events r) = []
  /\ (localNodes <$> final r) = Some (registry1 0).
Proof. vm_compute. by split_and!. Qed.

(** The same cluster under 0.13 and 0.19: each pass ends with its sleep. *)
Example fetch_error_sleeps_013_019 :
  let s := mkSt (simDown 5) (registry1 0) in
  filter (fun e => isSleep e = true)
         (events (V013.nodeKeeper (flags013 10 false) 2 "http://es" s))
  = [EvSleep 30; EvSleep 30]
  /\ filter (fun e => isSleep e = true)
            (events (V019.nodeKeeper (flags019 600 false) 2 "http://es" s))
     = [EvSleep 30; EvSleep 30]
  /\ clockReads (events (V019.nodeKeeper (flags019 600 false) 2 "http://es" s)) = [].
Proof. vm_compute. by split_and!. Qed.

(** C5 on 0.13 and 0.19: a health request answered [403] with a body that
    is JSON but no health document yields the (empty) health and no error;
    0.10 on the same answer yields an error. *)
Theorem C5_httpGet_accepts_non_2xx :
  let w := simWorld 1000 403 forbiddenBody forbiddenBody forbiddenBody None true in
  let s := mkSt w (registry1 0) in
  V019.getClusterStatus (flags019 600 false) "http://es" s
  = Done (EmptyString, None) s
      [EvHttpDo "http://es/_cluster/health" 10
         (DoResp {| StatusCode := 403; Status_line := "status" |} (forbiddenBody, None))]
  /\ V013.getClusterStatus (flags013 10 false) "http://es" s
     = Done (EmptyString, None) s
         [EvHttpDo "http://es/_cluster/health" 10
            (DoResp {| StatusCode := 403; Status_line := "status" |} (forbiddenBody, None))]
  /\ fst <$> (match V010.getClusterStatus "http://es" 10 s with
              | Done a _ _ => Some a | _ => None end)
     = Some EmptyString
  /\ (exists err, snd <$> (match V010.getClusterStatus "http://es" 10 s with
                           | Done a _ _ => Some a | _ => None end)
                  = Some (Some err)).
Proof. vm_compute. split_and!; eauto. Qed.

(** A [503] whose body is a health document is taken at its word, and the
    service is restarted on it. *)
Example non_2xx_health_leads_to_restart :
  let w := simWorld 1000 503 noNodesBody greenBody allBody None true in
  restarts (events (V019.nodeKeeper_service (flags019 600 false) "http://es" "svc1"
                      (mkSt w (registry1 0))))
  = ["svc1.service"].
Proof. vm_compute. reflexivity. Qed.

(** C6, the claim as stated, fails on 0.19: the restart at 1000 succeeds,
    the exclusion period is 600, and the next pass, at 1030, restarts the
    service again, because the recency query, which reported 100 before
    the restart, reports 200 after it. *)
Lemma C6_counterexample_restart_within_period :
  let w := thenSince (Some "Thu 1970-01-01 00:03:20 UTC")
             (simWorld 1000 200 noNodesBody greenBody allBody
                (Some "Thu 1970-01-01 00:01:40 UTC") true) in
  let r := V019.nodeKeeper (flags019 600 false) 2 "http://es" (mkSt w (registry1 0)) in
  clockReads (events r) = [1000; 1030]
  /\ restarts (events r) = ["svc1.service"; "svc1.service"]
  /\ restartResults (events r) = [None; None].
Proof. vm_compute. by split_and!. Qed.

Lemma C6_restart_outcome_witness :
  let w := simWorld 1000 200 noNodesBody greenBody allBody None true in
  let s := mkSt w (registry1 0) in
  let r := V013.nodeKeeper_service (flags013 10 false) "http://es" "svc1" s in
  restartResults (events r) = [None]
  /\ exists s', final r = Some s'
       /\ localNodes s'
          = <["svc1" := setLastRestart {| instance := "instA"; lastRestart := 0 |} 1000]>
              (registry1 0).
Proof.
  cbv zeta. split; [by vm_compute|].
  destruct (@C6_timestamp_follows_restart_outcome Sim _) as (H13 & _).
  destruct (H13 (flags013 10 false) "http://es" "svc1"
              (mkSt (simWorld 1000 200 noNodesBody greenBody allBody None true) (registry1 0))
              1000 _ {| instance := "instA"; lastRestart := 0 |} eq_refl eq_refl)
    as (s' & Hf & Hok & _).
  exists s'. split; [done|]. apply Hok. by vm_compute.
Defined.

Lemma C7_dry_run_witness :
  let w := simWorld 1000 200 noNodesBody greenBody allBody None true in
  let r := V019.nodeKeeper (flags019 600 true) 2 "http://es" (mkSt w (registry1 0)) in
  announced (events r) = true /\ restarts (events r) = [].
Proof.
  cbv zeta. split; [by vm_compute|].
  destruct (@C7_dry_run_never_restarts Sim _) as (H19 & _).
  by apply H19.
Defined.

Lemma C8_invalid_witness :
  "svc1" ∈ getInvalidNodes [] (registry1 0) ∅
  /\ "svc1" ∉ getInvalidNodes [] (registry1 0) {["instA"]}.
Proof.
  destruct (@C8_invalid_iff_instance_absent Sim _) as (Hiff & _). split.
  - apply Hiff. exists {| instance := "instA"; lastRestart := 0 |}. split; [by vm_compute|].
    apply not_elem_of_empty.
  - intros (e & He & Hn)%Hiff. vm_compute in He. simplify_eq. apply Hn. cbn.
    by apply elem_of_singleton.
Defined.

Lemma C9_unreadable_config_witness :
  let w := withFile (EmptyString, Some "no such file")
             (simWorld 1000 200 noNodesBody greenBody allBody None true) in
  exists pre, V019.main (flags019 600 false) 1 (mkSt w ∅)
              = prepend pre (V019.nodeKeeper (flags019 600 false) 1 "http://es" (mkSt w ∅)).
Proof.
  cbv zeta.
  destruct (@C9_config_read_failure_is_not_fatal Sim _) as (_ & Hmain & _).
  eapply (Hmain (flags019 600 false) 1%nat). reflexivity.
Defined.

Lemma C10_empty_health_witness :
  let w := simWorld 1000 200 noNodesBody noStatusBody allBody None true in
  let tr := events (V019.nodeKeeper_service (flags019 600 false) "http://es" "svc1"
                      (mkSt w (registry1 0))) in
  healthValues "http://es" tr = [EmptyString]
  /\ allocValues "http://es" tr = ["all"]
  /\ restarts tr = ["svc1.service"].
Proof.
  cbv zeta. split; [by vm_compute|]. split; [by vm_compute|].
  destruct (@C10_empty_health_is_not_red Sim _) as (H19 & _).
  edestruct (H19 (flags019 600 false) "http://es" "svc1"
               (mkSt (simWorld 1000 200 noNodesBody noStatusBody allBody None true)
                     (registry1 0)) "all") as (_ & Hr);
    [by vm_compute|by vm_compute|].
  by apply Hr.
Defined.

(** * Further properties of the code *)

(** ** The registry built from the configuration *)

Lemma localNodesToMap_foldl (l : list LocalNode) (acc : gmap string Entry) svc :
  foldl (fun nodes localNode =>
           <[Service localNode := {| instance := Instance localNode; lastRestart := 0 |}]> nodes)
        acc l !! svc
  = match last (filter (fun n => Service n = svc) l) with
    | Some n => Some (entryOf n)
    | None => acc !! svc
    end.
Proof.
  revert acc. induction l as [|x l IH]; intros acc; [done|].
  cbn [foldl]. rewrite IH, filter_cons. case_decide as Hx.
  - rewrite last_cons. destruct (last (filter _ l)); [done|].
    subst svc. by rewrite lookup_insert_eq.
  - destruct (last (filter _ l)); [done|]. by rewrite lookup_insert_ne.
Qed.

(** X1: [localNodesToMap] maps a service to the instance of the last node of
    the configuration that names the service, with the timestamp 0; a
    service is in the registry exactly when some node names it. *)
Theorem localNodesToMap_last_wins (cfg : LocalNodes) (svc : string) :
  localNodesToMap cfg !! svc
  = entryOf <$> last (filter (fun n => Service n = svc) (Nodes cfg))
  /\ (is_Some (localNodesToMap cfg !! svc) <-> svc ∈ Service <$> Nodes cfg)
  /\ (forall e, localNodesToMap cfg !! svc = Some e -> lastRestart e = 0).
Proof.
  assert (Hl : localNodesToMap cfg !! svc
               = entryOf <$> last (filter (fun n => Service n = svc) (Nodes cfg))).
  { unfold localNodesToMap. rewrite localNodesToMap_foldl.
    by destruct (last _). }
  split_and!; [done| |].
  - rewrite Hl, fmap_is_Some, list_elem_of_fmap. split.
    + intros [n Hn]. apply last_Some_elem_of in Hn.
      apply list_elem_of_filter in Hn as [<- Hn]. by exists n.
    + intros (n & -> & Hn).
      destruct (last (filter (fun n' => Service n' = Service n) (Nodes cfg))) eqn:Hlast; [done|].
      apply last_None in Hlast.
      assert (n ∈ filter (fun n' => Service n' = Service n) (Nodes cfg)) as Hin
        by (by apply list_elem_of_filter).
      rewrite Hlast in Hin. by apply elem_of_nil in Hin.
  - rewrite Hl. intros e. destruct (last _); by intros [= <-].
Qed.

(** ** The invalid services, once each *)

Lemma getInvalidNodes_foldl_filter (activeNodes : gset string)
    (kvs : list (string * Entry)) (acc : list string) :
  foldl (fun (nodesToRestart : list string) '(service, value) =>
           if decide (instance value ∈ activeNodes)
           then nodesToRestart
           else nodesToRestart ++ [service]) acc kvs
  = acc ++ (filter (fun kv => instance kv.2 ∉ activeNodes) kvs).*1.
Proof.
  revert acc. induction kvs as [|[k v] kvs IH]; intros acc; [by rewrite app_nil_r|].
  cbn [foldl]. rewrite IH, filter_cons. cbn. case_decide; case_decide; try done.
  - cbn. by rewrite <- app_assoc.
Qed.

Lemma getInvalidNodes_filter order (m : gmap string Entry) (activeNodes : gset string) :
  getInvalidNodes order m activeNodes
  = (filter (fun kv => instance kv.2 ∉ activeNodes) (permute order (map_to_list m))).*1.
Proof. unfold getInvalidNodes. by rewrite getInvalidNodes_foldl_filter. Qed.

Lemma getInvalidNodes_NoDup order (m : gmap string Entry) (activeNodes : gset string) :
  NoDup (getInvalidNodes order m activeNodes).
Proof.
  rewrite getInvalidNodes_filter.
  apply (sublist_NoDup _ ((permute order (map_to_list m)).*1)).
  - rewrite permute_Permutation. apply NoDup_fst_map_to_list.
  - apply fmap_sublist, sublist_filter.
Qed.

(** X2: [getInvalidNodes] lists every invalid service once: the list has no
    duplicates, is no longer than the registry, and the order in which the
    map is walked changes nothing but the order of the list; it is empty
    when every expected instance is active. *)
Theorem getInvalidNodes_each_once order (m : gmap string Entry) (activeNodes : gset string) :
  NoDup (getInvalidNodes order m activeNodes)
  /\ (length (getInvalidNodes order m activeNodes) <= size m)%nat
  /\ (forall order', getInvalidNodes order' m activeNodes ≡ₚ getInvalidNodes order m activeNodes)
  /\ ((forall svc e, m !! svc = Some e -> instance e ∈ activeNodes)
      <-> getInvalidNodes order m activeNodes = []).
Proof.
  split_and!.
  - apply getInvalidNodes_NoDup.
  - rewrite getInvalidNodes_filter, length_fmap.
    etrans; [apply length_filter|].
    by rewrite (Permutation_length (permute_Permutation _ _)), length_map_to_list.
  - intros order'. rewrite !getInvalidNodes_filter. by rewrite !permute_Permutation.
  - split.
    + intros Hall. destruct (getInvalidNodes order m activeNodes) as [|x l] eqn:Hx; [done|].
      assert (x ∈ getInvalidNodes order m activeNodes) as Hin by (rewrite Hx; by left).
      apply getInvalidNodes_spec in Hin as (e & He & Hn). by destruct Hn; eauto.
    + intros Hnil svc e He. destruct (decide (instance e ∈ activeNodes)) as [|Hn]; [done|].
      assert (svc ∈ getInvalidNodes order m activeNodes) as Hin
        by (apply getInvalidNodes_spec; eauto).
      rewrite Hnil in Hin. by apply elem_of_nil in Hin.
Qed.

(** ** The timestamp in the output of [systemctl show] *)

Lemma FindStringSubmatch_eq s :
  V019.FindStringSubmatch s
  = let later := match s with
                 | EmptyString => []
                 | String _ s' => V019.FindStringSubmatch s'
                 end in
    match V019.stripPrefix tsKey s with
    | Some rest =>
        match V019.takeWhile V019.tsChar rest with
        | EmptyString => later
        | g => [tsKey +:+ g; g]
        end
    | None => later
    end.
Proof. by destruct s. Qed.

Lemma stripPrefix_Some p s rest : V019.stripPrefix p s = Some rest -> s = p +:+ rest.
Proof.
  revert s. induction p as [|a p IH]; intros [|b s]; cbn [V019.stripPrefix]; try done.
  - by intros [= <-].
  - by intros [= <-].
  - destruct (Ascii.eqb a b) eqn:Hab; [|done].
    apply Ascii.eqb_eq in Hab as ->. intros ->%IH. done.
Qed.

Lemma stripPrefix_append p rest : V019.stripPrefix p (p +:+ rest) = Some rest.
Proof.
  induction p as [|a p IH]; [by destruct rest|].
  change (String a p +:+ rest) with (String a (p +:+ rest)).
  cbn [V019.stripPrefix]. by rewrite Ascii.eqb_refl.
Qed.

Lemma append_cons c (s t : string) : String c s +:+ t = String c (s +:+ t).
Proof. done. Qed.

Lemma takeWhile_split p s :
  exists post, s = V019.takeWhile p s +:+ post
               /\ forallb p (list_ascii_of_string (V019.takeWhile p s)) = true
               /\ match post with EmptyString => true | String c _ => negb (p c) end = true.
Proof.
  induction s as [|c s (post & Hs & Hg & Hp)]; cbn [V019.takeWhile].
  - by exists EmptyString.
  - destruct (p c) eqn:Hc.
    + exists post. rewrite append_cons. cbn. rewrite Hc.
      split_and!; [by f_equal|done|done].
    + exists (String c s). cbn. by rewrite Hc.
Qed.

Lemma takeWhile_append g rest :
  tsString g = true -> tsEnd rest = true ->
  V019.takeWhile V019.tsChar (g +:+ rest) = g.
Proof.
  unfold tsString. intros Hg Hr. induction g as [|c g IH].
  - change (EmptyString +:+ rest) with rest.
    destruct rest as [|c r]; [done|]. cbn in *. apply negb_true_iff in Hr. by rewrite Hr.
  - rewrite append_cons. cbn in *. apply andb_true_iff in Hg as [-> Hg]. f_equal. by apply IH.
Qed.

(** X3: the output line [ActiveEnterTimestamp=<timestamp>] that ends where
    the characters of a timestamp end (at the end of the output, or at a
    newline) is matched, and the submatch is the timestamp itself. *)
Theorem FindStringSubmatch_round_trip (g rest : string) :
  g <> EmptyString -> tsString g = true -> tsEnd rest = true ->
  V019.FindStringSubmatch (tsKey +:+ (g +:+ rest)) = [tsKey +:+ g; g].
Proof.
  intros Hne Hg Hr.
  rewrite FindStringSubmatch_eq, stripPrefix_append, takeWhile_append by done.
  by destruct g.
Qed.

Lemma FindStringSubmatch_round_trip_witness :
  V019.FindStringSubmatch
    (tsKey +:+ ("Thu 2024-02-01 10:11:12 CET" +:+ String "010"%char EmptyString))
  = [tsKey +:+ "Thu 2024-02-01 10:11:12 CET"; "Thu 2024-02-01 10:11:12 CET"].
Proof.
  apply (FindStringSubmatch_round_trip "Thu 2024-02-01 10:11:12 CET"
           (String "010"%char EmptyString)); [discriminate|reflexivity|reflexivity].
Defined.

(** X4: what [FindStringSubmatch] returns is nothing, or the whole match and
    its group: the group is not empty, is made of the characters of the
    class [[ a-zA-Z0-9:-]], stands in the input right after
    [ActiveEnterTimestamp=], and is as long as it can be. *)
Theorem FindStringSubmatch_sound (s : string) :
  V019.FindStringSubmatch s = []
  \/ exists pre g post,
       V019.FindStringSubmatch s = [tsKey +:+ g; g]
       /\ s = pre +:+ (tsKey +:+ (g +:+ post))
       /\ g <> EmptyString /\ tsString g = true /\ tsEnd post = true.
Proof.
  induction s as [|c s IH].
  - by left.
  - rewrite FindStringSubmatch_eq. cbv zeta.
    assert (Hlater : V019.FindStringSubmatch s = []
                     \/ exists pre g post,
                          V019.FindStringSubmatch s = [tsKey +:+ g; g]
                          /\ String c s = pre +:+ (tsKey +:+ (g +:+ post))
                          /\ g <> EmptyString /\ tsString g = true /\ tsEnd post = true).
    { destruct IH as [?|(pre & g & post & ? & -> & ?)]; [by left|].
      right. by exists (String c pre), g, post. }
    destruct (V019.stripPrefix tsKey (String c s)) as [rest|] eqn:Hp; [|done].
    destruct (V019.takeWhile V019.tsChar rest) as [|d g] eqn:Hg; [done|].
    right. apply stripPrefix_Some in Hp.
    destruct (takeWhile_split V019.tsChar rest) as (post & Hrest & Hall & Hend).
    rewrite Hg in Hrest, Hall.
    exists EmptyString, (String d g), post. split_and!; try done.
    cbn [String.append]. by rewrite Hp, Hrest.
Qed.

(** A key that is followed by no timestamp is passed over. *)
Lemma FindStringSubmatch_skip_key rest :
  tsEnd rest = true ->
  V019.FindStringSubmatch (tsKey +:+ rest) = V019.FindStringSubmatch rest.
Proof.
  intros Hr.
  assert (Ht : V019.takeWhile V019.tsChar rest = EmptyString).
  { destruct rest as [|c r]; [done|]. cbn in *. apply negb_true_iff in Hr. by rewrite Hr. }
  rewrite FindStringSubmatch_eq, stripPrefix_append, Ht. cbv zeta.
  unfold tsKey. rewrite !append_cons. change (EmptyString +:+ rest) with rest.
  cbv beta iota.
  do 20 (rewrite FindStringSubmatch_eq; cbn -[V019.FindStringSubmatch]).
  done.
Qed.

Section Recency.
Context {W : Type} `{Host W}.

(** X5: when [systemctl show] succeeds and prints the key followed by a
    timestamp, [getSystemdServiceActiveEnterTimestamp] hands exactly the
    timestamp, with the layout [systemdDateLayout], to [time.Parse], and
    returns the Unix time of what that yields, with no error; it runs that
    one command and leaves the registry alone. *)
Theorem recency_query_reads_timestamp unit (s : St W) q wq g rest t :
  exec_Run "systemctl" ["--no-pager"; "--property=ActiveEnterTimestamp"; "show"; unit]
    (world s) = (q, wq) ->
  run_err q = None ->
  stdout q = tsKey +:+ (g +:+ rest) ->
  g <> EmptyString -> tsString g = true -> tsEnd rest = true ->
  time_Parse "Mon 2006-01-02 15:04:05 MST" g = (t, None) ->
  V019.getSystemdServiceActiveEnterTimestamp unit s
  = Done (wrap64 t, None) (mkSt wq (localNodes s))
      [EvLog Debug "Executing";
       EvExec "systemctl" ["--no-pager"; "--property=ActiveEnterTimestamp"; "show"; unit] q].
Proof.
  intros Hx Hrun Hout Hne Hg Hr Ht.
  assert (Hf : V019.FindStringSubmatch (stdout q) = [tsKey +:+ g; g]).
  { rewrite Hout, FindStringSubmatch_eq, stripPrefix_append, takeWhile_append by done.
    by destruct g. }
  change "Mon 2006-01-02 15:04:05 MST" with V019.systemdDateLayout in Ht.
  by go_exec (V019.getSystemdServiceActiveEnterTimestamp unit s).
Qed.

(** X6: [getSystemdServiceActiveEnterTimestamp] always returns; it runs one
    command, [systemctl --no-pager --property=ActiveEnterTimestamp show
    unit], and nothing else, and leaves the registry alone; the time it
    returns is a Go [int], and is 0 whenever it returns an error.  A
    command that fails gives the error of [executeCommand] (the error of
    the run, then what the command wrote to stderr); a key that no
    timestamp follows (a unit that was never active) gives the error
    "Cannot find timestamp string in command output". *)
Theorem recency_query_failures :
  (forall unit (s : St W),
     exists v err s' tr,
       V019.getSystemdServiceActiveEnterTimestamp unit s = Done (v, err) s' tr
       /\ localNodes s' = localNodes s
       /\ commands tr
          = [("systemctl", ["--no-pager"; "--property=ActiveEnterTimestamp"; "show"; unit])]
       /\ requests tr = [] /\ sleeps tr = []
       /\ int64_range v
       /\ (err <> None -> v = 0))
  /\ (forall unit (s : St W) q wq e,
        exec_Run "systemctl" ["--no-pager"; "--property=ActiveEnterTimestamp"; "show"; unit]
          (world s) = (q, wq) ->
        run_err q = Some e ->
        exists tr,
          V019.getSystemdServiceActiveEnterTimestamp unit s
          = Done (0, Some ("Command execution fail: " +:+ (e +:+ (": " +:+ stderr q))))
              (mkSt wq (localNodes s)) tr)
  /\ (forall unit (s : St W) q wq rest,
        exec_Run "systemctl" ["--no-pager"; "--property=ActiveEnterTimestamp"; "show"; unit]
          (world s) = (q, wq) ->
        run_err q = None ->
        stdout q = tsKey +:+ rest -> tsEnd rest = true ->
        V019.FindStringSubmatch rest = [] ->
        exists tr,
          V019.getSystemdServiceActiveEnterTimestamp unit s
          = Done (0, Some "Cannot find timestamp string in command output")
              (mkSt wq (localNodes s)) tr).
Proof.
  split_and!.
  - intros unit s.
    go_exec (V019.getSystemdServiceActiveEnterTimestamp unit s);
      eexists _, _, _, _; (split; [reflexivity|]);
      split_and!; try done; try (by unfold int64_range); try apply wrap64_range.
  - intros unit s q wq e Hx Hrun. eexists.
    by go_exec (V019.getSystemdServiceActiveEnterTimestamp unit s).
  - intros unit s q wq rest Hx Hrun Hout Hr Hnone.
    assert (Hf : V019.FindStringSubmatch (stdout q) = [])
      by (rewrite Hout, FindStringSubmatch_skip_key; done).
    eexists. by go_exec (V019.getSystemdServiceActiveEnterTimestamp unit s).
Qed.

End Recency.

Lemma recency_query_reads_timestamp_witness :
  let w := simWorld 1030 200 noNodesBody greenBody allBody
             (Some "Thu 1970-01-01 00:16:40 UTC") true in
  exists tr,
    V019.getSystemdServiceActiveEnterTimestamp "svc1.service" (mkSt w (registry1 0))
    = Done (wrap64 1000, None) (mkSt w (registry1 0)) tr.
Proof.
  cbv zeta. eexists.
  eapply (recency_query_reads_timestamp "svc1.service"
            (mkSt (simWorld 1030 200 noNodesBody greenBody allBody
                     (Some "Thu 1970-01-01 00:16:40 UTC") true) (registry1 0))
            _ (simWorld 1030 200 noNodesBody greenBody allBody
                 (Some "Thu 1970-01-01 00:16:40 UTC") true)
            "Thu 1970-01-01 00:16:40 UTC" EmptyString 1000);
    [reflexivity|reflexivity|reflexivity|discriminate|reflexivity|reflexivity|reflexivity].
Defined.

(** A unit that was never active: [systemctl show] prints the key and an
    empty value. *)
Lemma recency_query_never_active_witness :
  let w := simWorld 1030 200 noNodesBody greenBody allBody
             (Some (String "010"%char EmptyString)) true in
  exists tr,
    V019.getSystemdServiceActiveEnterTimestamp "svc1.service" (mkSt w (registry1 0))
    = Done (0, Some "Cannot find timestamp string in command output")
        (mkSt w (registry1 0)) tr.
Proof.
  cbv zeta.
  destruct (@recency_query_failures Sim _) as (_ & _ & Hnone).
  eapply (Hnone "svc1.service"
            (mkSt (simWorld 1030 200 noNodesBody greenBody allBody
                     (Some (String "010"%char EmptyString)) true) (registry1 0))
            _ (simWorld 1030 200 noNodesBody greenBody allBody
                 (Some (String "010"%char EmptyString)) true)
            (String "010"%char EmptyString));
    [reflexivity|reflexivity|reflexivity|reflexivity|reflexivity].
Defined.

(** ** The queries to the cluster *)

Section Queries.
Context {W : Type} `{Host W}.

(** X7: [esQueryGet] (0.10) sends one request and returns no error exactly
    when the request came back without errors and with status 200; it then
    returns the body as it is.  Otherwise the body it returns is empty, and
    when there are errors the error is their texts joined by ", ". *)
Theorem esQueryGet_accepts_only_200 url timeout (s : St W) r w :
  gorequest_End url timeout (world s) = (r, w) ->
  exists body err,
    V010.esQueryGet url timeout s
    = Done (body, err) (mkSt w (localNodes s)) [EvGorequest url timeout r]
    /\ (err = None <-> gr_errs r = [] /\ StatusCode (gr_resp r) = 200)
    /\ (err = None -> body = gr_body r)
    /\ (err <> None -> body = EmptyString)
    /\ (gr_errs r <> [] -> err = Some (Join (gr_errs r) ", "))
    /\ (gr_errs r = [] -> StatusCode (gr_resp r) <> 200 ->
        err = Some ("HTTP response code: " +:+ Status_line (gr_resp r))).
Proof.
  intros Hr.
  go_exec (V010.esQueryGet url timeout s); eexists _, _; (split; [reflexivity|]).
  - apply negb_true_iff, Z.eqb_neq in E0.
    split_and!; try done. split; [done|]. by intros [_ ?].
  - apply negb_false_iff, Z.eqb_eq in E0. split_and!; try done.
  - split_and!; try done. split; [done|]. by intros [? _].
Qed.

Ltac http_iff :=
  split;
  [ first [ done | intros _; split; [done|]; by eexists ]
  | first [ done | intros [Hn [resp' Hd]]; first [ congruence | discriminate Hd ] ] ].

(** X8: [httpGet] (0.13, 0.19) returns an error exactly when the request
    cannot be built, [client.Do] fails, or the body cannot be read; the
    body it returns is then empty.  It sends at most one request, to the
    URL it was given and with the configured timeout, and none when the
    request cannot be built. *)
Theorem httpGet_fails_only_on_transport :
  (forall flags url (s : St W),
     exists body err s' tr,
       V019.httpGet flags url s = Done (body, err) s' tr
       /\ localNodes s' = localNodes s
       /\ (err <> None -> body = EmptyString)
       /\ (requests tr = [] \/ requests tr = [(url, V019.timeout flags)])
       /\ (http_NewRequest "GET" url <> None -> tr = [])
       /\ (err = None <->
           http_NewRequest "GET" url = None
           /\ exists resp, fst (http_Client_Do url (V019.timeout flags) (world s))
                           = DoResp resp (body, None)))
  /\ (forall flags url (s : St W),
        exists body err s' tr,
          V013.httpGet flags url s = Done (body, err) s' tr
          /\ localNodes s' = localNodes s
          /\ (err <> None -> body = EmptyString)
          /\ (requests tr = [] \/ requests tr = [(url, V013.timeout flags)])
          /\ (http_NewRequest "GET" url <> None -> tr = [])
          /\ (err = None <->
              http_NewRequest "GET" url = None
              /\ exists resp, fst (http_Client_Do url (V013.timeout flags) (world s))
                              = DoResp resp (body, None))).
Proof.
  split.
  - intros flags url s.
    go_exec (V019.httpGet flags url s); eexists _, _, _, _; (split; [reflexivity|]);
      split_and!; try done; auto; http_iff.
  - intros flags url s.
    go_exec (V013.httpGet flags url s); eexists _, _, _, _; (split; [reflexivity|]);
      split_and!; try done; auto; http_iff.
Qed.

End Queries.

Lemma esQueryGet_accepts_only_200_witness :
  let s := mkSt (simWorld 1000 200 noNodesBody greenBody allBody None true) (registry1 0) in
  exists tr, V010.esQueryGet "http://es/_cluster/health" 10 s = Done (greenBody, None) s tr.
Proof.
  cbv zeta.
  edestruct (esQueryGet_accepts_only_200 "http://es/_cluster/health" 10
               (mkSt (simWorld 1000 200 noNodesBody greenBody allBody None true) (registry1 0)))
    as (body & err & Hrun & Hiff & Hbody & _); [reflexivity|].
  assert (err = None) as -> by (apply Hiff; by vm_compute).
  rewrite (Hbody eq_refl) in Hrun. by eexists.
Defined.

Section Getters.
Context {W : Type} `{Host W}.

Ltac names_done :=
  eexists _, _, _, _; (split; [reflexivity|]); split_and!; try done; auto;
  intros _;
  (eexists _, _; split_and!;
   [ unfold bodiesSeen; by go_read
   | eassumption
   | intros x; unfold activeSet; by rewrite elem_of_list_to_set ]).

(** X9: [getActiveNodes] always returns; it sends at most one request, to
    [<url>/_cat/nodes?h=name&format=json], runs no command and leaves the
    registry alone.  When it returns an error the set is empty; when it
    returns none, the set holds exactly the names of the nodes decoded
    from the body of the response. *)
Theorem getActiveNodes_names :
  (forall flags url (s : St W),
     exists active err s1 tr,
       V019.getActiveNodes flags url s = Done (active, err) s1 tr
       /\ localNodes s1 = localNodes s
       /\ commands tr = [] /\ sleeps tr = []
       /\ (requests tr = []
           \/ requests tr = [(url +:+ "/_cat/nodes?h=name&format=json", V019.timeout flags)])
       /\ (err <> None -> active = ∅)
       /\ (err = None ->
           exists body nodes,
             bodiesSeen (url +:+ "/_cat/nodes?h=name&format=json") tr = [body]
             /\ json_Unmarshal_Nodes body = (nodes, None)
             /\ forall x, x ∈ active <-> x ∈ Name <$> nodes))
  /\ (forall flags url (s : St W),
        exists active err s1 tr,
          V013.getActiveNodes flags url s = Done (active, err) s1 tr
          /\ localNodes s1 = localNodes s
          /\ commands tr = [] /\ sleeps tr = []
          /\ (requests tr = []
              \/ requests tr = [(url +:+ "/_cat/nodes?h=name&format=json", V013.timeout flags)])
          /\ (err <> None -> active = ∅)
          /\ (err = None ->
              exists body nodes,
                bodiesSeen (url +:+ "/_cat/nodes?h=name&format=json") tr = [body]
                /\ json_Unmarshal_Nodes body = (nodes, None)
                /\ forall x, x ∈ active <-> x ∈ Name <$> nodes))
  /\ (forall url timeout (s : St W),
        exists active err s1 tr,
          V010.getActiveNodes url timeout s = Done (active, err) s1 tr
          /\ localNodes s1 = localNodes s
          /\ commands tr = [] /\ sleeps tr = []
          /\ requests tr = [(url +:+ "/_cat/nodes?h=name&format=json", timeout)]
          /\ (err <> None -> active = ∅)
          /\ (err = None ->
              exists body nodes,
                bodiesSeen (url +:+ "/_cat/nodes?h=name&format=json") tr = [body]
                /\ json_Unmarshal_Nodes body = (nodes, None)
                /\ forall x, x ∈ active <-> x ∈ Name <$> nodes)).
Proof.
  split_and!.
  - intros flags url s. go_exec (V019.getActiveNodes flags url s); names_done.
  - intros flags url s. go_exec (V013.getActiveNodes flags url s); names_done.
  - intros url timeout s. go_exec (V010.getActiveNodes url timeout s); names_done.
Qed.

Ltac value_done :=
  eexists _, _, _, _; (split; [reflexivity|]); split_and!; try done; auto;
  first [ intros _; split; [done|]; unfold healthValues, allocValues; by go_read
        | intros _; unfold healthValues, allocValues; by go_read ].

(** X10: [getClusterStatus] and [getClusterRoutingAllocation] always
    return; each sends at most one request, to [<url>/_cluster/health] and
    to [<url>/_cluster/settings], runs no command and leaves the registry
    alone.  With an error the string returned is empty; with none it is the
    status (the [transient.cluster.routing.allocation.enable] setting)
    decoded from the body of the response. *)
Theorem cluster_getters_values :
  (forall flags url (s : St W),
     exists v err s1 tr,
       V019.getClusterStatus flags url s = Done (v, err) s1 tr
       /\ localNodes s1 = localNodes s
       /\ commands tr = [] /\ sleeps tr = []
       /\ (requests tr = []
           \/ requests tr = [(url +:+ "/_cluster/health", V019.timeout flags)])
       /\ (err <> None -> v = EmptyString /\ healthValues url tr = [])
       /\ (err = None -> healthValues url tr = [v]))
  /\ (forall flags url (s : St W),
        exists v err s1 tr,
          V019.getClusterRoutingAllocation flags url s = Done (v, err) s1 tr
          /\ localNodes s1 = localNodes s
          /\ commands tr = [] /\ sleeps tr = []
          /\ (requests tr = []
              \/ requests tr = [(url +:+ "/_cluster/settings", V019.timeout flags)])
          /\ (err <> None -> v = EmptyString /\ allocValues url tr = [])
          /\ (err = None -> allocValues url tr = [v]))
  /\ (forall flags url (s : St W),
        exists v err s1 tr,
          V013.getClusterStatus flags url s = Done (v, err) s1 tr
          /\ localNodes s1 = localNodes s
          /\ commands tr = [] /\ sleeps tr = []
          /\ (requests tr = []
              \/ requests tr = [(url +:+ "/_cluster/health", V013.timeout flags)])
          /\ (err <> None -> v = EmptyString /\ healthValues url tr = [])
          /\ (err = None -> healthValues url tr = [v]))
  /\ (forall flags url (s : St W),
        exists v err s1 tr,
          V013.getClusterRoutingAllocation flags url s = Done (v, err) s1 tr
          /\ localNodes s1 = localNodes s
          /\ commands tr = [] /\ sleeps tr = []
          /\ (requests tr = []
              \/ requests tr = [(url +:+ "/_cluster/settings", V013.timeout flags)])
          /\ (err <> None -> v = EmptyString /\ allocValues url tr = [])
          /\ (err = None -> allocValues url tr = [v]))
  /\ (forall url timeout (s : St W),
        exists v err s1 tr,
          V010.getClusterStatus url timeout s = Done (v, err) s1 tr
          /\ localNodes s1 = localNodes s
          /\ commands tr = [] /\ sleeps tr = []
          /\ requests tr = [(url +:+ "/_cluster/health", timeout)]
          /\ (err <> None -> v = EmptyString /\ healthValues url tr = [])
          /\ (err = None -> healthValues url tr = [v]))
  /\ (forall url timeout (s : St W),
        exists v err s1 tr,
          V010.getClusterRoutingAllocation url timeout s = Done (v, err) s1 tr
          /\ localNodes s1 = localNodes s
          /\ commands tr = [] /\ sleeps tr = []
          /\ requests tr = [(url +:+ "/_cluster/settings", timeout)]
          /\ (err <> None -> v = EmptyString /\ allocValues url tr = [])
          /\ (err = None -> allocValues url tr = [v])).
Proof.
  split_and!.
  - intros flags url s. go_exec (V019.getClusterStatus flags url s); value_done.
  - intros flags url s. go_exec (V019.getClusterRoutingAllocation flags url s); value_done.
  - intros flags url s. go_exec (V013.getClusterStatus flags url s); value_done.
  - intros flags url s. go_exec (V013.getClusterRoutingAllocation flags url s); value_done.
  - intros url timeout s. go_exec (V010.getClusterStatus url timeout s); value_done.
  - intros url timeout s. go_exec (V010.getClusterRoutingAllocation url timeout s); value_done.
Qed.

End Getters.

(** ** What one evaluation asks of the cluster and of the host *)

Section Calls.
Context {W : Type} `{Host W}.

Lemma service_calls_019 flags url svc (s : St W) :
  let tr := events (V019.nodeKeeper_service flags url svc s) in
  let health := (url +:+ "/_cluster/health", V019.timeout flags) in
  let settings := (url +:+ "/_cluster/settings", V019.timeout flags) in
  let show := ("systemctl", ["--no-pager"; "--property=ActiveEnterTimestamp"; "show";
                             svc +:+ ".service"]) in
  let restart := ("systemctl", ["restart"; svc +:+ ".service"]) in
  sleeps tr = []
  /\ (requests tr = [] \/ requests tr = [health] \/ requests tr = [health; settings])
  /\ (commands tr = [show] \/ commands tr = [show; restart])
  /\ (commands tr = [show; restart] -> requests tr = [health; settings])
  /\ (restarts tr <> [] -> requests tr = [health; settings])
  /\ (requests tr = [health; settings] -> exists h, healthValues url tr = [h]).
Proof.
  cbv zeta.
  destruct (rederive_019 (svc +:+ ".service") s) as (q & wq & ts' & qerr' & Hx & Hq').
  go_exec_with (V019.nodeKeeper_service flags url svc s)
    ltac:(unfold V019.nodeKeeper_service; rewrite (bind_Done _ _ _ _ _ _ Hq')).
  all: split_and!; try done; auto;
    try (intros _; eexists; unfold healthValues; by go_read);
    try (intros Hr; exfalso; apply Hr; reflexivity).
Qed.

Lemma service_calls_013 flags url svc (s : St W) :
  let tr := events (V013.nodeKeeper_service flags url svc s) in
  let health := (url +:+ "/_cluster/health", V013.timeout flags) in
  let settings := (url +:+ "/_cluster/settings", V013.timeout flags) in
  let restart := ("systemctl", ["restart"; svc +:+ ".service"]) in
  sleeps tr = []
  /\ (requests tr = [] \/ requests tr = [health] \/ requests tr = [health; settings])
  /\ (commands tr = [] \/ commands tr = [restart])
  /\ (commands tr = [restart] -> requests tr = [health; settings])
  /\ (restarts tr <> [] -> requests tr = [health; settings])
  /\ (requests tr = [health; settings] -> exists h, healthValues url tr = [h]).
Proof.
  cbv zeta.
  go_exec_with (V013.nodeKeeper_service flags url svc s)
    ltac:(unfold V013.nodeKeeper_service).
  all: split_and!; try done; auto;
    try (intros _; eexists; unfold healthValues; by go_read);
    try (intros Hr; exfalso; apply Hr; reflexivity).
Qed.

Lemma service_calls_010 url timeout noRestartTime svc (s : St W) :
  let tr := events (V010.nodeKeeper_service url timeout noRestartTime svc s) in
  let health := (url +:+ "/_cluster/health", timeout) in
  let settings := (url +:+ "/_cluster/settings", timeout) in
  let restart := ("service", [svc; "restart"]) in
  sleeps tr = []
  /\ (requests tr = [] \/ requests tr = [health] \/ requests tr = [health; settings])
  /\ (commands tr = [] \/ commands tr = [restart])
  /\ (commands tr = [restart] -> requests tr = [health; settings])
  /\ (restarts tr <> [] -> requests tr = [health; settings])
  /\ (requests tr = [health; settings] -> exists h, healthValues url tr = [h]).
Proof.
  cbv zeta.
  go_exec_with (V010.nodeKeeper_service url timeout noRestartTime svc s)
    ltac:(unfold V010.nodeKeeper_service).
  all: split_and!; try done; auto;
    try (intros _; eexists; unfold healthValues; by go_read);
    try (intros Hr; exfalso; apply Hr; reflexivity).
Qed.

End Calls.

(** ** Whole runs *)

Lemma requests_app tr1 tr2 : requests (tr1 ++ tr2) = requests tr1 ++ requests tr2.
Proof. apply omap_app. Qed.

Lemma commands_app tr1 tr2 : commands (tr1 ++ tr2) = commands tr1 ++ commands tr2.
Proof. apply omap_app. Qed.

Lemma sleeps_app tr1 tr2 : sleeps (tr1 ++ tr2) = sleeps tr1 ++ sleeps tr2.
Proof. apply omap_app. Qed.

Lemma sleeps_none tr : Forall (fun e => isSleep e = false) tr -> sleeps tr = [].
Proof.
  induction 1 as [|e tr He _ IH]; [done|]. unfold sleeps in *. cbn. rewrite IH.
  by destruct e.
Qed.

Section Total.
Context {W : Type}.

(** A loop whose bodies end, and keep an invariant of the registry, ends
    and keeps it. *)
Lemma forEach_total {A} (I : gmap string Entry -> Prop) (body : A -> M W unit) l s :
  (forall x s1, x ∈ l -> I (localNodes s1) ->
     exists s2, final (body x s1) = Some s2 /\ I (localNodes s2)) ->
  I (localNodes s) ->
  exists s', final (forEach body l s) = Some s' /\ I (localNodes s').
Proof.
  revert s. induction l as [|x l IH]; intros s Hb HI; cbn.
  - by exists s.
  - rewrite final_bind.
    destruct (Hb x s) as (s1 & Hf & HI1); [by left|done|].
    destruct (body x s) as [[] s1' tr| |]; cbn in Hf; [|done|done].
    injection Hf as ->. apply IH; [|done].
    intros y s2 Hy. apply Hb. by right.
Qed.

(** What a loop restarts is, in order, part of what its bodies may
    restart. *)
Lemma forEach_restarts (f : string -> string) (body : string -> M W unit) l s :
  (forall x s', restarts (events (body x s')) = [] \/ restarts (events (body x s')) = [f x]) ->
  restarts (events (forEach body l s)) `sublist_of` (f <$> l).
Proof.
  intros Hb. revert s. induction l as [|x l IH]; intros s; cbn; [done|].
  rewrite events_bind, restarts_app.
  assert (Hrest : restarts (match body x s with
                            | Done a s' _ => events (forEach body l s')
                            | _ => []
                            end) `sublist_of` (f <$> l)).
  { destruct (body x s) as [[] s' tr| |]; [apply IH | apply sublist_nil_l | apply sublist_nil_l]. }
  destruct (Hb x s) as [-> | ->]; cbn.
  - by apply sublist_cons.
  - by apply sublist_skip.
Qed.

End Total.

Section Runs.
Context {W : Type} `{Host W}.

Lemma sameShape_dom m m0 svc : sameShape m m0 -> is_Some (m0 !! svc) -> is_Some (m !! svc).
Proof.
  intros Hs [e He]. specialize (Hs svc). rewrite He in Hs.
  destruct (m !! svc); [done|discriminate].
Qed.

Lemma sameShape_insert m m0 svc e t :
  sameShape m m0 -> m !! svc = Some e ->
  sameShape (<[svc := setLastRestart e t]> m) m0.
Proof.
  intros Hs He x. destruct (decide (x = svc)) as [->|Hne].
  - rewrite lookup_insert_eq, <- Hs, He. done.
  - by rewrite lookup_insert_ne.
Qed.

Lemma service_shape_019 flags url svc (s : St W) m0 :
  sameShape (localNodes s) m0 -> is_Some (m0 !! svc) ->
  exists s', final (V019.nodeKeeper_service flags url svc s) = Some s'
             /\ sameShape (localNodes s') m0.
Proof.
  intros Hs Hin. apply (sameShape_dom _ _ _ Hs) in Hin as [e He].
  destruct (service_019 flags url svc s)
    as [(Hn & _)|(e' & ts & qerr & sq & trq & t & w1 & s' & wr & He' & _ & _ & Hf & _ & _ & Hm)];
    [congruence|].
  exists s'. split; [done|]. rewrite Hm. by apply sameShape_insert.
Qed.

Lemma service_shape_013 flags url svc (s : St W) m0 :
  sameShape (localNodes s) m0 -> is_Some (m0 !! svc) ->
  exists s', final (V013.nodeKeeper_service flags url svc s) = Some s'
             /\ sameShape (localNodes s') m0.
Proof.
  intros Hs Hin. apply (sameShape_dom _ _ _ Hs) in Hin as [e He].
  destruct (service_013 flags url svc s)
    as [(Hn & _)|(e' & t & w1 & s' & wr & He' & _ & Hf & _ & _ & Hm)]; [congruence|].
  exists s'. split; [done|]. rewrite Hm. destruct wr; [by apply sameShape_insert|done].
Qed.

Lemma service_shape_010 url timeout noRestartTime svc (s : St W) m0 :
  sameShape (localNodes s) m0 -> is_Some (m0 !! svc) ->
  exists s', final (V010.nodeKeeper_service url timeout noRestartTime svc s) = Some s'
             /\ sameShape (localNodes s') m0.
Proof.
  intros Hs Hin. apply (sameShape_dom _ _ _ Hs) in Hin as [e He].
  destruct (service_010 url timeout noRestartTime svc s)
    as [(Hn & _)|(e' & t & w1 & s' & wr & He' & _ & Hf & _ & _ & Hm)]; [congruence|].
  exists s'. split; [done|]. rewrite Hm. destruct wr; [by apply sameShape_insert|done].
Qed.

Lemma invalid_in_registry order (m : gmap string Entry) (active : gset string) x :
  x ∈ getInvalidNodes order m active -> is_Some (m !! x).
Proof. intros (e & He & _)%getInvalidNodes_spec. by exists e. Qed.

(** *** One pass *)

Section Pass.
Variable Q : list Event -> Prop.
Hypothesis Q_nil : Q [].
Hypothesis Q_app : forall a b, Q a -> Q b -> Q (a ++ b).
Hypothesis Q_log : forall l m, Q [EvLog l m].

Lemma pass_all_019 flags url (s : St W) :
  (forall s', Q (events (V019.getActiveNodes flags url s'))) ->
  (forall svc s', is_Some (localNodes s !! svc) ->
                  Q (events (V019.nodeKeeper_service flags url svc s'))) ->
  exists s' tr0,
    final (V019.nodeKeeper_pass flags url s) = Some s'
    /\ sameShape (localNodes s') (localNodes s)
    /\ events (V019.nodeKeeper_pass flags url s) = tr0 ++ [EvSleep interval]
    /\ Q tr0.
Proof using Q_nil Q_app Q_log.
  intros Hact Hsvc.
  destruct (getActiveNodes_019 flags url s) as (active & err & s1 & tr1 & Hg & Hn & _ & _).
  pose proof (Hact s) as Htr1. rewrite Hg in Htr1. cbn in Htr1.
  pose proof (pass_019 flags url s _ _ _ _ Hg Hn) as Hp. destruct err as [e|].
  - rewrite Hp. eexists _, (tr1 ++ [_]). split; [done|]. split; [done|]. cbn.
    split; [by rewrite <- app_assoc|]. apply Q_app; [done|]. auto.
  - destruct Hp as (order & w2 & _ & ->).
    rewrite final_prepend, final_afterLoop, events_prepend, events_afterLoop.
    destruct (0 <? length _)%nat.
    + destruct (forEach_total (fun m => sameShape m (localNodes s))
                  (V019.nodeKeeper_service flags url)
                  (getInvalidNodes order (localNodes s) active) (mkSt w2 (localNodes s)))
        as (s2 & Hf & Hs2).
      { intros x sa Hx Hsa. apply service_shape_019; [done|]. by eapply invalid_in_registry. }
      { done. }
      assert (HQl : Q (events (forEach (V019.nodeKeeper_service flags url)
                                 (getInvalidNodes order (localNodes s) active)
                                 (mkSt w2 (localNodes s))))).
      { apply forEach_events; [done|done|].
        intros x s' Hx. apply Hsvc. by eapply invalid_in_registry. }
      rewrite Hf. destruct (forEach _ _ _) as [[] s2' trl| |] eqn:Hloop; [|done|done].
      cbn. eexists _, (tr1 ++ trl). split; [done|]. split; [done|].
      split; [by rewrite app_assoc|]. apply Q_app; [done|].
      done.
    + cbn. eexists _, (tr1 ++ [_]). split; [done|]. split; [done|].
      split; [by rewrite <- app_assoc|]. apply Q_app; [done|]. auto.
Qed.

Lemma pass_all_013 flags url (s : St W) :
  (forall s', Q (events (V013.getActiveNodes flags url s'))) ->
  (forall svc s', is_Some (localNodes s !! svc) ->
                  Q (events (V013.nodeKeeper_service flags url svc s'))) ->
  exists s' tr0,
    final (V013.nodeKeeper_pass flags url s) = Some s'
    /\ sameShape (localNodes s') (localNodes s)
    /\ events (V013.nodeKeeper_pass flags url s) = tr0 ++ [EvSleep interval]
    /\ Q tr0.
Proof using Q_nil Q_app Q_log.
  intros Hact Hsvc.
  destruct (getActiveNodes_013 flags url s) as (active & err & s1 & tr1 & Hg & Hn & _ & _).
  pose proof (Hact s) as Htr1. rewrite Hg in Htr1. cbn in Htr1.
  pose proof (pass_013 flags url s _ _ _ _ Hg Hn) as Hp. destruct err as [e|].
  - rewrite Hp. eexists _, (tr1 ++ [_]). split; [done|]. split; [done|]. cbn.
    split; [by rewrite <- app_assoc|]. apply Q_app; [done|]. auto.
  - destruct Hp as (order & w2 & _ & ->).
    rewrite final_prepend, final_afterLoop, events_prepend, events_afterLoop.
    destruct (0 <? length _)%nat.
    + destruct (forEach_total (fun m => sameShape m (localNodes s))
                  (V013.nodeKeeper_service flags url)
                  (getInvalidNodes order (localNodes s) active) (mkSt w2 (localNodes s)))
        as (s2 & Hf & Hs2).
      { intros x sa Hx Hsa. apply service_shape_013; [done|]. by eapply invalid_in_registry. }
      { done. }
      assert (HQl : Q (events (forEach (V013.nodeKeeper_service flags url)
                                 (getInvalidNodes order (localNodes s) active)
                                 (mkSt w2 (localNodes s))))).
      { apply forEach_events; [done|done|].
        intros x s' Hx. apply Hsvc. by eapply invalid_in_registry. }
      rewrite Hf. destruct (forEach _ _ _) as [[] s2' trl| |] eqn:Hloop; [|done|done].
      cbn. eexists _, (tr1 ++ trl). split; [done|]. split; [done|].
      split; [by rewrite app_assoc|]. apply Q_app; [done|].
      done.
    + cbn. eexists _, (tr1 ++ [_]). split; [done|]. split; [done|].
      split; [by rewrite <- app_assoc|]. apply Q_app; [done|]. auto.
Qed.

Lemma pass_all_010 url timeout noRestartTime (s : St W) :
  (forall s', Q (events (V010.getActiveNodes url timeout s'))) ->
  (forall svc s', is_Some (localNodes s !! svc) ->
                  Q (events (V010.nodeKeeper_service url timeout noRestartTime svc s'))) ->
  exists s' tr0 tail,
    final (V010.nodeKeeper_pass url timeout noRestartTime s) = Some s'
    /\ sameShape (localNodes s') (localNodes s)
    /\ events (V010.nodeKeeper_pass url timeout noRestartTime s) = tr0 ++ tail
    /\ Q tr0 /\ (tail = [] \/ tail = [EvSleep interval]).
Proof using Q_nil Q_app Q_log.
  intros Hact Hsvc.
  destruct (getActiveNodes_010 url timeout s) as (active & err & s1 & tr1 & Hg & Hn & _ & _).
  pose proof (Hact s) as Htr1. rewrite Hg in Htr1. cbn in Htr1.
  pose proof (pass_010 url timeout noRestartTime s _ _ _ _ Hg Hn) as Hp. destruct err as [e|].
  - rewrite Hp. eexists _, (tr1 ++ [_]), []. split; [done|]. split; [by rewrite Hn|]. cbn.
    split; [by rewrite app_nil_r|]. split; [|by left]. apply Q_app; [done|]. auto.
  - destruct Hp as (order & w2 & _ & ->).
    rewrite final_prepend, final_afterLoop, events_prepend, events_afterLoop.
    destruct (0 <? length _)%nat.
    + destruct (forEach_total (fun m => sameShape m (localNodes s))
                  (V010.nodeKeeper_service url timeout noRestartTime)
                  (getInvalidNodes order (localNodes s) active) (mkSt w2 (localNodes s)))
        as (s2 & Hf & Hs2).
      { intros x sa Hx Hsa. apply service_shape_010; [done|]. by eapply invalid_in_registry. }
      { done. }
      assert (HQl : Q (events (forEach (V010.nodeKeeper_service url timeout noRestartTime)
                                 (getInvalidNodes order (localNodes s) active)
                                 (mkSt w2 (localNodes s))))).
      { apply forEach_events; [done|done|].
        intros x s' Hx. apply Hsvc. by eapply invalid_in_registry. }
      rewrite Hf. destruct (forEach _ _ _) as [[] s2' trl| |] eqn:Hloop; [|done|done].
      cbn. eexists _, (tr1 ++ trl), [_]. split; [done|]. split; [done|].
      split; [by rewrite app_assoc|]. split; [|by right]. apply Q_app; [done|].
      done.
    + cbn. eexists _, tr1, [_]. split; [done|]. split; [done|].
      split; [done|]. split; [done|by right].
Qed.

(** *** A run *)

Hypothesis Q_sleep : Q [EvSleep interval].

Lemma run_all_019 flags url passes (s : St W) :
  (forall s', Q (events (V019.getActiveNodes flags url s'))) ->
  (forall svc s', is_Some (localNodes s !! svc) ->
                  Q (events (V019.nodeKeeper_service flags url svc s'))) ->
  exists s', final (V019.nodeKeeper flags passes url s) = Some s'
             /\ sameShape (localNodes s') (localNodes s)
             /\ Q (events (V019.nodeKeeper flags passes url s)).
Proof using Q_nil Q_app Q_log Q_sleep.
  intros Hact. revert s. induction passes as [|n IH]; intros s Hsvc; cbn.
  - by exists s.
  - destruct (pass_all_019 flags url s Hact Hsvc) as (s1 & tr0 & Hf1 & Hs1 & He1 & HQ1).
    assert (HQp : Q (tr0 ++ [EvSleep interval])) by (apply Q_app; auto).
    rewrite <- He1 in HQp.
    rewrite final_bind, events_bind.
    destruct (V019.nodeKeeper_pass flags url s) as [[] s1' tr1| |]; [|done|done].
    cbn in Hf1, HQp. injection Hf1 as ->.
    destruct (IH s1) as (s2 & Hf2 & Hs2 & HQ2).
    { intros svc s' Hin. apply Hsvc. by apply (sameShape_dom _ _ _ (fun x => eq_sym (Hs1 x))). }
    exists s2. split; [done|]. split; [|by apply Q_app].
    intros x. by rewrite Hs2.
Qed.

Lemma run_all_013 flags url passes (s : St W) :
  (forall s', Q (events (V013.getActiveNodes flags url s'))) ->
  (forall svc s', is_Some (localNodes s !! svc) ->
                  Q (events (V013.nodeKeeper_service flags url svc s'))) ->
  exists s', final (V013.nodeKeeper flags passes url s) = Some s'
             /\ sameShape (localNodes s') (localNodes s)
             /\ Q (events (V013.nodeKeeper flags passes url s)).
Proof using Q_nil Q_app Q_log Q_sleep.
  intros Hact. revert s. induction passes as [|n IH]; intros s Hsvc; cbn.
  - by exists s.
  - destruct (pass_all_013 flags url s Hact Hsvc) as (s1 & tr0 & Hf1 & Hs1 & He1 & HQ1).
    assert (HQp : Q (tr0 ++ [EvSleep interval])) by (apply Q_app; auto).
    rewrite <- He1 in HQp.
    rewrite final_bind, events_bind.
    destruct (V013.nodeKeeper_pass flags url s) as [[] s1' tr1| |]; [|done|done].
    cbn in Hf1, HQp. injection Hf1 as ->.
    destruct (IH s1) as (s2 & Hf2 & Hs2 & HQ2).
    { intros svc s' Hin. apply Hsvc. by apply (sameShape_dom _ _ _ (fun x => eq_sym (Hs1 x))). }
    exists s2. split; [done|]. split; [|by apply Q_app].
    intros x. by rewrite Hs2.
Qed.

Lemma run_all_010 url timeout noRestartTime passes (s : St W) :
  (forall s', Q (events (V010.getActiveNodes url timeout s'))) ->
  (forall svc s', is_Some (localNodes s !! svc) ->
                  Q (events (V010.nodeKeeper_service url timeout noRestartTime svc s'))) ->
  exists s', final (V010.nodeKeeper passes url timeout noRestartTime s) = Some s'
             /\ sameShape (localNodes s') (localNodes s)
             /\ Q (events (V010.nodeKeeper passes url timeout noRestartTime s)).
Proof using Q_nil Q_app Q_log Q_sleep.
  intros Hact. revert s. induction passes as [|n IH]; intros s Hsvc; cbn.
  - by exists s.
  - destruct (pass_all_010 url timeout noRestartTime s Hact Hsvc) as (s1 & tr0 & tail & Hf1 & Hs1 & He1 & HQ1 & Htail).
    assert (HQp : Q (tr0 ++ tail)).
    { apply Q_app; [done|]. destruct Htail as [-> | ->]; auto. }
    rewrite <- He1 in HQp.
    rewrite final_bind, events_bind.
    destruct (V010.nodeKeeper_pass url timeout noRestartTime s) as [[] s1' tr1| |]; [|done|done].
    cbn in Hf1, HQp. injection Hf1 as ->.
    destruct (IH s1) as (s2 & Hf2 & Hs2 & HQ2).
    { intros svc s' Hin. apply Hsvc. by apply (sameShape_dom _ _ _ (fun x => eq_sym (Hs1 x))). }
    exists s2. split; [done|]. split; [|by apply Q_app].
    intros x. by rewrite Hs2.
Qed.

End Pass.
End Runs.

Section RunFacts.
Context {W : Type} `{Host W}.

Lemma getActiveNodes_calls_019 flags url (s : St W) :
  let tr := events (V019.getActiveNodes flags url s) in
  commands tr = [] /\ sleeps tr = []
  /\ (requests tr = []
      \/ requests tr = [(url +:+ "/_cat/nodes?h=name&format=json", V019.timeout flags)]).
Proof. cbv zeta. go_exec (V019.getActiveNodes flags url s); split_and!; auto. Qed.

Lemma getActiveNodes_calls_013 flags url (s : St W) :
  let tr := events (V013.getActiveNodes flags url s) in
  commands tr = [] /\ sleeps tr = []
  /\ (requests tr = []
      \/ requests tr = [(url +:+ "/_cat/nodes?h=name&format=json", V013.timeout flags)]).
Proof. cbv zeta. go_exec (V013.getActiveNodes flags url s); split_and!; auto. Qed.

Lemma getActiveNodes_calls_010 url timeout (s : St W) :
  let tr := events (V010.getActiveNodes url timeout s) in
  commands tr = [] /\ sleeps tr = []
  /\ requests tr = [(url +:+ "/_cat/nodes?h=name&format=json", timeout)].
Proof. cbv zeta. go_exec (V010.getActiveNodes url timeout s); split_and!; auto. Qed.

(** X11: [nodeKeeper] never panics on its registry: however many passes are
    observed, on any host and from any registry, the run goes on (the reads
    and writes of [localNodes[service][...]] always find the service), and
    the registry still holds the same services with the same instances:
    only timestamps change, no entry is added or removed. *)
Theorem nodeKeeper_never_panics :
  (forall flags passes url (s : St W),
     exists s', final (V019.nodeKeeper flags passes url s) = Some s'
                /\ sameShape (localNodes s') (localNodes s))
  /\ (forall flags passes url (s : St W),
        exists s', final (V013.nodeKeeper flags passes url s) = Some s'
                   /\ sameShape (localNodes s') (localNodes s))
  /\ (forall passes url timeout noRestartTime (s : St W),
        exists s', final (V010.nodeKeeper passes url timeout noRestartTime s) = Some s'
                   /\ sameShape (localNodes s') (localNodes s)).
Proof.
  split_and!.
  - intros flags passes url s.
    destruct (run_all_019 (fun _ => True) I (fun _ _ _ _ => I) (fun _ _ => I) I
                flags url passes s) as (s' & Hf & Hs & _); [done|done|]. by exists s'.
  - intros flags passes url s.
    destruct (run_all_013 (fun _ => True) I (fun _ _ _ _ => I) (fun _ _ => I) I
                flags url passes s) as (s' & Hf & Hs & _); [done|done|]. by exists s'.
  - intros passes url timeout noRestartTime s.
    destruct (run_all_010 (fun _ => True) I (fun _ _ _ _ => I) (fun _ _ => I) I
                url timeout noRestartTime passes s) as (s' & Hf & Hs & _); [done|done|].
    by exists s'.
Qed.

(** *** The requests of a run *)

Lemma allowed_app url timeout a b :
  Forall (allowedRequest url timeout) (requests a) ->
  Forall (allowedRequest url timeout) (requests b) ->
  Forall (allowedRequest url timeout) (requests (a ++ b)).
Proof. intros Ha Hb. rewrite requests_app. by apply Forall_app. Qed.

Ltac allowed_solve :=
  unfold allowedRequest; repeat constructor;
  rewrite ?elem_of_cons; auto.

(** X12: every request of a run of [nodeKeeper] goes to one of three
    addresses under the configured URL ([/_cat/nodes?h=name&format=json],
    [/_cluster/health], [/_cluster/settings]), with the configured
    timeout. *)
Theorem run_requests_allowed :
  (forall flags passes url (s : St W),
     Forall (allowedRequest url (V019.timeout flags))
            (requests (events (V019.nodeKeeper flags passes url s))))
  /\ (forall flags passes url (s : St W),
        Forall (allowedRequest url (V013.timeout flags))
               (requests (events (V013.nodeKeeper flags passes url s))))
  /\ (forall passes url timeout noRestartTime (s : St W),
        Forall (allowedRequest url timeout)
               (requests (events (V010.nodeKeeper passes url timeout noRestartTime s)))).
Proof.
  split_and!.
  - intros flags passes url s.
    destruct (run_all_019 (fun tr => Forall (allowedRequest url (V019.timeout flags)) (requests tr))
                (Forall_nil_2 _) (allowed_app _ _) (fun _ _ => Forall_nil_2 _) (Forall_nil_2 _)
                flags url passes s) as (s' & _ & _ & HQ); [| |done].
    + intros s'. destruct (getActiveNodes_calls_019 flags url s') as (_ & _ & [-> | ->]);
        allowed_solve.
    + intros svc s' _.
      destruct (service_calls_019 flags url svc s') as (_ & [-> | [-> | ->]] & _);
        allowed_solve.
  - intros flags passes url s.
    destruct (run_all_013 (fun tr => Forall (allowedRequest url (V013.timeout flags)) (requests tr))
                (Forall_nil_2 _) (allowed_app _ _) (fun _ _ => Forall_nil_2 _) (Forall_nil_2 _)
                flags url passes s) as (s' & _ & _ & HQ); [| |done].
    + intros s'. destruct (getActiveNodes_calls_013 flags url s') as (_ & _ & [-> | ->]);
        allowed_solve.
    + intros svc s' _.
      destruct (service_calls_013 flags url svc s') as (_ & [-> | [-> | ->]] & _);
        allowed_solve.
  - intros passes url timeout noRestartTime s.
    destruct (run_all_010 (fun tr => Forall (allowedRequest url timeout) (requests tr))
                (Forall_nil_2 _) (allowed_app _ _) (fun _ _ => Forall_nil_2 _) (Forall_nil_2 _)
                url timeout noRestartTime passes s) as (s' & _ & _ & HQ); [| |done].
    + intros s'. destruct (getActiveNodes_calls_010 url timeout s') as (_ & _ & ->).
      allowed_solve.
    + intros svc s' _.
      destruct (service_calls_010 url timeout noRestartTime svc s') as (_ & [-> | [-> | ->]] & _);
        allowed_solve.
Qed.

(** *** The commands of a run *)

(** X13: every command a run of [nodeKeeper] executes concerns a service of
    the registry: in 0.19 it is [systemctl restart <service>.service] or
    the query [systemctl --no-pager --property=ActiveEnterTimestamp show
    <service>.service]; in 0.13 [systemctl restart <service>.service]; in
    0.10 [service <service> restart]. *)
Theorem run_commands_allowed :
  (forall flags passes url (s : St W),
     Forall (fun c => exists svc, is_Some (localNodes s !! svc)
                                  /\ (c = showCommand (svc +:+ ".service")
                                      \/ c = restartCommand (svc +:+ ".service")))
            (commands (events (V019.nodeKeeper flags passes url s))))
  /\ (forall flags passes url (s : St W),
        Forall (fun c => exists svc, is_Some (localNodes s !! svc)
                                     /\ c = restartCommand (svc +:+ ".service"))
               (commands (events (V013.nodeKeeper flags passes url s))))
  /\ (forall passes url timeout noRestartTime (s : St W),
        Forall (fun c => exists svc, is_Some (localNodes s !! svc)
                                     /\ c = serviceRestartCommand svc)
               (commands (events (V010.nodeKeeper passes url timeout noRestartTime s)))).
Proof.
  split_and!.
  - intros flags passes url s.
    destruct (run_all_019
                (fun tr => Forall (fun c => exists svc, is_Some (localNodes s !! svc)
                                       /\ (c = showCommand (svc +:+ ".service")
                                           \/ c = restartCommand (svc +:+ ".service")))
                             (commands tr))
                (Forall_nil_2 _)
                (fun a b Ha Hb => eq_ind_r (Forall _) (proj2 (Forall_app _ _ _) (conj Ha Hb))
                                    (commands_app a b))
                (fun _ _ => Forall_nil_2 _) (Forall_nil_2 _)
                flags url passes s) as (s' & _ & _ & HQ); [| |done].
    + intros s'. destruct (getActiveNodes_calls_019 flags url s') as (-> & _). constructor.
    + intros svc s' Hin.
      destruct (service_calls_019 flags url svc s') as (_ & _ & [-> | ->] & _);
        repeat constructor; exists svc; auto.
  - intros flags passes url s.
    destruct (run_all_013
                (fun tr => Forall (fun c => exists svc, is_Some (localNodes s !! svc)
                                       /\ c = restartCommand (svc +:+ ".service"))
                             (commands tr))
                (Forall_nil_2 _)
                (fun a b Ha Hb => eq_ind_r (Forall _) (proj2 (Forall_app _ _ _) (conj Ha Hb))
                                    (commands_app a b))
                (fun _ _ => Forall_nil_2 _) (Forall_nil_2 _)
                flags url passes s) as (s' & _ & _ & HQ); [| |done].
    + intros s'. destruct (getActiveNodes_calls_013 flags url s') as (-> & _). constructor.
    + intros svc s' Hin.
      destruct (service_calls_013 flags url svc s') as (_ & _ & [-> | ->] & _);
        repeat constructor; exists svc; auto.
  - intros passes url timeout noRestartTime s.
    destruct (run_all_010
                (fun tr => Forall (fun c => exists svc, is_Some (localNodes s !! svc)
                                       /\ c = serviceRestartCommand svc)
                             (commands tr))
                (Forall_nil_2 _)
                (fun a b Ha Hb => eq_ind_r (Forall _) (proj2 (Forall_app _ _ _) (conj Ha Hb))
                                    (commands_app a b))
                (fun _ _ => Forall_nil_2 _) (Forall_nil_2 _)
                url timeout noRestartTime passes s) as (s' & _ & _ & HQ); [| |done].
    + intros s'. destruct (getActiveNodes_calls_010 url timeout s') as (-> & _). constructor.
    + intros svc s' Hin.
      destruct (service_calls_010 url timeout noRestartTime svc s') as (_ & _ & [-> | ->] & _);
        repeat constructor; exists svc; auto.
Qed.

End RunFacts.

Section Pace.
Context {W : Type} `{Host W}.

Lemma pass_sleeps_019 flags url (s : St W) :
  exists s', final (V019.nodeKeeper_pass flags url s) = Some s'
             /\ sleeps (events (V019.nodeKeeper_pass flags url s)) = [interval].
Proof.
  destruct (pass_all_019 (fun tr => sleeps tr = []) eq_refl
              (fun a b Ha Hb => eq_trans (sleeps_app a b)
                                  (eq_trans (f_equal (fun l => l ++ sleeps b) Ha) Hb))
              (fun _ _ => eq_refl) flags url s)
    as (s' & tr0 & Hf & _ & He & Hq).
  - intros s'. by destruct (getActiveNodes_calls_019 flags url s') as (_ & ? & _).
  - intros svc s' _. by destruct (service_calls_019 flags url svc s') as (? & _).
  - exists s'. split; [done|]. by rewrite He, sleeps_app, Hq.
Qed.

Lemma pass_sleeps_013 flags url (s : St W) :
  exists s', final (V013.nodeKeeper_pass flags url s) = Some s'
             /\ sleeps (events (V013.nodeKeeper_pass flags url s)) = [interval].
Proof.
  destruct (pass_all_013 (fun tr => sleeps tr = []) eq_refl
              (fun a b Ha Hb => eq_trans (sleeps_app a b)
                                  (eq_trans (f_equal (fun l => l ++ sleeps b) Ha) Hb))
              (fun _ _ => eq_refl) flags url s)
    as (s' & tr0 & Hf & _ & He & Hq).
  - intros s'. by destruct (getActiveNodes_calls_013 flags url s') as (_ & ? & _).
  - intros svc s' _. by destruct (service_calls_013 flags url svc s') as (? & _).
  - exists s'. split; [done|]. by rewrite He, sleeps_app, Hq.
Qed.

Lemma pass_sleeps_010 url timeout noRestartTime (s : St W) :
  exists s', final (V010.nodeKeeper_pass url timeout noRestartTime s) = Some s'
             /\ (sleeps (events (V010.nodeKeeper_pass url timeout noRestartTime s)) = []
                 \/ sleeps (events (V010.nodeKeeper_pass url timeout noRestartTime s))
                    = [interval]).
Proof.
  destruct (pass_all_010 (fun tr => sleeps tr = []) eq_refl
              (fun a b Ha Hb => eq_trans (sleeps_app a b)
                                  (eq_trans (f_equal (fun l => l ++ sleeps b) Ha) Hb))
              (fun _ _ => eq_refl) url timeout noRestartTime s)
    as (s' & tr0 & tail & Hf & _ & He & Hq & Htail).
  - intros s'. by destruct (getActiveNodes_calls_010 url timeout s') as (_ & ? & _).
  - intros svc s' _.
    by destruct (service_calls_010 url timeout noRestartTime svc s') as (? & _).
  - exists s'. split; [done|]. rewrite He, sleeps_app, Hq.
    destruct Htail as [-> | ->]; auto.
Qed.

(** X14: in 0.13 and 0.19 every pass of [nodeKeeper] ends with one sleep of
    [interval] (30) seconds, and nothing else sleeps: a run of [n] passes
    sleeps [n] times.  In 0.10 a pass sleeps once or, when the active
    nodes could not be fetched, not at all: a run of [n] passes sleeps at
    most [n] times, 30 seconds each. *)
Theorem run_sleeps_once_per_pass :
  (forall flags passes url (s : St W),
     sleeps (events (V019.nodeKeeper flags passes url s)) = replicate passes 30)
  /\ (forall flags passes url (s : St W),
        sleeps (events (V013.nodeKeeper flags passes url s)) = replicate passes 30)
  /\ (forall passes url timeout noRestartTime (s : St W),
        exists k, (k <= passes)%nat
                  /\ sleeps (events (V010.nodeKeeper passes url timeout noRestartTime s))
                     = replicate k 30).
Proof.
  split_and!.
  - intros flags passes url. induction passes as [|n IH]; intros s; cbn; [done|].
    destruct (pass_sleeps_019 flags url s) as (s1 & Hf & Hs).
    rewrite events_bind, sleeps_app, Hs.
    destruct (V019.nodeKeeper_pass flags url s) as [[] s1' tr1| |]; [|done|done].
    cbn. by rewrite IH.
  - intros flags passes url. induction passes as [|n IH]; intros s; cbn; [done|].
    destruct (pass_sleeps_013 flags url s) as (s1 & Hf & Hs).
    rewrite events_bind, sleeps_app, Hs.
    destruct (V013.nodeKeeper_pass flags url s) as [[] s1' tr1| |]; [|done|done].
    cbn. by rewrite IH.
  - intros passes url timeout noRestartTime.
    induction passes as [|n IH]; intros s; cbn; [by exists 0%nat|].
    destruct (pass_sleeps_010 url timeout noRestartTime s) as (s1 & Hf & Hs).
    rewrite events_bind, sleeps_app.
    destruct (V010.nodeKeeper_pass url timeout noRestartTime s) as [[] s1' tr1| |];
      [|done|done].
    destruct (IH s1') as (k & Hk & ->).
    destruct Hs as [-> | ->].
    + exists k. split; [lia|done].
    + exists (S k). split; [lia|done].
Qed.

(** *** What a pass restarts *)

Lemma unit_inj : Inj (=) (=) (fun x : string => x +:+ ".service").
Proof. intros a b Hab. by apply append_cancel_r in Hab. Qed.

Lemma restarts_afterLoop (r : Res W unit) : restarts (events (afterLoop r)) = restarts (events r).
Proof. rewrite events_afterLoop, restarts_app. destruct r; cbn; by rewrite app_nil_r. Qed.

Lemma pass_restarts_019 flags url (s : St W) :
  exists order active,
    restarts (events (V019.nodeKeeper_pass flags url s))
    `sublist_of` ((fun x => x +:+ ".service") <$> getInvalidNodes order (localNodes s) active).
Proof.
  destruct (getActiveNodes_019 flags url s) as (active & err & s1 & tr1 & Hg & Hn & Hr & _).
  pose proof (pass_019 flags url s _ _ _ _ Hg Hn) as Hp. destruct err as [e|].
  - exists [], active. rewrite Hp. cbn. rewrite restarts_app, Hr. apply sublist_nil_l.
  - destruct Hp as (order & w2 & _ & ->). exists order, active.
    rewrite events_prepend, restarts_app, Hr, restarts_afterLoop. cbv zeta.
    change ([] ++ ?x) with x.
    destruct (0 <? length (getInvalidNodes order (localNodes s) active))%nat;
      [|apply sublist_nil_l].
    apply forEach_restarts. intros x s'. apply service_own_019.
Qed.

Lemma pass_restarts_013 flags url (s : St W) :
  exists order active,
    restarts (events (V013.nodeKeeper_pass flags url s))
    `sublist_of` ((fun x => x +:+ ".service") <$> getInvalidNodes order (localNodes s) active).
Proof.
  destruct (getActiveNodes_013 flags url s) as (active & err & s1 & tr1 & Hg & Hn & Hr & _).
  pose proof (pass_013 flags url s _ _ _ _ Hg Hn) as Hp. destruct err as [e|].
  - exists [], active. rewrite Hp. cbn. rewrite restarts_app, Hr. apply sublist_nil_l.
  - destruct Hp as (order & w2 & _ & ->). exists order, active.
    rewrite events_prepend, restarts_app, Hr, restarts_afterLoop. cbv zeta.
    change ([] ++ ?x) with x.
    destruct (0 <? length (getInvalidNodes order (localNodes s) active))%nat;
      [|apply sublist_nil_l].
    apply forEach_restarts. intros x s'. apply service_own_013.
Qed.

Lemma pass_restarts_010 url timeout noRestartTime (s : St W) :
  exists order active,
    restarts (events (V010.nodeKeeper_pass url timeout noRestartTime s))
    `sublist_of` (id <$> getInvalidNodes order (localNodes s) active).
Proof.
  destruct (getActiveNodes_010 url timeout s) as (active & err & s1 & tr1 & Hg & Hn & Hr & _).
  pose proof (pass_010 url timeout noRestartTime s _ _ _ _ Hg Hn) as Hp. destruct err as [e|].
  - exists [], active. rewrite Hp. cbn. rewrite restarts_app, Hr. apply sublist_nil_l.
  - destruct Hp as (order & w2 & _ & ->). exists order, active.
    rewrite events_prepend, restarts_app, Hr, restarts_afterLoop. cbv zeta.
    change ([] ++ ?x) with x.
    destruct (0 <? length (getInvalidNodes order (localNodes s) active))%nat;
      [|apply sublist_nil_l].
    apply forEach_restarts. intros x s'. apply service_own_010.
Qed.

(** X15: in one pass no unit is restarted twice, and no more units are
    restarted than the registry has services; each one restarted is the
    unit of a service of the registry. *)
Theorem pass_restarts_each_once :
  (forall flags url (s : St W),
     let rs := restarts (events (V019.nodeKeeper_pass flags url s)) in
     NoDup rs /\ (length rs <= size (localNodes s))%nat
     /\ forall u, u ∈ rs -> exists svc, u = svc +:+ ".service" /\ is_Some (localNodes s !! svc))
  /\ (forall flags url (s : St W),
        let rs := restarts (events (V013.nodeKeeper_pass flags url s)) in
        NoDup rs /\ (length rs <= size (localNodes s))%nat
        /\ forall u, u ∈ rs -> exists svc, u = svc +:+ ".service" /\ is_Some (localNodes s !! svc))
  /\ (forall url timeout noRestartTime (s : St W),
        let rs := restarts (events (V010.nodeKeeper_pass url timeout noRestartTime s)) in
        NoDup rs /\ (length rs <= size (localNodes s))%nat
        /\ forall u, u ∈ rs -> is_Some (localNodes s !! u)).
Proof.
  assert (Hlen : forall order (m : gmap string Entry) (active : gset string),
             (length (getInvalidNodes order m active) <= size m)%nat).
  { intros order m active. rewrite getInvalidNodes_filter, length_fmap.
    etrans; [apply length_filter|].
    by rewrite (Permutation_length (permute_Permutation _ _)), length_map_to_list. }
  split_and!.
  - intros flags url s rs. subst rs.
    destruct (pass_restarts_019 flags url s) as (order & active & Hsub). split_and!.
    + eapply sublist_NoDup; [|exact Hsub].
      apply (@NoDup_fmap_2 _ _ _ unit_inj), getInvalidNodes_NoDup.
    + etrans; [by apply sublist_length|]. rewrite length_fmap. apply Hlen.
    + intros u Hu. apply (elem_of_sublist _ _ _ Hu) in Hsub as Hu'.
      apply list_elem_of_fmap in Hu' as (svc & -> & Hin).
      exists svc. split; [done|]. by eapply invalid_in_registry.
  - intros flags url s rs. subst rs.
    destruct (pass_restarts_013 flags url s) as (order & active & Hsub). split_and!.
    + eapply sublist_NoDup; [|exact Hsub].
      apply (@NoDup_fmap_2 _ _ _ unit_inj), getInvalidNodes_NoDup.
    + etrans; [by apply sublist_length|]. rewrite length_fmap. apply Hlen.
    + intros u Hu. apply (elem_of_sublist _ _ _ Hu) in Hsub as Hu'.
      apply list_elem_of_fmap in Hu' as (svc & -> & Hin).
      exists svc. split; [done|]. by eapply invalid_in_registry.
  - intros url timeout noRestartTime s rs. subst rs.
    destruct (pass_restarts_010 url timeout noRestartTime s) as (order & active & Hsub).
    rewrite list_fmap_id in Hsub. split_and!.
    + eapply sublist_NoDup; [|exact Hsub]. apply getInvalidNodes_NoDup.
    + etrans; [by apply sublist_length|]. apply Hlen.
    + intros u Hu. apply (elem_of_sublist _ _ _ Hu) in Hsub as Hu'.
      by eapply invalid_in_registry.
Qed.

End Pace.

Section More.
Context {W : Type} `{Host W}.

(** *** The order of the requests of an evaluation *)

(** X16: an evaluation of a service sends no request, or one for the
    health, or one for the health and then one for the settings, with the
    configured timeout; it asks for the settings only after a health it
    could decode, and it runs a restart command only after both requests,
    made in that same evaluation.  It never sleeps. *)
Theorem evaluation_asks_health_then_settings :
  (forall flags url svc (s : St W),
     let tr := events (V019.nodeKeeper_service flags url svc s) in
     let health := (url +:+ "/_cluster/health", V019.timeout flags) in
     let settings := (url +:+ "/_cluster/settings", V019.timeout flags) in
     sleeps tr = []
     /\ (requests tr = [] \/ requests tr = [health] \/ requests tr = [health; settings])
     /\ (restarts tr <> [] -> requests tr = [health; settings])
     /\ (requests tr = [health; settings] -> exists h, healthValues url tr = [h]))
  /\ (forall flags url svc (s : St W),
        let tr := events (V013.nodeKeeper_service flags url svc s) in
        let health := (url +:+ "/_cluster/health", V013.timeout flags) in
        let settings := (url +:+ "/_cluster/settings", V013.timeout flags) in
        sleeps tr = []
        /\ (requests tr = [] \/ requests tr = [health] \/ requests tr = [health; settings])
        /\ (restarts tr <> [] -> requests tr = [health; settings])
        /\ (requests tr = [health; settings] -> exists h, healthValues url tr = [h]))
  /\ (forall url timeout noRestartTime svc (s : St W),
        let tr := events (V010.nodeKeeper_service url timeout noRestartTime svc s) in
        let health := (url +:+ "/_cluster/health", timeout) in
        let settings := (url +:+ "/_cluster/settings", timeout) in
        sleeps tr = []
        /\ (requests tr = [] \/ requests tr = [health] \/ requests tr = [health; settings])
        /\ (restarts tr <> [] -> requests tr = [health; settings])
        /\ (requests tr = [health; settings] -> exists h, healthValues url tr = [h])).
Proof.
  split_and!.
  - intros flags url svc s.
    destruct (service_calls_019 flags url svc s) as (? & ? & _ & _ & ? & ?). by split_and!.
  - intros flags url svc s.
    destruct (service_calls_013 flags url svc s) as (? & ? & _ & _ & ? & ?). by split_and!.
  - intros url timeout noRestartTime svc s.
    destruct (service_calls_010 url timeout noRestartTime svc s) as (? & ? & _ & _ & ? & ?).
    by split_and!.
Qed.

(** *** A pass in which every local node is active *)

Lemma getInvalidNodes_all_active order (m : gmap string Entry) (active : gset string) :
  (forall svc e, m !! svc = Some e -> instance e ∈ active) ->
  getInvalidNodes order m active = [].
Proof.
  intros Hall. destruct (getInvalidNodes order m active) as [|x l] eqn:Hx; [done|].
  assert (x ∈ getInvalidNodes order m active) as Hin by (rewrite Hx; by left).
  apply getInvalidNodes_spec in Hin as (e & He & Hn). by destruct Hn; eauto.
Qed.

(** X17: when the active nodes are fetched and every service of the
    registry (there may be none) has its instance among them, the pass
    does nothing more than log that at debug level (0.13, 0.19) and sleep:
    no clock is read, no command is run, no further request is sent, and
    the registry is as before. *)
Theorem pass_all_active_is_idle :
  (forall flags url (s : St W) active s1 tr1,
     V019.getActiveNodes flags url s = Done (active, None) s1 tr1 ->
     (forall svc e, localNodes s !! svc = Some e -> instance e ∈ active) ->
     events (V019.nodeKeeper_pass flags url s)
     = tr1 ++ [EvLog Debug "All local nodes are active members of the cluster"; EvSleep 30]
     /\ localNodes <$> final (V019.nodeKeeper_pass flags url s) = Some (localNodes s))
  /\ (forall flags url (s : St W) active s1 tr1,
        V013.getActiveNodes flags url s = Done (active, None) s1 tr1 ->
        (forall svc e, localNodes s !! svc = Some e -> instance e ∈ active) ->
        events (V013.nodeKeeper_pass flags url s)
        = tr1 ++ [EvLog Debug "All local nodes are active members of the cluster"; EvSleep 30]
        /\ localNodes <$> final (V013.nodeKeeper_pass flags url s) = Some (localNodes s))
  /\ (forall url timeout noRestartTime (s : St W) active s1 tr1,
        V010.getActiveNodes url timeout s = Done (active, None) s1 tr1 ->
        (forall svc e, localNodes s !! svc = Some e -> instance e ∈ active) ->
        events (V010.nodeKeeper_pass url timeout noRestartTime s) = tr1 ++ [EvSleep 30]
        /\ localNodes <$> final (V010.nodeKeeper_pass url timeout noRestartTime s)
           = Some (localNodes s)).
Proof.
  split_and!.
  - intros flags url s active s1 tr1 Hg Hall.
    destruct (getActiveNodes_019 flags url s) as (a' & e' & s1' & tr1' & Hg' & Hn & _).
    rewrite Hg in Hg'. simplify_eq.
    destruct (pass_019 flags url s _ _ _ _ Hg Hn) as (order & w2 & _ & ->).
    rewrite (getInvalidNodes_all_active _ _ _ Hall). done.
  - intros flags url s active s1 tr1 Hg Hall.
    destruct (getActiveNodes_013 flags url s) as (a' & e' & s1' & tr1' & Hg' & Hn & _).
    rewrite Hg in Hg'. simplify_eq.
    destruct (pass_013 flags url s _ _ _ _ Hg Hn) as (order & w2 & _ & ->).
    rewrite (getInvalidNodes_all_active _ _ _ Hall). done.
  - intros url timeout noRestartTime s active s1 tr1 Hg Hall.
    destruct (getActiveNodes_010 url timeout s) as (a' & e' & s1' & tr1' & Hg' & Hn & _).
    rewrite Hg in Hg'. simplify_eq.
    destruct (pass_010 url timeout noRestartTime s _ _ _ _ Hg Hn) as (order & w2 & _ & ->).
    rewrite (getInvalidNodes_all_active _ _ _ Hall). done.
Qed.

(** *** The timestamp in 0.10 and 0.13 *)

(** X18: in 0.13 and 0.10, where the timestamp is written only after a
    restart, an evaluation never decreases it: it leaves the entry as it
    was or sets its timestamp to [now], which is then later than the old
    one by more than the period.  (The period is not negative and the
    times are those of a clock after 1970.) *)
Theorem timestamp_never_decreases_013_010 :
  (forall flags url svc (s : St W) t w1 e s',
     time_Now_Unix (world s) = (t, w1) -> localNodes s !! svc = Some e ->
     final (V013.nodeKeeper_service flags url svc s) = Some s' ->
     0 <= mul64 (V013.noRestartTime flags) 60 ->
     0 <= lastRestart e < 2 ^ 63 -> 0 <= t < 2 ^ 63 ->
     localNodes s' = localNodes s
     \/ (localNodes s' = <[svc := setLastRestart e t]> (localNodes s)
         /\ lastRestart e + mul64 (V013.noRestartTime flags) 60 < t))
  /\ (forall url timeout noRestartTime svc (s : St W) t w1 e s',
        time_Now_Unix (world s) = (t, w1) -> localNodes s !! svc = Some e ->
        final (V010.nodeKeeper_service url timeout noRestartTime svc s) = Some s' ->
        0 <= mul64 noRestartTime 60 ->
        0 <= lastRestart e < 2 ^ 63 -> 0 <= t < 2 ^ 63 ->
        localNodes s' = localNodes s
        \/ (localNodes s' = <[svc := setLastRestart e t]> (localNodes s)
            /\ lastRestart e + mul64 noRestartTime 60 < t)).
Proof.
  split.
  - intros flags url svc s t w1 e s' Ht He Hf Hp Hl Hc.
    destruct (evaluated_013 flags url svc s t w1 e Ht He) as (s'' & wr & Hf' & _ & Hev & Hs).
    rewrite Hf in Hf'. simplify_eq.
    rewrite (wrap64_id t) in * by (unfold int64_range; lia).
    destruct wr; [right|by left]. split; [done|].
    apply evaluated_gate in Hev. unfold sub64 in Hev.
    rewrite wrap64_id in Hev by (unfold int64_range; lia). lia.
  - intros url timeout noRestartTime svc s t w1 e s' Ht He Hf Hp Hl Hc.
    destruct (evaluated_010 url timeout noRestartTime svc s t w1 e Ht He)
      as (s'' & wr & Hf' & _ & Hev & Hs).
    rewrite Hf in Hf'. simplify_eq.
    rewrite (wrap64_id t) in * by (unfold int64_range; lia).
    destruct wr; [right|by left]. split; [done|].
    apply evaluated_gate in Hev. unfold sub64 in Hev.
    rewrite wrap64_id in Hev by (unfold int64_range; lia). lia.
Qed.

(** *** The commands that restart *)


End More.

(** ** [main] *)

Section Main.
Context {W : Type} `{Host W}.

(** What [main] does with the configuration, case by case. *)
Lemma main_cases_019 flags passes (s : St W) :
  exists src rerr w pre,
    ioutil_ReadFile (V019.config flags) (world s) = ((src, rerr), w)
    /\ match rerr, yaml_Unmarshal src with
       | Some _, _ =>
           V019.main flags passes s
           = prepend pre (V019.nodeKeeper flags passes (V019.esUrl flags) (mkSt w ∅))
       | None, (nodes, None) =>
           V019.main flags passes s
           = prepend pre (V019.nodeKeeper flags passes (V019.esUrl flags)
                            (mkSt w (localNodesToMap nodes)))
       | None, (_, Some _) => V019.main flags passes s = Exit 1 pre
       end
    /\ requests pre = [] /\ commands pre = [] /\ sleeps pre = [].
Proof.
  destruct (ioutil_ReadFile (V019.config flags) (world s)) as [[src rerr] w] eqn:Hr.
  exists src, rerr, w.
  unfold V019.main, V019.parseConfig. autounfold with go. go_simpl.
  destruct (V019.dryRun flags); go_simpl; rewrite Hr; go_simpl;
    destruct rerr as [e|]; go_simpl;
    try (destruct (yaml_Unmarshal src) as [nodes [e|]]; go_simpl);
    try (destruct (V019.nodeKeeper _ _ _ _));
    first [ by eexists [_; _; _; _; _; _] | by eexists [_; _; _; _; _]
          | by eexists [_; _; _; _] | by eexists [_; _; _] ].
Qed.

Lemma main_cases_013 flags passes (s : St W) :
  exists src rerr w pre,
    ioutil_ReadFile (V013.config flags) (world s) = ((src, rerr), w)
    /\ match rerr, yaml_Unmarshal src with
       | Some _, _ =>
           V013.main flags passes s
           = prepend pre (V013.nodeKeeper flags passes (V013.esUrl flags) (mkSt w ∅))
       | None, (nodes, None) =>
           V013.main flags passes s
           = prepend pre (V013.nodeKeeper flags passes (V013.esUrl flags)
                            (mkSt w (localNodesToMap nodes)))
       | None, (_, Some _) => V013.main flags passes s = Exit 1 pre
       end
    /\ requests pre = [] /\ commands pre = [] /\ sleeps pre = [].
Proof.
  destruct (ioutil_ReadFile (V013.config flags) (world s)) as [[src rerr] w] eqn:Hr.
  exists src, rerr, w.
  unfold V013.main, V013.parseConfig. autounfold with go. go_simpl.
  destruct (V013.dryRun flags); go_simpl; rewrite Hr; go_simpl;
    destruct rerr as [e|]; go_simpl;
    try (destruct (yaml_Unmarshal src) as [nodes [e|]]; go_simpl);
    try (destruct (V013.nodeKeeper _ _ _ _));
    first [ by eexists [_; _; _; _; _; _] | by eexists [_; _; _; _; _]
          | by eexists [_; _; _; _] | by eexists [_; _; _] ].
Qed.

Lemma main_cases_010 flags passes (s : St W) :
  exists src rerr w pre,
    ioutil_ReadFile (V010.config flags) (world s) = ((src, rerr), w)
    /\ match rerr, yaml_Unmarshal src with
       | Some _, _ => V010.main flags passes s = Exit 1 pre
       | None, (nodes, None) =>
           V010.main flags passes s
           = prepend pre (V010.nodeKeeper passes (V010.esURL flags) (V010.timeout flags)
                            (V010.noRestartTime flags) (mkSt w (localNodesToMap nodes)))
       | None, (_, Some _) => V010.main flags passes s = Exit 1 pre
       end
    /\ requests pre = [] /\ commands pre = [] /\ sleeps pre = [].
Proof.
  destruct (ioutil_ReadFile (V010.config flags) (world s)) as [[src rerr] w] eqn:Hr.
  exists src, rerr, w.
  unfold V010.main, V010.parseConfig. autounfold with go. go_simpl.
  rewrite Hr; go_simpl;
    destruct rerr as [e|]; go_simpl;
    try (destruct (yaml_Unmarshal src) as [nodes [e|]]; go_simpl);
    try (destruct (V010.nodeKeeper _ _ _ _ _));
    first [ by eexists [_; _; _] | by eexists [_; _] | by eexists [_] ].
Qed.

(** X20: when the configuration file is read and decoded, [main] runs
    [nodeKeeper] on the registry [localNodesToMap] builds from it, whatever
    the state it was started in; before that it has sent no request and
    run no command. *)
Theorem main_runs_nodeKeeper_on_config :
  (forall flags passes (s : St W) src w nodes,
     ioutil_ReadFile (V019.config flags) (world s) = ((src, None), w) ->
     yaml_Unmarshal src = (nodes, None) ->
     exists pre,
       V019.main flags passes s
       = prepend pre (V019.nodeKeeper flags passes (V019.esUrl flags)
                        (mkSt w (localNodesToMap nodes)))
       /\ requests pre = [] /\ commands pre = [])
  /\ (forall flags passes (s : St W) src w nodes,
        ioutil_ReadFile (V013.config flags) (world s) = ((src, None), w) ->
        yaml_Unmarshal src = (nodes, None) ->
        exists pre,
          V013.main flags passes s
          = prepend pre (V013.nodeKeeper flags passes (V013.esUrl flags)
                           (mkSt w (localNodesToMap nodes)))
          /\ requests pre = [] /\ commands pre = [])
  /\ (forall flags passes (s : St W) src w nodes,
        ioutil_ReadFile (V010.config flags) (world s) = ((src, None), w) ->
        yaml_Unmarshal src = (nodes, None) ->
        exists pre,
          V010.main flags passes s
          = prepend pre (V010.nodeKeeper passes (V010.esURL flags) (V010.timeout flags)
                           (V010.noRestartTime flags) (mkSt w (localNodesToMap nodes)))
          /\ requests pre = [] /\ commands pre = []).
Proof.
  split_and!.
  - intros flags passes s src w nodes Hr Hy.
    destruct (main_cases_019 flags passes s) as (src' & rerr & w' & pre & Hr' & Hm & ? & ? & _).
    rewrite Hr in Hr'. simplify_eq. rewrite Hy in Hm. by exists pre.
  - intros flags passes s src w nodes Hr Hy.
    destruct (main_cases_013 flags passes s) as (src' & rerr & w' & pre & Hr' & Hm & ? & ? & _).
    rewrite Hr in Hr'. simplify_eq. rewrite Hy in Hm. by exists pre.
  - intros flags passes s src w nodes Hr Hy.
    destruct (main_cases_010 flags passes s) as (src' & rerr & w' & pre & Hr' & Hm & ? & ? & _).
    rewrite Hr in Hr'. simplify_eq. rewrite Hy in Hm. by exists pre.
Qed.


End Main.

(** ** The further properties on examples *)

(** The one node the cluster lists is the expected instance: the pass is
    idle. *)
Lemma pass_all_active_is_idle_witness :
  let w := simWorld 1000 200 instANodesBody greenBody allBody None true in
  let r := V019.nodeKeeper_pass (flags019 600 false) "http://es" (mkSt w (registry1 0)) in
  exists tr1,
    events r
    = tr1 ++ [EvLog Debug "All local nodes are active members of the cluster"; EvSleep 30]
    /\ localNodes <$> final r = Some (registry1 0).
Proof.
  cbv zeta. destruct (@pass_all_active_is_idle Sim _) as (H19 & _).
  eexists.
  eapply (H19 (flags019 600 false) "http://es"
            (mkSt (simWorld 1000 200 instANodesBody greenBody allBody None true) (registry1 0))
            (activeSet [ {| Name := "instA" |} ])).
  - reflexivity.
  - intros svc e Hl. cbn in Hl. unfold registry1 in Hl.
    apply lookup_singleton_Some in Hl as [<- <-].
    unfold activeSet. apply elem_of_list_to_set. by left.
Defined.

(** A restart at 1000 of a service never restarted, period 10 minutes. *)
Lemma timestamp_never_decreases_witness :
  let w := simWorld 1000 200 noNodesBody greenBody allBody None true in
  let s := mkSt w (registry1 0) in
  let e := {| instance := "instA"; lastRestart := 0 |} in
  exists s',
    final (V013.nodeKeeper_service (flags013 10 false) "http://es" "svc1" s) = Some s'
    /\ (localNodes s' = localNodes s
        \/ (localNodes s' = <["svc1" := setLastRestart e 1000]> (localNodes s)
            /\ lastRestart e + mul64 10 60 < 1000)).
Proof.
  cbv zeta. destruct (@timestamp_never_decreases_013_010 Sim _) as (H13 & _).
  eexists. split; [by vm_compute|].
  eapply (H13 (flags013 10 false) "http://es" "svc1"
            (mkSt (simWorld 1000 200 noNodesBody greenBody allBody None true) (registry1 0))
            1000 _ {| instance := "instA"; lastRestart := 0 |}).
  - reflexivity.
  - reflexivity.
  - by vm_compute.
  - by vm_compute.
  - cbn. lia.
  - lia.
Defined.


(** [main] on a configuration with one node. *)
Lemma main_runs_nodeKeeper_on_config_witness :
  let w := simWorld 1000 200 noNodesBody greenBody allBody None true in
  exists pre,
    V019.main (flags019 600 false) 1 (mkSt w ∅)
    = prepend pre
        (V019.nodeKeeper (flags019 600 false) 1 "http://es"
           (mkSt w (localNodesToMap {| Nodes := [ {| Instance := "instA"; Service := "svc1" |} ] |})))
    /\ requests pre = [] /\ commands pre = [].
Proof.
  cbv zeta. destruct (@main_runs_nodeKeeper_on_config Sim _) as (H19 & _).
  eapply (H19 (flags019 600 false) 1%nat); reflexivity.
Defined.
